(** * Holdings reports: a shallow embedding of
      [beancount/reports/holdings_reports.py] and its properties. *)

From Stdlib Require Import ZArith QArith List String Ascii Bool Lia.
From Stdlib Require Import DecimalString.
From Stdlib Require Import Sorting.Sorted Sorting.Permutation.
From Stdlib Require Import Structures.OrderedTypeEx.
Import ListNotations.

Local Open Scope list_scope.
Local Open Scope string_scope.

(* ================================================================== *)
(** * Part I: definitions *)
(* ================================================================== *)

(** ** Python values used by the module *)

(** Python [str] values are modelled as [string], a sequence of characters
    with code points 0..255.  A finite [Decimal] is modelled by its value,
    a rational.  The operators of [Decimal] do not give the exact result:
    they round it to the precision of the decimal context, see [dec_add]
    and its siblings. *)
Definition Decimal := Q.

(** What [sum] gives on decimals: the [int] 0 when there is nothing to add,
    a [Decimal] otherwise. *)
Inductive Num : Type :=
| Int0
| Dec (d : Decimal).

(** The value of a number. *)
Definition num_value (x : Num) : Decimal :=
  match x with
  | Int0 => 0%Q
  | Dec d => d
  end.

(** The exceptions the modelled code can raise.  [ArithmeticError] stands
    for its subclasses [ZeroDivisionError], [decimal.DivisionByZero] and
    [decimal.InvalidOperation]. *)
Inductive exn : Type :=
| IOError (msg : string)
| RuntimeError
| ValueError
| TypeError
| KeyError
| NameError
| ArithmeticError
| AssertionError
| SystemExit (msg : string).

(** Outcome of a call that either returns or raises. *)
Inductive result (A : Type) : Type :=
| Ok (a : A)
| Raise (e : exn).
Arguments Ok {A} a.
Arguments Raise {A} e.

Definition bind {A B : Type} (m : result A) (k : A -> result B) : result B :=
  match m with
  | Ok a => k a
  | Raise e => Raise e
  end.

Notation "x <- m ;; k" := (bind m (fun x => k))
  (at level 61, m at next level, right associativity).

(** ** [re.match] on the pattern language the module uses *)

Module Re.

(** Regular expressions: the fragment of Python's pattern language that
    the module uses (literal characters, [.], [*], sequencing), closed
    under derivatives with [Empty] and [Alt]. *)
Inductive regex : Type :=
| Empty                       (* matches nothing *)
| Eps                         (* matches the empty string *)
| Chr (c : ascii)             (* a literal character *)
| Dot                         (* [.]: any character except newline *)
| Cat (r1 r2 : regex)
| Alt (r1 r2 : regex)
| Star (r : regex).

Definition newline : ascii := "010"%char.

Fixpoint nullable (r : regex) : bool :=
  match r with
  | Empty => false
  | Eps => true
  | Chr _ => false
  | Dot => false
  | Cat r1 r2 => nullable r1 && nullable r2
  | Alt r1 r2 => nullable r1 || nullable r2
  | Star _ => true
  end.

(** Brzozowski derivative of [r] by the character [c]. *)
Fixpoint deriv (c : ascii) (r : regex) : regex :=
  match r with
  | Empty => Empty
  | Eps => Empty
  | Chr d => if Ascii.eqb c d then Eps else Empty
  | Dot => if Ascii.eqb c newline then Empty else Eps
  | Cat r1 r2 =>
      if nullable r1
      then Alt (Cat (deriv c r1) r2) (deriv c r2)
      else Cat (deriv c r1) r2
  | Alt r1 r2 => Alt (deriv c r1) (deriv c r2)
  | Star r1 => Cat (deriv c r1) (Star r1)
  end.

(** [re.match(r, s)] is truthy when some prefix of [s] (starting at
    position 0) matches [r]. *)
Fixpoint re_match (r : regex) (s : string) : bool :=
  nullable r ||
  match s with
  | EmptyString => false
  | String c s' => re_match (deriv c r) s'
  end.

(** A literal word as a pattern. *)
Fixpoint lit (w : string) : regex :=
  match w with
  | EmptyString => Eps
  | String c w' => Cat (Chr c) (lit w')
  end.

(** Declarative meaning of a pattern: the strings it matches entirely. *)
Inductive matches : regex -> string -> Prop :=
| MEps : matches Eps ""
| MChr c : matches (Chr c) (String c "")
| MDot c : c <> newline -> matches Dot (String c "")
| MCat r1 r2 s1 s2 :
    matches r1 s1 -> matches r2 s2 -> matches (Cat r1 r2) (s1 ++ s2)
| MAltL r1 r2 s : matches r1 s -> matches (Alt r1 r2) s
| MAltR r1 r2 s : matches r2 s -> matches (Alt r1 r2) s
| MStar0 r : matches (Star r) ""
| MStarS r s1 s2 :
    matches r s1 -> matches (Star r) s2 -> matches (Star r) (s1 ++ s2).

End Re.

(** ** [is_mutual_fund] *)

(** The pattern ['MUTF.*:'] of [is_mutual_fund]. *)
Definition MUTF_PATTERN : Re.regex :=
  Re.Cat (Re.lit "MUTF") (Re.Cat (Re.Star Re.Dot) (Re.Chr ":"%char)).

(** [bool(re.match('MUTF.*:', ticker))]. *)
Definition is_mutual_fund (ticker : string) : bool :=
  Re.re_match MUTF_PATTERN ticker.

(** ** Python string methods *)

(** [c in s] for a single character [c]. *)
Fixpoint contains (c : ascii) (s : string) : bool :=
  match s with
  | EmptyString => false
  | String d s' => Ascii.eqb c d || contains c s'
  end.

(** [str.lower] on one character (code points 0..255): ASCII and Latin-1
    capital letters are moved to their small counterparts. *)
Definition lower_char (c : ascii) : ascii :=
  let n := nat_of_ascii c in
  if ((65 <=? n) && (n <=? 90))%nat then ascii_of_nat (n + 32)
  else if ((192 <=? n) && (n <=? 222) && negb (n =? 215))%nat
       then ascii_of_nat (n + 32)
       else c.

Fixpoint lower (s : string) : string :=
  match s with
  | EmptyString => EmptyString
  | String c s' => String (lower_char c) (lower s')
  end.

(** Truth value of a [str]: non-empty. *)
Definition str_truthy (s : string) : bool :=
  match s with EmptyString => false | String _ _ => true end.

(** Truth value of an optional [str] ([None] is falsy). *)
Definition opt_str_truthy (o : option string) : bool :=
  match o with Some s => str_truthy s | None => false end.

(** [a == b] on optional strings ([None == None] holds). *)
Definition opt_str_eqb (a b : option string) : bool :=
  match a, b with
  | Some x, Some y => String.eqb x y
  | None, None => true
  | _, _ => false
  end.

(** ** Data model *)

(** [holdings.Holding]: every field may be [None]. *)
Record Holding : Type := mkHolding {
  account : option string;
  number : option Decimal;
  currency : option string;
  cost_currency : option string;
  cost_number : option Decimal;
  price_number : option Decimal;
  book_value : option Decimal;
  market_value : option Decimal;
  price_date : option string
}.

(** [ExportEntry = namedtuple('ExportEntry',
      'ticker number cost_number mutual_fund memo')]. *)
Record ExportEntry : Type := mkExportEntry {
  ee_ticker : string;
  ee_number : option Decimal;
  ee_cost_number : option Decimal;
  ee_mutual_fund : bool;
  ee_memo : option string
}.

(** The price oracle: [(base, quote, as_of_date) -> rate], [None] when no
    rate is available. *)
Definition PriceMap := string -> string -> option string -> option Decimal.

(** Commodity directives of the ledger, keyed by currency: [None] when the
    currency has no entry, [Some None] when its entry has no [ticker]
    metadata, [Some (Some t)] when the metadata is the string [t]. *)
Definition CommodityMap := string -> option (option string).

(** A value stored by [getters.get_values_meta]: the metadata string, or the
    default that the caller passed. *)
Inductive meta_value : Type :=
| MetaDefault
| MetaStr (s : string).

(** Modelled from the spec: [getters.get_values_meta(commodities_map,
    'ticker', default=...)] is not part of this file; it yields a mapping
    from currency code to the ticker string of the commodity, or to the
    default where the field is absent. *)
Definition get_values_meta (cm : CommodityMap) : string -> option meta_value :=
  fun cur =>
    match cm cur with
    | None => None
    | Some None => Some MetaDefault
    | Some (Some t) => Some (MetaStr t)
    end.

(** [tickers.get(holding.currency, None)]: a currency that is [None] is
    never a key. *)
Definition tickers_get (tickers : string -> option meta_value)
           (cur : option string) : option meta_value :=
  match cur with
  | Some c => tickers c
  | None => None
  end.

(** What the ledger and the option map supply to the reports; the functions
    that compute them from the entries are outside this file. *)
Record Ledger : Type := mkLedger {
  final_holdings : list Holding;      (* holdings.get_final_holdings(...) *)
  price_map : PriceMap;               (* prices.build_price_map(entries) *)
  commodity_map : CommodityMap;       (* getters.get_commodity_map(entries) *)
  operating_currency : list string;   (* options_map['operating_currency'] *)
  title : string;                     (* options_map['title'] *)
  quantize : Num -> string -> result Decimal
                                      (* options_map['display_context'].quantize;
                                         it may raise *)
}.

(** ** [load_from_csv] *)

(** The attributes of [Holding] that [column_spec] names. *)
Inductive attr : Type :=
| a_account | a_number | a_currency | a_cost_currency | a_cost_number
| a_price_number | a_book_value | a_market_value | a_price_date.

(** The converter column of [column_spec]: [None] or [D]. *)
Inductive converter : Type := conv_None | conv_D.

Definition column_spec : list (string * attr * converter) :=
  [ ("Account", a_account, conv_None);
    ("Units", a_number, conv_D);
    ("Currency", a_currency, conv_None);
    ("Cost Currency", a_cost_currency, conv_None);
    ("Average Cost", a_cost_number, conv_D);
    ("Price", a_price_number, conv_D);
    ("Book Value", a_book_value, conv_D);
    ("Market Value", a_market_value, conv_D);
    ("Price Date", a_price_date, conv_None) ].

(** [column_dict[header_name]], [None] standing for [KeyError]. *)
Fixpoint dict_lookup {V : Type} (d : list (string * V)) (key : string)
  : option V :=
  match d with
  | [] => None
  | (k, v) :: d' =>
      match dict_lookup d' key with
      | Some v' => Some v'          (* a later item overrides an earlier one *)
      | None => if String.eqb k key then Some v else None
      end
  end.

Definition column_dict : list (string * (attr * converter)) :=
  map (fun '(name, attr, conv) => (name, (attr, conv))) column_spec.

(** [defaults_dict]: every field [None]. *)
Definition defaults_dict : Holding :=
  mkHolding None None None None None None None None None.

(** A cell after the optional conversion. *)
Inductive cell : Type :=
| CStr (s : string)
| CDec (d : Decimal).

(** [value_dict[attr] = value].  The typed record cannot hold a string in a
    decimal field; [column_spec] never asks for it (see
    [column_spec_typed]). *)
Definition set_attr (a : attr) (v : cell) (h : Holding) : Holding :=
  match a, v with
  | a_account, CStr s =>
      mkHolding (Some s) (number h) (currency h) (cost_currency h)
                (cost_number h) (price_number h) (book_value h)
                (market_value h) (price_date h)
  | a_number, CDec d =>
      mkHolding (account h) (Some d) (currency h) (cost_currency h)
                (cost_number h) (price_number h) (book_value h)
                (market_value h) (price_date h)
  | a_currency, CStr s =>
      mkHolding (account h) (number h) (Some s) (cost_currency h)
                (cost_number h) (price_number h) (book_value h)
                (market_value h) (price_date h)
  | a_cost_currency, CStr s =>
      mkHolding (account h) (number h) (currency h) (Some s)
                (cost_number h) (price_number h) (book_value h)
                (market_value h) (price_date h)
  | a_cost_number, CDec d =>
      mkHolding (account h) (number h) (currency h) (cost_currency h)
                (Some d) (price_number h) (book_value h)
                (market_value h) (price_date h)
  | a_price_number, CDec d =>
      mkHolding (account h) (number h) (currency h) (cost_currency h)
                (cost_number h) (Some d) (book_value h)
                (market_value h) (price_date h)
  | a_book_value, CDec d =>
      mkHolding (account h) (number h) (currency h) (cost_currency h)
                (cost_number h) (price_number h) (Some d)
                (market_value h) (price_date h)
  | a_market_value, CDec d =>
      mkHolding (account h) (number h) (currency h) (cost_currency h)
                (cost_number h) (price_number h) (book_value h)
                (Some d) (price_date h)
  | a_price_date, CStr s =>
      mkHolding (account h) (number h) (currency h) (cost_currency h)
                (cost_number h) (price_number h) (book_value h)
                (market_value h) (Some s)
  | _, _ => h
  end.

Definition INVALID_CONTENTS : string := "Invalid file contents for holdings".

(** The loop over [header]: the first name that is not a key of
    [column_dict] raises [IOError]. *)
Fixpoint read_header (header : list string)
  : result (list (attr * converter)) :=
  match header with
  | [] => Ok []
  | header_name :: rest =>
      match dict_lookup column_dict header_name with
      | Some attr_converter =>
          attr_converters <- read_header rest ;;
          Ok (attr_converter :: attr_converters)
      | None => Raise (IOError INVALID_CONTENTS)
      end
  end.

Section Loader.

(** [beancount.core.amount.D], the decimal parser ([None]: it raises
    [ValueError]); it is defined outside this file. *)
Variable D : string -> option Decimal.

(** The loop over [zip(attr_converters, line)]. *)
Fixpoint read_line (attr_converters : list (attr * converter))
         (line : list string) (value_dict : Holding) : result Holding :=
  match attr_converters, line with
  | (attr, conv) :: acs, value :: line' =>
      match conv with
      | conv_D =>
          match D value with
          | Some d => read_line acs line' (set_attr attr (CDec d) value_dict)
          | None => Raise ValueError
          end
      | conv_None => read_line acs line' (set_attr attr (CStr value) value_dict)
      end
  | _, _ => Ok value_dict
  end.

Fixpoint read_lines (attr_converters : list (attr * converter))
         (lines : list (list string)) : result (list Holding) :=
  match lines with
  | [] => Ok []
  | line :: lines' =>
      h <- read_line attr_converters line defaults_dict ;;
      hs <- read_lines attr_converters lines' ;;
      Ok (h :: hs)
  end.

(** [list(load_from_csv(fileobj))], where [rows] is what [csv.reader]
    yields for the file.  The function is a generator, so the
    [StopIteration] that [next(reader)] raises on a file without a header
    line does not reach the caller as such: from Python 3.7 on
    ([generator_stop], PEP 479) the generator turns it into [RuntimeError];
    before, it ended the generator, which then yields nothing. *)
Definition load_from_csv (generator_stop : bool) (rows : list (list string))
  : result (list Holding) :=
  match rows with
  | [] => if generator_stop then Raise RuntimeError else Ok []
  | header :: lines =>
      attr_converters <- read_header header ;;
      read_lines attr_converters lines
  end.

End Loader.

(** The names [column_spec] recognizes. *)
Definition recognized_columns : list string :=
  map (fun '(name, _, _) => name) column_spec.

(** The value of a decimal digit. *)
Definition digit_of (c : ascii) : option Z :=
  let n := nat_of_ascii c in
  if ((48 <=? n) && (n <=? 57))%nat then Some (Z.of_nat (n - 48)) else None.

(** Digits of [s] up to its end, accumulated on [acc]; [scale] is multiplied
    by ten for each digit read. *)
Fixpoint parse_digits (s : string) (acc : Z) (scale : positive)
  : option (Z * positive) :=
  match s with
  | EmptyString => Some (acc, scale)
  | String c s' =>
      match digit_of c with
      | Some d => parse_digits s' (10 * acc + d)%Z (10 * scale)%positive
      | None => None
      end
  end.

(** Digits of [s] up to a decimal point, then the fraction. *)
Fixpoint parse_unsigned (s : string) (acc : Z) : option Q :=
  match s with
  | EmptyString => Some (acc # 1)
  | String c s' =>
      if Ascii.eqb c "."%char
      then match parse_digits s' acc 1 with
           | Some (n, scale) => Some (n # scale)
           | None => None
           end
      else match digit_of c with
           | Some d => parse_unsigned s' (10 * acc + d)%Z
           | None => None
           end
  end.

(** Modelled from the spec: [beancount.core.amount.D] is not part of this
    file; numeric columns are read "via decimal parsing".  This parser
    reads an optional minus sign, digits, and an optional fraction, and
    gives [None] (the parser raises) on anything else. *)
Definition parse_decimal (s : string) : option Decimal :=
  match s with
  | EmptyString => None
  | String c s' =>
      if Ascii.eqb c "-"%char
      then match s' with
           | EmptyString => None
           | _ => option_map Qopp (parse_unsigned s' 0)
           end
      else parse_unsigned s 0
  end.

(** ** Rounding to the precision of the decimal context *)

(** The number of decimal digits of a positive integer. *)
Fixpoint digits_from (fuel : nat) (n : Z) : Z :=
  match fuel with
  | O => 0%Z
  | S fuel' => if (n <? 10)%Z then 1%Z else (1 + digits_from fuel' (n / 10))%Z
  end.

Definition num_digits (n : Z) : Z :=
  digits_from (S (Z.to_nat (Z.log2 n))) n.

(** The integer nearest to [n / d] for [0 <= n] and [0 < d], a tie going to
    the even neighbour ([ROUND_HALF_EVEN]). *)
Definition div_half_even (n d : Z) : Z :=
  let q := (n / d)%Z in
  let r := (n mod d)%Z in
  match (2 * r ?= d)%Z with
  | Lt => q
  | Gt => (q + 1)%Z
  | Eq => if Z.even q then q else (q + 1)%Z
  end.

(** [x] rounded to [prec] significant digits, ties to even: with [k] the
    position of the leading digit of [x] ([10^(k-1) <= |x| < 10^k]), the
    result is the multiple of [10^(k-prec)] nearest to [x]. *)
Definition round_to_precision (prec : Z) (x : Q) : Q :=
  let n := Z.abs (Qnum x) in
  let d := Zpos (Qden x) in
  if (n =? 0)%Z then 0%Q
  else
    let k0 := (num_digits n - num_digits d)%Z in
    let at_least :=                              (* 10^k0 <= n / d *)
      if (0 <=? k0)%Z then (d * 10 ^ k0 <=? n)%Z
      else (d <=? n * 10 ^ (- k0))%Z in
    let k := if at_least then (k0 + 1)%Z else k0 in
    let e := (k - prec)%Z in
    let v :=
      if (0 <=? e)%Z
      then (div_half_even n (d * 10 ^ e) * 10 ^ e) # 1
      else div_half_even (n * 10 ^ (- e)) d # Z.to_pos (10 ^ (- e)) in
    Qred (if (Qnum x <? 0)%Z then - v else v).

(** The rounding of the default context of Python's [decimal] module:
    28 significant digits, [ROUND_HALF_EVEN]. *)
Definition default_round : Decimal -> Decimal := round_to_precision 28.

(** ** What the reports call outside this file *)

(** The functions of [beancount.ops.holdings] and [beancount.core.account]
    that the reports call, and the rounding that the context of Python's
    [decimal] module applies to the result of every operator; their code is
    not part of this file, so the reports are written against this
    interface. *)
Record Ops : Type := mkOps {
  convert_to_currency : PriceMap -> string -> list Holding -> list Holding;
  aggregate_holdings_by :
    list Holding -> (Holding -> option string) -> list Holding;
  reduce_relative : list Holding -> list Holding;
  account_root : nat -> string -> string;
  dec_round : Decimal -> Decimal
}.

(** Truth value of a [Decimal]: nonzero. *)
Definition dec_truthy (d : Decimal) : bool := negb (Qeq_bool d 0).

(** The operators [a + b], [a * b], [a / b] (for a nonzero [b]) and [- a]
    of [Decimal]: the exact result, rounded by the context. *)
Definition dec_add (ops : Ops) (a b : Decimal) : Decimal :=
  dec_round ops (a + b)%Q.

Definition dec_mul (ops : Ops) (a b : Decimal) : Decimal :=
  dec_round ops (a * b)%Q.

Definition dec_div (ops : Ops) (a b : Decimal) : Decimal :=
  dec_round ops (a / b)%Q.

Definition dec_neg (ops : Ops) (a : Decimal) : Decimal :=
  dec_round ops (- a)%Q.

(** Modelled from the spec: the conversion of one holding (spec 4.1).  A
    holding already valued in the target currency passes through unchanged;
    otherwise, when the price map has a rate from its cost currency to the
    target, the cost currency is replaced and [cost_number], [price_number],
    [book_value] and [market_value] are rescaled by the rate; when there is
    no rate the holding passes through as it is. *)
Definition convert_holding (pm : PriceMap) (target : string) (h : Holding)
  : Holding :=
  if opt_str_eqb (cost_currency h) (Some target) then h
  else
    match cost_currency h with
    | None => h
    | Some cc =>
        match pm cc target (price_date h) with
        | None => h
        | Some rate =>
            let rescale :=
              option_map (fun x => default_round (x * rate))%Q in
            mkHolding (account h) (number h) (currency h) (Some target)
                      (rescale (cost_number h)) (rescale (price_number h))
                      (rescale (book_value h)) (rescale (market_value h))
                      (price_date h)
        end
    end.

(** Modelled from the spec: [holdings.convert_to_currency] is not part of
    this file (spec 4.1); every holding is converted on its own. *)
Definition spec_convert_to_currency (pm : PriceMap) (target : string)
           (holdings_list : list Holding) : list Holding :=
  map (convert_holding pm target) holdings_list.

(** Sum of the values that are defined; [None] when none is. *)
Fixpoint opt_sum (xs : list (option Decimal)) : option Decimal :=
  match xs with
  | [] => None
  | x :: xs' =>
      match x, opt_sum xs' with
      | Some a, Some b => Some (default_round (a + b))%Q
      | Some a, None => Some a
      | None, r => r
      end
  end.

(** The field shared by every holding of a group, else [None]. *)
Definition shared_str (f : Holding -> option string) (hs : list Holding)
  : option string :=
  match hs with
  | [] => None
  | h :: hs' => if forallb (fun h' => opt_str_eqb (f h') (f h)) hs'
                then f h else None
  end.

Definition opt_div (x : option Decimal) (n : option Decimal)
  : option Decimal :=
  match x, n with
  | Some a, Some b =>
      if dec_truthy b then Some (default_round (a / b))%Q else None
  | _, _ => None
  end.

(** Modelled from the spec: the combination of one group (spec 4.2).  The
    additive fields are summed; when the holdings do not share their
    [currency] and [cost_currency] these two fields are cleared and only the
    monetary totals are kept; [cost_number] and [price_number] are
    [book_value / number] and [market_value / number] when [number] is
    defined and nonzero.  The spec does not say what [account] and
    [price_date] become: they are kept when shared. *)
Definition aggregate_group (hs : list Holding) : Holding :=
  let homogeneous :=
    match hs with
    | [] => true
    | h :: hs' =>
        forallb (fun h' => opt_str_eqb (currency h') (currency h)
                           && opt_str_eqb (cost_currency h') (cost_currency h))
                hs'
    end in
  let bv := opt_sum (map book_value hs) in
  let mv := opt_sum (map market_value hs) in
  if homogeneous then
    let n := opt_sum (map number hs) in
    mkHolding (shared_str account hs) n
              (shared_str currency hs) (shared_str cost_currency hs)
              (opt_div bv n) (opt_div mv n) bv mv
              (shared_str price_date hs)
  else
    mkHolding (shared_str account hs) None None None None None bv mv
              (shared_str price_date hs).

(** Groups in order of first occurrence of their key. *)
Fixpoint add_to_group (k : option string) (h : Holding)
         (groups : list (option string * list Holding))
  : list (option string * list Holding) :=
  match groups with
  | [] => [(k, [h])]
  | (k', hs) :: groups' =>
      if opt_str_eqb k' k then (k', (hs ++ [h])%list) :: groups'
      else (k', hs) :: add_to_group k h groups'
  end.

Definition group_by (key_fn : Holding -> option string)
           (holdings_list : list Holding)
  : list (option string * list Holding) :=
  fold_left (fun groups h => add_to_group (key_fn h) h groups)
            holdings_list [].

(** Modelled from the spec: [holdings.aggregate_holdings_by] is not part of
    this file (spec 4.2): one combined holding per key, in first-seen key
    order. *)
Definition spec_aggregate_holdings_by (holdings_list : list Holding)
           (key_fn : Holding -> option string) : list Holding :=
  map (fun g => aggregate_group (snd g)) (group_by key_fn holdings_list).

(** Modelled from the spec: [holdings.reduce_relative] is not part of this
    file (spec 4.3): market values become fractions of their total,
    [book_value] and [number] are cleared, and every fraction is [None] when
    the total is zero or undefined. *)
Definition spec_reduce_relative (holdings_list : list Holding)
  : list Holding :=
  let total := opt_sum (map market_value holdings_list) in
  map (fun h =>
         mkHolding (account h) None (currency h) (cost_currency h)
                   (cost_number h) (price_number h) None
                   (opt_div (market_value h) total) (price_date h))
      holdings_list.

(** Modelled from the spec: [account.root(n, account_name)] is not part of
    this file; the spec only names the "currency root" key.  It is taken to
    keep the first [n] colon-separated components. *)
Fixpoint spec_account_root (n : nat) (a : string) : string :=
  match a with
  | EmptyString => EmptyString
  | String c a' =>
      if Ascii.eqb c ":"%char
      then match n with
           | O | S O => EmptyString
           | S n' => String c (spec_account_root n' a')
           end
      else match n with
           | O => EmptyString
           | _ => String c (spec_account_root n a')
           end
  end.

(** The interface, filled with the operations as the spec describes them
    and with the rounding of the default context. *)
Definition spec_ops : Ops :=
  mkOps spec_convert_to_currency spec_aggregate_holdings_by
        spec_reduce_relative spec_account_root default_round.

(** ** [get_assets_holdings] *)

Definition get_assets_holdings (ops : Ops) (L : Ledger)
           (currency : option string) : list Holding * PriceMap :=
  let price_map := price_map L in
  let holdings_list := final_holdings L in
  let holdings_list :=
    match currency with
    | Some c =>
        if str_truthy c
        then convert_to_currency ops price_map c holdings_list
        else holdings_list
    | None => holdings_list
    end in
  (holdings_list, price_map).

(** ** Field specs and tables *)

Inductive formatter : Type :=
| fmt_2f          (* '{:,.2f}'.format *)
| fmt_percent.    (* '{:,.2%}'.format *)

(** [(field, header, formatter)]; the short tuples leave the last two out. *)
Definition field_desc : Type := (string * option string * option formatter).

Definition FIELD_SPEC : list field_desc :=
  [ ("account", None, None);
    ("number", Some "Units", Some fmt_2f);
    ("currency", None, None);
    ("cost_currency", None, None);
    ("cost_number", Some "Average Cost", Some fmt_2f);
    ("price_number", Some "Price", Some fmt_2f);
    ("book_value", Some "Book Value", Some fmt_2f);
    ("market_value", Some "Market Value", Some fmt_2f) ].

Definition RELATIVE_FIELD_SPEC : list field_desc :=
  (filter (fun fd : field_desc =>
             let '(name, _, _) := fd in
             negb (existsb (String.eqb name)
                     ["account"; "number"; "book_value"; "market_value"]))
          FIELD_SPEC
   ++ [ ("market_value", Some "Frac Folio", Some fmt_percent) ])%list.

(** [table.create_table(rows, field_spec)]: the rows with their spec; the
    rendering is done elsewhere. *)
Record Table (Row : Type) : Type := create_table {
  table_rows : list Row;
  table_field_spec : list field_desc
}.
Arguments create_table {Row} _ _.
Arguments table_rows {Row} _.
Arguments table_field_spec {Row} _.

(** ** [report_holdings] *)

(** [list.sort(key=..., reverse=True)]: stable, largest key first. *)
Fixpoint insert_desc {A : Type} (key : A -> Decimal) (x : A) (l : list A)
  : list A :=
  match l with
  | [] => [x]
  | y :: l' =>
      if Qle_bool (key y) (key x) then x :: l
      else y :: insert_desc key x l'
  end.

Definition sort_reverse {A : Type} (key : A -> Decimal) (l : list A)
  : list A :=
  fold_right (insert_desc key) [] l.

Definition report_holdings (ops : Ops)
           (currency : option string) (relative : bool) (L : Ledger)
           (aggregation_key : option (Holding -> option string))
           (sort_key : option (Holding -> Decimal)) : Table Holding :=
  let '(holdings_list, _) := get_assets_holdings ops L currency in
  let holdings_list :=
    match aggregation_key with
    | Some key => aggregate_holdings_by ops holdings_list key
    | None => holdings_list
    end in
  let '(holdings_list, field_spec) :=
    if relative
    then (reduce_relative ops holdings_list, RELATIVE_FIELD_SPEC)
    else (holdings_list, FIELD_SPEC) in
  let holdings_list :=
    match sort_key with
    | Some key => sort_reverse key holdings_list
    | None => holdings_list
    end in
  create_table holdings_list field_spec.

(** ** [HoldingsReport] *)

(** The choices of [--groupby]: the keys of [aggregations]. *)
Inductive groupby : Type :=
| by_commodity | by_account | by_root_account | by_currency.

(** The parsed command line of the report. *)
Record HoldingsArgs : Type := mkHoldingsArgs {
  args_currency : option string;      (* -c / --currency, default None *)
  args_relative : bool;               (* -r / --relative *)
  args_groupby : option groupby       (* -g / --groupby, default None *)
}.

Record Keywords : Type := mkKeywords {
  kw_aggregation_key : option (Holding -> option string);
  kw_sort_key : option (Holding -> Decimal)
}.

Definition aggregations (ops : Ops) (g : groupby) : Keywords :=
  match g with
  | by_commodity => mkKeywords (Some currency) None
  | by_account => mkKeywords (Some account) None
  | by_root_account =>
      mkKeywords
        (Some (fun holding => option_map (account_root ops 3) (account holding)))
        (Some (fun holding =>
                 match market_value holding with
                 | Some mv => if dec_truthy mv then mv else 0%Q
                 | None => 0%Q
                 end))
  | by_currency => mkKeywords (Some cost_currency) None
  end.

(** The report object: what [__init__] stores. *)
Record HoldingsReport : Type := mkHoldingsReport {
  self_args : HoldingsArgs
}.

Definition RELATIVE_NEEDS_CURRENCY : string :=
  "--relative needs to have --currency set".

(** [HoldingsReport.__init__]; [parser.error] prints the message and exits. *)
Definition HoldingsReport_init (args : HoldingsArgs) : result HoldingsReport :=
  let self := mkHoldingsReport args in
  if args_relative (self_args self)
     && negb (opt_str_truthy (args_currency (self_args self)))
  then Raise (SystemExit RELATIVE_NEEDS_CURRENCY)
  else Ok self.

Definition HoldingsReport_generate_table (ops : Ops) (self : HoldingsReport)
           (L : Ledger) : Table Holding :=
  let keywords :=
    match args_groupby (self_args self) with
    | Some g => aggregations ops g
    | None => mkKeywords None None
    end in
  report_holdings ops (args_currency (self_args self))
                  (args_relative (self_args self)) L
                  (kw_aggregation_key keywords) (kw_sort_key keywords).

(** Constructing the report and then asking it for its table, as the
    caller of a report does. *)
Definition run_holdings_report (ops : Ops) (args : HoldingsArgs) (L : Ledger)
  : result (Table Holding) :=
  self <- HoldingsReport_init args ;;
  Ok (HoldingsReport_generate_table ops self L).

(** ** [export_holdings] *)

(** [isinstance(ticker, str) and ticker.lower() == "cash"]. *)
Definition is_cash_marker (ticker : option meta_value) : bool :=
  match ticker with
  | Some (MetaStr t) => String.eqb (lower t) "cash"
  | _ => false
  end.

(** Truth value of [ticker] when the default of the lookup is [None]. *)
Definition ticker_truthy_None (ticker : option meta_value) : bool :=
  match ticker with
  | Some (MetaStr t) => str_truthy t
  | Some MetaDefault => false        (* the default, None *)
  | None => false                    (* no key: the None of [get] *)
  end.

(** The three lists that the classification loop fills. *)
Record Buckets : Type := mkBuckets {
  holdings_export : list Holding;
  holdings_convert : list Holding;
  holdings_ignore : list Holding
}.

Fixpoint classify_loop (tickers : string -> option meta_value)
         (holdings_list : list Holding) (b : Buckets) : Buckets :=
  match holdings_list with
  | [] => b
  | holding :: rest =>
      let ticker := tickers_get tickers (currency holding) in
      if is_cash_marker ticker then
        classify_loop tickers rest
          (mkBuckets (holdings_export b)
                     (holdings_convert b ++ [holding])%list
                     (holdings_ignore b))
      else if ticker_truthy_None ticker then
        classify_loop tickers rest
          (mkBuckets (holdings_export b ++ [holding])%list
                     (holdings_convert b)
                     (holdings_ignore b))
      else
        classify_loop tickers rest
          (mkBuckets (holdings_export b)
                     (holdings_convert b)
                     (holdings_ignore b ++ [holding])%list)
  end.

(** The loop over [holdings_export]: [tickers[holding.currency]] raises
    [KeyError] on a missing key, and [is_mutual_fund] raises [TypeError] on
    a value that is not a string. *)
Fixpoint export_loop (tickers : string -> option meta_value)
         (promiscuous : bool) (holdings_export : list Holding)
  : result (list ExportEntry) :=
  match holdings_export with
  | [] => Ok []
  | holding :: rest =>
      match tickers_get tickers (currency holding) with
      | None => Raise KeyError
      | Some MetaDefault => Raise TypeError
      | Some (MetaStr ticker) =>
          exported <- export_loop tickers promiscuous rest ;;
          Ok (mkExportEntry ticker
                            (number holding)
                            (cost_number holding)
                            (is_mutual_fund ticker)
                            (if promiscuous then account holding else Some "")
              :: exported)
      end
  end.

Definition export_holdings (ops : Ops) (L : Ledger) (promiscuous : bool)
  : result (list ExportEntry * (list Holding * list Holding * list Holding)) :=
  let '(holdings_list, price_map) := get_assets_holdings ops L None in
  let commodities_map := commodity_map L in
  let tickers := get_values_meta commodities_map in
  let b := classify_loop tickers holdings_list (mkBuckets [] [] []) in
  exported <- export_loop tickers promiscuous (holdings_export b) ;;
  let debug_info := (holdings_export b, holdings_convert b, holdings_ignore b) in
  Ok (exported, debug_info).

(** The ticker string that the ledger records for the currency of a
    holding, if any. *)
Definition ticker_of (L : Ledger) (h : Holding) : option string :=
  match currency h with
  | Some c =>
      match commodity_map L c with
      | Some (Some t) => Some t
      | _ => None
      end
  | None => None
  end.

(** ** Example data *)

Definition no_prices : PriceMap := fun _ _ _ => None.

(** A display context for the examples: it accepts every number and keeps
    its value. *)
Definition example_quantize (x : Num) (cur : string) : result Decimal :=
  Ok (Qred (num_value x)).

(** One stock position at cost, e.g. 10 AAA bought at 100 USD. *)
Definition stock (acct cur cost_cur : string) (n cost price : Z) : Holding :=
  mkHolding (Some acct) (Some (n # 1)) (Some cur) (Some cost_cur)
            (Some (cost # 1)) (Some (price # 1))
            (Some (n * cost # 1)) (Some (n * price # 1)) None.

(** A cash position: its currency is its cost currency. *)
Definition cash (acct cur : string) (n : Z) : Holding :=
  mkHolding (Some acct) (Some (n # 1)) (Some cur) (Some cur)
            (Some (1 # 1)) (Some (1 # 1)) (Some (n # 1)) (Some (n # 1)) None.

(** A ledger whose commodity AAA has an empty ticker. *)
Definition ledger_empty_ticker : Ledger :=
  mkLedger [stock "Assets:Broker" "AAA" "USD" 10 100 110]
           no_prices
           (fun c => if String.eqb c "AAA" then Some (Some "")
                     else if String.eqb c "USD" then Some None else None)
           ["USD"] "Example" example_quantize.

(** ** [NetWorthReport.generate_table] *)

(** Rows of the net-worth table: [(currency, market_value)]. *)
Definition NetWorthRow : Type := (string * option Decimal)%type.

Definition NET_WORTH_FIELD_SPEC : list field_desc :=
  [ ("0", Some "Currency", None);
    ("1", Some "Net Worth", Some fmt_2f) ].

(** The loop over [options_map['operating_currency']].  The variable
    [holdings_list] is assigned inside the body, so each iteration starts
    from the value that the previous one left. *)
Fixpoint net_worth_loop (ops : Ops) (price_map : PriceMap)
         (currencies : list string) (holdings_list : list Holding)
         (net_worths : list NetWorthRow) : list NetWorthRow :=
  match currencies with
  | [] => net_worths
  | op_currency :: rest =>
      let currency_holdings_list :=
        convert_to_currency ops price_map op_currency holdings_list in
      match currency_holdings_list with
      | [] => net_worth_loop ops price_map rest holdings_list net_worths
      | _ :: _ =>
          let holdings_list :=
            aggregate_holdings_by ops currency_holdings_list cost_currency in
          let holdings_list :=
            filter (fun holding =>
                      opt_str_truthy (currency holding)
                      && opt_str_truthy (cost_currency holding))
                   holdings_list in
          match holdings_list with
          | [] => net_worth_loop ops price_map rest holdings_list net_worths
          | first :: _ =>
              net_worth_loop ops price_map rest holdings_list
                (net_worths ++ [(op_currency, market_value first)])%list
          end
      end
  end.

Definition NetWorthReport_generate_table (ops : Ops) (L : Ledger)
  : Table NetWorthRow :=
  let '(holdings_list, price_map) := get_assets_holdings ops L None in
  let net_worths :=
    net_worth_loop ops price_map (operating_currency L) holdings_list [] in
  create_table net_worths NET_WORTH_FIELD_SPEC.

(** The net worth that the report gives for [cur]: the value of its row. *)
Definition net_worth_of (t : Table NetWorthRow) (cur : string)
  : option (option Decimal) :=
  dict_lookup (rev (table_rows t)) cur.

(** The same ledger with other operating currencies configured. *)
Definition with_operating_currency (L : Ledger) (cs : list string) : Ledger :=
  mkLedger (final_holdings L) (price_map L) (commodity_map L) cs (title L)
           (quantize L).

(** Rates between USD and EUR and between USD and CAD, none between EUR
    and CAD. *)
Definition prices_via_usd : PriceMap :=
  fun base quote _ =>
    if (String.eqb base "USD" && String.eqb quote "CAD")
       || (String.eqb base "CAD" && String.eqb quote "USD")
       || (String.eqb base "USD" && String.eqb quote "EUR")
       || (String.eqb base "EUR" && String.eqb quote "USD")
    then Some (1 # 1) else None.

(** Ten AAA valued in CAD and ten AAA valued in EUR. *)
Definition ledger_two_currencies : Ledger :=
  mkLedger [ stock "Assets:CA:Broker" "AAA" "CAD" 10 1 1;
             stock "Assets:EU:Broker" "AAA" "EUR" 10 10 10 ]
           prices_via_usd
           (fun _ => None)
           ["USD"; "CAD"] "Example" example_quantize.

(** ** More Python string methods *)

Definition nl : string := String "010"%char "".

(** A text given by its lines: ['\n'.join(lines)]. *)
Definition text_of_lines (lines : list string) : string :=
  String.concat nl lines.

(** [str.isspace] on one character (code points 0..255). *)
Definition isspace (c : ascii) : bool :=
  let n := nat_of_ascii c in
  ((9 <=? n) && (n <=? 13) || (28 <=? n) && (n <=? 32)
   || (n =? 133) || (n =? 160))%nat.

(** The line boundaries of [str.splitlines] (code points 0..255); a
    carriage return followed by a line feed is one boundary. *)
Definition is_linebreak (c : ascii) : bool :=
  let n := nat_of_ascii c in
  ((10 <=? n) && (n <=? 13) || (28 <=? n) && (n <=? 30) || (n =? 133))%nat.

Definition CR : ascii := "013"%char.
Definition LF : ascii := "010"%char.

(** [s.splitlines()], with [line] the part of the current line read so
    far. *)
Fixpoint splitlines_from (s : string) (line : string) : list string :=
  match s with
  | EmptyString =>
      match line with
      | EmptyString => []
      | _ => [line]
      end
  | String c rest =>
      if is_linebreak c then
        match rest with
        | String c' rest' =>
            if Ascii.eqb c CR && Ascii.eqb c' LF
            then line :: splitlines_from rest' ""
            else line :: splitlines_from rest ""
        | EmptyString => line :: splitlines_from rest ""
        end
      else splitlines_from rest (line ++ String c "")
  end.

Definition splitlines (s : string) : list string := splitlines_from s "".

Fixpoint lstrip (s : string) : string :=
  match s with
  | EmptyString => EmptyString
  | String c rest => if isspace c then lstrip rest else s
  end.

Fixpoint rstrip (s : string) : string :=
  match s with
  | EmptyString => EmptyString
  | String c rest =>
      match rstrip rest with
      | EmptyString => if isspace c then EmptyString else String c EmptyString
      | r => String c r
      end
  end.

Definition strip (s : string) : string := rstrip (lstrip s).

(** [str(n)] for a non-negative [int]. *)
Definition str_nat (n : nat) : string :=
  NilEmpty.string_of_uint (Nat.to_uint n).

(** [str(x)] for a value that is a string or [None]. *)
Definition str_opt (o : option string) : string :=
  match o with
  | Some s => s
  | None => "None"
  end.

(** [template.format] with the keyword arguments [env], for templates whose
    replacement fields are plain names in braces: [field] is the name being read inside braces.
    Every name that the templates of this file use is bound by its caller
    (see [TEMPLATE_fields] and its siblings), so no lookup fails. *)
Fixpoint format_from (env : string -> string) (template : string)
         (field : option string) : string :=
  match template with
  | EmptyString => EmptyString
  | String c rest =>
      match field with
      | None =>
          if Ascii.eqb c "{"%char then format_from env rest (Some "")
          else String c (format_from env rest None)
      | Some name =>
          if Ascii.eqb c "}"%char then env name ++ format_from env rest None
          else format_from env rest (Some (name ++ String c ""))
      end
  end.

Definition format (template : string) (env : string -> string) : string :=
  format_from env template None.

(** The names of the replacement fields of a template, in order. *)
Fixpoint fields_from (template : string) (field : option string)
  : list string :=
  match template with
  | EmptyString => []
  | String c rest =>
      match field with
      | None =>
          if Ascii.eqb c "{"%char then fields_from rest (Some "")
          else fields_from rest None
      | Some name =>
          if Ascii.eqb c "}"%char then name :: fields_from rest None
          else fields_from rest (Some (name ++ String c ""))
      end
  end.

Definition fields (template : string) : list string :=
  fields_from template None.

(** [locals()] restricted to the names given: a dict from names to the
    text of their values. *)
Definition locals (bindings : list (string * string)) : string -> string :=
  fun name =>
    match dict_lookup bindings name with
    | Some v => v
    | None => EmptyString
    end.

(** ** [ExportPortfolioReport]: the templates *)

(** [ExportPortfolioReport.PREFIX]: the dedented text, line by line. *)
Definition PREFIX : string :=
  text_of_lines
    [
      "OFXHEADER:100";
      "DATA:OFXSGML";
      "VERSION:102";
      "SECURITY:NONE";
      "ENCODING:USASCII";
      "CHARSET:1252";
      "COMPRESSION:NONE";
      "OLDFILEUID:NONE";
      "NEWFILEUID:NONE";
      "";
      "" ].

(** [ExportPortfolioReport.TEMPLATE]: the dedented text, line by line. *)
Definition TEMPLATE : string :=
  text_of_lines
    [
      "";
      "<OFX>";
      "  <SIGNONMSGSRSV1>";
      "    <SONRS>";
      "      <STATUS>";
      "        <CODE>0";
      "        <SEVERITY>INFO";
      "      </STATUS>";
      "      <DTSERVER>{dtserver}";
      "      <LANGUAGE>ENG";
      "    </SONRS>";
      "  </SIGNONMSGSRSV1>";
      "  <INVSTMTMSGSRSV1>";
      "    <INVSTMTTRNRS>";
      "      <TRNUID>1001";
      "      <STATUS>";
      "        <CODE>0";
      "        <SEVERITY>INFO";
      "      </STATUS>";
      "      <INVSTMTRS>";
      "        <DTASOF>{dtasof}";
      "        <CURDEF>USD";
      "        <INVACCTFROM>";
      "          <BROKERID>{broker}";
      "          <ACCTID>{account}";
      "        </INVACCTFROM>";
      "        <INVTRANLIST>";
      "          <DTSTART>{dtstart}";
      "          <DTEND>{dtend}";
      "          {invtranlist}";
      "        </INVTRANLIST>";
      "      </INVSTMTRS>";
      "    </INVSTMTTRNRS>";
      "  </INVSTMTMSGSRSV1>";
      "  <SECLISTMSGSRSV1>";
      "    <SECLIST>";
      "     {seclist}";
      "    </SECLIST>";
      "  </SECLISTMSGSRSV1>";
      "</OFX>";
      "" ].

(** [ExportPortfolioReport.TRANSACTION]: the dedented text, line by line. *)
Definition TRANSACTION : string :=
  text_of_lines
    [
      "";
      "<{txntype}>";
      "  <INVBUY>";
      "    <INVTRAN>";
      "      <FITID>{fitid}";
      "      <DTTRADE>{dttrade}";
      "      <MEMO>{memo}";
      "    </INVTRAN>";
      "    <SECID>";
      "      <UNIQUEID>{uniqueid}";
      "      <UNIQUEIDTYPE>TICKER";
      "    </SECID>";
      "    <UNITS>{units}";
      "    <UNITPRICE>{unitprice}";
      "    <COMMISSION>{fee}";
      "    <TOTAL>{total}";
      "    <SUBACCTSEC>CASH";
      "    <SUBACCTFUND>CASH";
      "  </INVBUY>";
      "  <BUYTYPE>{buytype}";
      "</{txntype}>";
      "" ].

(** [ExportPortfolioReport.SECURITY]: the dedented text, line by line. *)
Definition SECURITY : string :=
  text_of_lines
    [
      "";
      "<{infotype}>";
      "  <SECINFO>";
      "    <SECID>";
      "      <UNIQUEID>{uniqueid}";
      "      <UNIQUEIDTYPE>TICKER";
      "    </SECID>";
      "    <SECNAME>{secname}";
      "    <TICKER>{ticker}";
      "  </SECINFO>";
      "</{infotype}>";
      "" ].


(** ** [render_ofx_date] *)

(** [datetime.datetime]. *)
Record datetime : Type := mkdatetime {
  year : nat; month : nat; day : nat;
  hour : nat; minute : nat; second : nat; microsecond : nat
}.

Fixpoint zeros (n : nat) : string :=
  match n with
  | O => EmptyString
  | S n' => String "0"%char (zeros n')
  end.

(** [n] in decimal, padded with zeros on the left to [width] digits. *)
Definition zero_pad (width n : nat) : string :=
  let digits := str_nat n in
  zeros (width - String.length digits)%nat ++ digits.

(** [dtime.strftime('%Y%m%d%H%M%S')].  The directive [%Y] is left to the C
    library: the one of Linux prints the year without padding, as here;
    others pad it to four digits.  From the year 1000 on they agree. *)
Definition strftime_YmdHMS (dtime : datetime) : string :=
  str_nat (year dtime) ++ zero_pad 2 (month dtime)
  ++ zero_pad 2 (day dtime) ++ zero_pad 2 (hour dtime)
  ++ zero_pad 2 (minute dtime) ++ zero_pad 2 (second dtime).

Definition render_ofx_date (dtime : datetime) : string :=
  strftime_YmdHMS dtime ++ "." ++ zero_pad 3 (microsecond dtime / 1000)%nat.

(** ** [ExportPortfolioReport.render_ofx] *)

(** The parsed command line of the export. *)
Record ExportArgs : Type := mkExportArgs {
  args_verbose : bool;          (* -v / --verbose *)
  args_promiscuous : bool       (* -p / --promiscuous *)
}.

(** What the clock gives: [morning] is today at 9:00:00.000000 and
    [trade_date] is [morning - datetime.timedelta(days=2)]. *)
Record Clock : Type := mkClock {
  morning : datetime;
  trade_date : datetime
}.

(** The local variables that [TRANSACTION] is formatted with. *)
Record Transaction : Type := mkTransaction {
  txntype : string;
  fitid : nat;
  dttrade : string;
  memo : option string;
  uniqueid : string;
  units : Decimal;
  unitprice : Decimal;
  fee : Decimal;
  total : Decimal;
  buytype : string
}.

(** An element of the set [commodities]: [(currency, ticker, mutual_fund)]. *)
Definition Security : Type := (string * string * bool)%type.

Definition CASH_EQUIVALENT_CURRENCY : string := "VMMXX".
Definition CASH_EQUIVALENT_MFUND : bool := true.
Definition ZERO : Decimal := 0%Q.

Definition security_eqb (a b : Security) : bool :=
  let '(c1, t1, m1) := a in
  let '(c2, t2, m2) := b in
  String.eqb c1 c2 && String.eqb t1 t2 && Bool.eqb m1 m2.

(** [s.add(x)] on a set kept as a list without repetition. *)
Definition set_add {A : Type} (eqb : A -> A -> bool) (x : A) (s : list A)
  : list A :=
  if existsb (eqb x) s then s else (s ++ [x])%list.

Definition bool_compare (a b : bool) : comparison :=
  match a, b with
  | false, true => Lt
  | true, false => Gt
  | _, _ => Eq
  end.

(** The order of tuples: by [currency], then [ticker], then the flag. *)
Definition security_compare (a b : Security) : comparison :=
  let '(c1, t1, m1) := a in
  let '(c2, t2, m2) := b in
  match String.compare c1 c2 with
  | Eq => match String.compare t1 t2 with
          | Eq => bool_compare m1 m2
          | r => r
          end
  | r => r
  end.

Definition security_leb (a b : Security) : bool :=
  match security_compare a b with
  | Gt => false
  | _ => true
  end.

Fixpoint insert_sorted (x : Security) (l : list Security) : list Security :=
  match l with
  | [] => [x]
  | y :: l' => if security_leb x y then x :: l else y :: insert_sorted x l'
  end.

(** [sorted(commodities)]. *)
Definition sorted (commodities : list Security) : list Security :=
  fold_right insert_sorted [] commodities.

(** The variables that the loop over the holdings updates.  The buffer
    [invtranlist_io] is kept as the list of the local variables of each
    write, in order: its value is the concatenation of [TRANSACTION]
    formatted with each of them.  The sets [commodities] and
    [ignored_commodities] are kept as lists without repetition; the only use
    of [commodities] is [sorted(commodities)], which does not depend on the
    order of the list (see [sorted_order_independent]). *)
Record OfxState : Type := mkOfxState {
  st_invtranlist : list Transaction;
  st_commodities : list Security;
  st_skipped_holdings : list Holding;
  st_ignored_commodities : list (option string);
  st_index : nat
}.

(** [ticker is undefined], for the lookup whose default is [undefined]. *)
Definition is_undefined (ticker : option meta_value) : bool :=
  match ticker with
  | Some MetaDefault => true
  | _ => false
  end.

(** [not ticker]: [None] and the empty string are falsy, the object
    [undefined] is truthy. *)
Definition not_ticker (ticker : option meta_value) : bool :=
  match ticker with
  | None => true
  | Some MetaDefault => false
  | Some (MetaStr t) => negb (str_truthy t)
  end.

Definition is_None {A : Type} (o : option A) : bool :=
  match o with None => true | Some _ => false end.

(** The condition under which the loop skips a holding. *)
Definition is_skipped (tickers : string -> option meta_value)
           (holding : Holding) : bool :=
  let ticker := tickers_get tickers (currency holding) in
  opt_str_eqb (currency holding) (cost_currency holding)
  || is_None (cost_number holding)
  || not_ticker ticker
  || is_undefined ticker.

(** The body of [for index, holding in enumerate(holdings_list)], from the
    holding at position [i] on. *)
Fixpoint ofx_loop (ops : Ops) (tickers : string -> option meta_value)
         (promiscuous : bool) (trade : datetime)
         (i : nat) (holdings_list : list Holding) (st : OfxState)
  : result OfxState :=
  match holdings_list with
  | [] => Ok st
  | holding :: rest =>
      let ticker := tickers_get tickers (currency holding) in
      let ignored_commodities :=
        if is_undefined ticker
        then set_add opt_str_eqb (currency holding) (st_ignored_commodities st)
        else st_ignored_commodities st in
      if is_skipped tickers holding then
        ofx_loop ops tickers promiscuous trade (S i) rest
          (mkOfxState (st_invtranlist st)
                      (st_commodities st)
                      (st_skipped_holdings st ++ [holding])%list
                      ignored_commodities
                      i)
      else
        match ticker, currency holding, number holding, cost_number holding with
        | Some (MetaStr ticker), Some cur, Some units, Some unitprice =>
            let txntype :=
              if is_mutual_fund ticker then "BUYMF" else "BUYSTOCK" in
            let fitid := (i + 1)%nat in
            let dttrade := render_ofx_date trade in
            let memo := if promiscuous then account holding else Some "" in
            let uniqueid := ticker in
            let fee := ZERO in
            let total :=
              dec_neg ops (dec_add ops (dec_mul ops units unitprice) fee) in
            let buytype := "BUY" in
            ofx_loop ops tickers promiscuous trade (S i) rest
              (mkOfxState
                 (st_invtranlist st
                  ++ [mkTransaction txntype fitid dttrade memo uniqueid
                                    units unitprice fee total buytype])%list
                 (set_add security_eqb (cur, ticker, is_mutual_fund ticker)
                          (st_commodities st))
                 (st_skipped_holdings st)
                 ignored_commodities
                 i)
        | _, _, _, _ => Raise TypeError     (* None * Decimal *)
        end
  end.

(** [a + v] for the running total [a] of a sum and a value [v] that may be
    [None]; the [int] 0 that the sum starts from is converted to a
    [Decimal] by the operator. *)
Definition py_add (ops : Ops) (a : Num) (v : option Decimal) : result Num :=
  match v with
  | Some v => Ok (Dec (dec_add ops (num_value a) v))
  | None => Raise TypeError
  end.

(** [sum(...)] of values that may be [None]: [0 + x1 + x2 + ...]. *)
Definition py_sum (ops : Ops) (xs : list (option Decimal)) : result Num :=
  fold_left (fun acc x => a <- acc ;; py_add ops a x) xs (Ok Int0).

(** [a / b]: a zero divisor raises, be it the [int] 0 or a [Decimal]. *)
Definition py_div (ops : Ops) (a b : Num) : result Num :=
  if dec_truthy (num_value b)
  then Ok (Dec (dec_div ops (num_value a) (num_value b)))
  else Raise ArithmeticError.

(** The part of [render_ofx] under [if options_map['operating_currency']]. *)
Definition cash_equivalent (ops : Ops) (L : Ledger) (trade : datetime)
           (st : OfxState) : result OfxState :=
  match operating_currency L with
  | [] => Ok st
  | cash_currency :: _ =>
      let converted_holdings :=
        convert_to_currency ops (price_map L) cash_currency
                            (st_skipped_holdings st) in
      let included_holdings :=
        filter (fun holding =>
                  opt_str_eqb (cost_currency holding) (Some cash_currency))
               converted_holdings in
      book_value <- py_sum ops (map book_value included_holdings) ;;
      market_value <- py_sum ops (map market_value included_holdings) ;;
      let txntype := if CASH_EQUIVALENT_MFUND then "BUYMF" else "BUYSTOCK" in
      let fitid := (st_index st + 1)%nat in
      let dttrade := render_ofx_date trade in
      let memo := Some "" in
      let uniqueid := CASH_EQUIVALENT_CURRENCY in
      units <- quantize L market_value cash_currency ;;
      quotient <- py_div ops book_value market_value ;;
      unitprice <- quantize L quotient cash_currency ;;
      let fee := ZERO in
      let total :=
        dec_neg ops (dec_add ops (dec_mul ops units unitprice) fee) in
      let buytype := "BUY" in
      Ok (mkOfxState
            (st_invtranlist st
             ++ [mkTransaction txntype fitid dttrade memo uniqueid
                               units unitprice fee total buytype])%list
            (set_add security_eqb
                     (CASH_EQUIVALENT_CURRENCY, CASH_EQUIVALENT_CURRENCY, false)
                     (st_commodities st))
            (st_skipped_holdings st)
            (st_ignored_commodities st)
            (st_index st))
  end.

(** The state in which the loop starts: empty buffers and [index = 0]. *)
Definition initial_state : OfxState := mkOfxState [] [] [] [] 0.

(** [render_ofx] up to [invtranlist = invtranlist_io.getvalue()]. *)
Definition ofx_transactions (ops : Ops) (L : Ledger) (args : ExportArgs)
           (clock : Clock) : result OfxState :=
  let '(holdings_list, _) := get_assets_holdings ops L None in
  let tickers := get_values_meta (commodity_map L) in
  st <- ofx_loop ops tickers (args_promiscuous args) (trade_date clock)
                 0 holdings_list initial_state ;;
  cash_equivalent ops L (trade_date clock) st.

Section Rendering.

(** [str(d)] for a [Decimal]: how Python prints it. *)
Variable str_Decimal : Decimal -> string.

(** [self.TRANSACTION.format] with the local variables of one write. *)
Definition TRANSACTION_format (t : Transaction) : string :=
  format TRANSACTION
    (locals [ ("txntype", txntype t);
              ("fitid", str_nat (fitid t));
              ("dttrade", dttrade t);
              ("memo", str_opt (memo t));
              ("uniqueid", uniqueid t);
              ("units", str_Decimal (units t));
              ("unitprice", str_Decimal (unitprice t));
              ("fee", str_Decimal (fee t));
              ("total", str_Decimal (total t));
              ("buytype", buytype t) ]).

(** The body of the loop over [sorted(commodities)]. *)
Definition SECURITY_format (s : Security) : string :=
  let '(cur, ticker, mutual_fund) := s in
  let uniqueid := cur in
  let secname := cur in
  let infotype := if mutual_fund : bool then "MFINFO" else "STOCKINFO" in
  format SECURITY
    (locals [ ("uniqueid", uniqueid);
              ("secname", secname);
              ("infotype", infotype);
              ("ticker", ticker) ]).

(** The call [render_ofx(entries, errors, options_map, file)]: the text
    written to [file] and how the call ends.  Nothing is written when an
    exception is raised before [file.write].  With [--verbose] the
    statement after the write, [log = sys.stderr.write], raises [NameError],
    because the module does not import [sys]. *)
Definition render_ofx (ops : Ops) (L : Ledger) (args : ExportArgs)
           (clock : Clock) : string * result unit :=
  match ofx_transactions ops L args clock with
  | Raise e => (EmptyString, Raise e)
  | Ok st =>
  let invtranlist :=
    String.concat "" (map TRANSACTION_format (st_invtranlist st)) in
  let seclist :=
    String.concat "" (map SECURITY_format (sorted (st_commodities st))) in
  let broker := "Beancount" in
  let account := if args_promiscuous args then title L else "" in
  let dtserver := render_ofx_date (morning clock) in
  let contents :=
    format TEMPLATE
      (locals [ ("dtserver", dtserver); ("dtasof", dtserver);
                ("dtstart", dtserver); ("dtend", dtserver);
                ("broker", broker); ("account", account);
                ("invtranlist", invtranlist); ("seclist", seclist) ]) in
  let stripped_contents :=
    String.concat nl
      (map lstrip
           (filter (fun line => str_truthy (strip line))
                   (splitlines contents))) in
  (PREFIX ++ stripped_contents,
   if args_verbose args then Raise NameError else Ok tt)
  end.

End Rendering.

(** A printer of decimals for the examples: the reduced fraction, as an
    integer when the denominator is one. *)
Definition show_decimal (d : Decimal) : string :=
  let q := Qred d in
  let num := NilEmpty.string_of_int (Z.to_int (Qnum q)) in
  match Qden q with
  | xH => num
  | den => num ++ "/" ++ NilEmpty.string_of_uint (Pos.to_uint den)
  end.

Definition example_clock : Clock :=
  mkClock (mkdatetime 2014 3 7 9 0 0 0) (mkdatetime 2014 3 5 9 0 0 0).

(** Commodity directives of the examples: AAA has a stock ticker, FFF a
    mutual-fund ticker, USD has no ticker. *)
Definition example_commodities : CommodityMap :=
  fun c =>
    if String.eqb c "AAA" then Some (Some "NYSE:AAA")
    else if String.eqb c "FFF" then Some (Some "MUTF:FFFXX")
    else if String.eqb c "USD" then Some None
    else None.

(** A ledger whose only holding is exported individually. *)
Definition ledger_all_exported : Ledger :=
  mkLedger [stock "Assets:Broker" "AAA" "USD" 10 100 110]
           no_prices example_commodities
           ["USD"] "Example" example_quantize.

(** A ledger with a cash position followed by a stock position. *)
Definition ledger_cash_then_stock : Ledger :=
  mkLedger [ cash "Assets:Bank" "USD" 250;
             stock "Assets:Broker" "AAA" "USD" 10 100 110 ]
           no_prices example_commodities
           ["USD"] "Example" example_quantize.

Definition quiet : ExportArgs := mkExportArgs false false.

(** ** Reference descriptions used by the properties *)

(** The net-worth entry point as the spec words it: every operating
    currency is computed from the original holdings. *)
Definition spec_net_worth_rows (ops : Ops) (pm : PriceMap)
           (original : list Holding) (cur : string) : list NetWorthRow :=
  match convert_to_currency ops pm cur original with
  | [] => []
  | converted =>
      match filter (fun holding =>
                      opt_str_truthy (currency holding)
                      && opt_str_truthy (cost_currency holding))
                   (aggregate_holdings_by ops converted cost_currency) with
      | [] => []
      | first :: _ => [(cur, market_value first)]
      end
  end.

Definition spec_net_worths (ops : Ops) (L : Ledger) : list NetWorthRow :=
  flat_map (spec_net_worth_rows ops (price_map L) (final_holdings L))
           (operating_currency L).

(** [enumerate(l)], counting from [i]. *)
Definition enumerate_from {A : Type} (i : nat) (l : list A)
  : list (nat * A) :=
  combine (seq i (List.length l)) l.

(** The holdings that the export loop does not skip, with their index. *)
Definition exported_with_index (tickers : string -> option meta_value)
           (i : nat) (hs : list Holding) : list (nat * Holding) :=
  filter (fun ih => negb (is_skipped tickers (snd ih))) (enumerate_from i hs).

(** [t] is the buy transaction of the holding [h] found at index [i]. *)
Definition is_individual_buy (ops : Ops)
           (tickers : string -> option meta_value)
           (promiscuous : bool) (trade : datetime)
           (ih : nat * Holding) (t : Transaction) : Prop :=
  let '(i, h) := ih in
  exists ticker n c,
    tickers_get tickers (currency h) = Some (MetaStr ticker)
    /\ number h = Some n
    /\ cost_number h = Some c
    /\ txntype t = (if is_mutual_fund ticker then "BUYMF" else "BUYSTOCK")
    /\ fitid t = (i + 1)%nat
    /\ dttrade t = render_ofx_date trade
    /\ memo t = (if promiscuous then account h else Some "")
    /\ uniqueid t = ticker
    /\ units t = n
    /\ unitprice t = c
    /\ fee t = ZERO
    /\ total t = dec_neg ops (dec_add ops (dec_mul ops n c) (fee t))
    /\ buytype t = "BUY".

(** A line that is empty or made of whitespace only. *)
Fixpoint is_blank (line : string) : bool :=
  match line with
  | EmptyString => true
  | String c rest => isspace c && is_blank rest
  end.

(** A line that does not begin with whitespace. *)
Definition is_left_trimmed (line : string) : bool :=
  match line with
  | EmptyString => true
  | String c _ => negb (isspace c)
  end.

(** Every holding that the export loop does not skip has a number of
    units, as the holdings computed from a ledger do. *)
Definition units_defined (tickers : string -> option meta_value)
           (hs : list Holding) : Prop :=
  Forall (fun h => is_skipped tickers h = false -> number h <> None) hs.

(** The state that [ofx_transactions] reaches on the example with a cash
    position followed by a stock position. *)
Definition state_cash_then_stock : OfxState :=
  Eval vm_compute in
    match ofx_transactions spec_ops ledger_cash_then_stock quiet
                           example_clock with
    | Ok st => st
    | Raise _ => initial_state
    end.

(** The document that the export writes for the same example. *)
Definition document_cash_then_stock : string :=
  text_of_lines
    [ "OFXHEADER:100";
      "DATA:OFXSGML";
      "VERSION:102";
      "SECURITY:NONE";
      "ENCODING:USASCII";
      "CHARSET:1252";
      "COMPRESSION:NONE";
      "OLDFILEUID:NONE";
      "NEWFILEUID:NONE";
      "";
      "<OFX>";
      "<SIGNONMSGSRSV1>";
      "<SONRS>";
      "<STATUS>";
      "<CODE>0";
      "<SEVERITY>INFO";
      "</STATUS>";
      "<DTSERVER>20140307090000.000";
      "<LANGUAGE>ENG";
      "</SONRS>";
      "</SIGNONMSGSRSV1>";
      "<INVSTMTMSGSRSV1>";
      "<INVSTMTTRNRS>";
      "<TRNUID>1001";
      "<STATUS>";
      "<CODE>0";
      "<SEVERITY>INFO";
      "</STATUS>";
      "<INVSTMTRS>";
      "<DTASOF>20140307090000.000";
      "<CURDEF>USD";
      "<INVACCTFROM>";
      "<BROKERID>Beancount";
      "<ACCTID>";
      "</INVACCTFROM>";
      "<INVTRANLIST>";
      "<DTSTART>20140307090000.000";
      "<DTEND>20140307090000.000";
      "<BUYSTOCK>";
      "<INVBUY>";
      "<INVTRAN>";
      "<FITID>2";
      "<DTTRADE>20140305090000.000";
      "<MEMO>";
      "</INVTRAN>";
      "<SECID>";
      "<UNIQUEID>NYSE:AAA";
      "<UNIQUEIDTYPE>TICKER";
      "</SECID>";
      "<UNITS>10";
      "<UNITPRICE>100";
      "<COMMISSION>0";
      "<TOTAL>-1000";
      "<SUBACCTSEC>CASH";
      "<SUBACCTFUND>CASH";
      "</INVBUY>";
      "<BUYTYPE>BUY";
      "</BUYSTOCK>";
      "<BUYMF>";
      "<INVBUY>";
      "<INVTRAN>";
      "<FITID>2";
      "<DTTRADE>20140305090000.000";
      "<MEMO>";
      "</INVTRAN>";
      "<SECID>";
      "<UNIQUEID>VMMXX";
      "<UNIQUEIDTYPE>TICKER";
      "</SECID>";
      "<UNITS>250";
      "<UNITPRICE>1";
      "<COMMISSION>0";
      "<TOTAL>-250";
      "<SUBACCTSEC>CASH";
      "<SUBACCTFUND>CASH";
      "</INVBUY>";
      "<BUYTYPE>BUY";
      "</BUYMF>";
      "</INVTRANLIST>";
      "</INVSTMTRS>";
      "</INVSTMTTRNRS>";
      "</INVSTMTMSGSRSV1>";
      "<SECLISTMSGSRSV1>";
      "<SECLIST>";
      "<STOCKINFO>";
      "<SECINFO>";
      "<SECID>";
      "<UNIQUEID>AAA";
      "<UNIQUEIDTYPE>TICKER";
      "</SECID>";
      "<SECNAME>AAA";
      "<TICKER>NYSE:AAA";
      "</SECINFO>";
      "</STOCKINFO>";
      "<STOCKINFO>";
      "<SECINFO>";
      "<SECID>";
      "<UNIQUEID>VMMXX";
      "<UNIQUEIDTYPE>TICKER";
      "</SECID>";
      "<SECNAME>VMMXX";
      "<TICKER>VMMXX";
      "</SECINFO>";
      "</STOCKINFO>";
      "</SECLIST>";
      "</SECLISTMSGSRSV1>";
      "</OFX>" ].

(** The currency of a security triple. *)
Definition security_currency (s : Security) : string := fst (fst s).

(** The three tests of the classification loop, one per bucket. *)
Definition is_convert (tickers : string -> option meta_value) (h : Holding)
  : bool :=
  is_cash_marker (tickers_get tickers (currency h)).

Definition is_export (tickers : string -> option meta_value) (h : Holding)
  : bool :=
  negb (is_cash_marker (tickers_get tickers (currency h)))
  && ticker_truthy_None (tickers_get tickers (currency h)).

Definition is_ignore (tickers : string -> option meta_value) (h : Holding)
  : bool :=
  negb (is_cash_marker (tickers_get tickers (currency h)))
  && negb (ticker_truthy_None (tickers_get tickers (currency h))).

(** ** Reference descriptions for the rendered document *)

(** No character of [s] is a line boundary. *)
Fixpoint no_linebreak (s : string) : bool :=
  match s with
  | EmptyString => true
  | String c rest => negb (is_linebreak c) && no_linebreak rest
  end.

(** What it means for [lines] to be the lines of a text, in the words of
    the documentation of [str.splitlines]: the text is cut at every line
    boundary, a carriage return followed by a line feed counting for one;
    the boundaries are not kept, and a text that ends with a boundary has
    no empty line after it. *)
Inductive split_lines : string -> list string -> Prop :=
| split_nil : split_lines "" []
| split_last (line : string) :
    line <> "" -> no_linebreak line = true -> split_lines line [line]
| split_crlf (line rest : string) (lines : list string) :
    no_linebreak line = true ->
    split_lines rest lines ->
    split_lines (line ++ String CR (String LF rest)) (line :: lines)
| split_break (line : string) (c : ascii) (rest : string)
              (lines : list string) :
    no_linebreak line = true ->
    is_linebreak c = true ->
    (c = CR -> forall rest', rest <> String LF rest') ->
    split_lines rest lines ->
    split_lines (line ++ String c rest) (line :: lines).

(** [k] is [line] without its leading whitespace. *)
Definition is_lstrip_of (line k : string) : Prop :=
  exists ws, line = ws ++ k /\ is_blank ws = true /\ is_left_trimmed k = true.

(** The lines that [render_ofx] keeps of a text. *)
Definition stripped_lines (lines : list string) : list string :=
  map lstrip (filter (fun line => str_truthy (strip line)) lines).

(** The kept lines of a text. *)
Definition kept_of (s : string) : list string :=
  stripped_lines (splitlines s).

Section Texts.

Variable str_Decimal : Decimal -> string.

(** [TRANSACTION] filled with the variables of one write, line by line. *)
Definition transaction_text (t : Transaction) : string :=
  text_of_lines
    [ "";
      "<" ++ txntype t ++ ">";
      "  <INVBUY>";
      "    <INVTRAN>";
      "      <FITID>" ++ str_nat (fitid t);
      "      <DTTRADE>" ++ dttrade t;
      "      <MEMO>" ++ str_opt (memo t);
      "    </INVTRAN>";
      "    <SECID>";
      "      <UNIQUEID>" ++ uniqueid t;
      "      <UNIQUEIDTYPE>TICKER";
      "    </SECID>";
      "    <UNITS>" ++ str_Decimal (units t);
      "    <UNITPRICE>" ++ str_Decimal (unitprice t);
      "    <COMMISSION>" ++ str_Decimal (fee t);
      "    <TOTAL>" ++ str_Decimal (total t);
      "    <SUBACCTSEC>CASH";
      "    <SUBACCTFUND>CASH";
      "  </INVBUY>";
      "  <BUYTYPE>" ++ buytype t;
      "</" ++ txntype t ++ ">";
      "" ].

(** The lines of the document that one transaction gives. *)
Definition transaction_lines (t : Transaction) : list string :=
  [ "<" ++ txntype t ++ ">";
    "<INVBUY>";
    "<INVTRAN>";
    "<FITID>" ++ str_nat (fitid t);
    "<DTTRADE>" ++ dttrade t;
    "<MEMO>" ++ str_opt (memo t);
    "</INVTRAN>";
    "<SECID>";
    "<UNIQUEID>" ++ uniqueid t;
    "<UNIQUEIDTYPE>TICKER";
    "</SECID>";
    "<UNITS>" ++ str_Decimal (units t);
    "<UNITPRICE>" ++ str_Decimal (unitprice t);
    "<COMMISSION>" ++ str_Decimal (fee t);
    "<TOTAL>" ++ str_Decimal (total t);
    "<SUBACCTSEC>CASH";
    "<SUBACCTFUND>CASH";
    "</INVBUY>";
    "<BUYTYPE>" ++ buytype t;
    "</" ++ txntype t ++ ">" ].

(** [SECURITY] filled for one element of [sorted(commodities)]. *)
Definition security_text (s : Security) : string :=
  let '(cur, ticker, mutual_fund) := s in
  let infotype := if mutual_fund : bool then "MFINFO" else "STOCKINFO" in
  text_of_lines
    [ "";
      "<" ++ infotype ++ ">";
      "  <SECINFO>";
      "    <SECID>";
      "      <UNIQUEID>" ++ cur;
      "      <UNIQUEIDTYPE>TICKER";
      "    </SECID>";
      "    <SECNAME>" ++ cur;
      "    <TICKER>" ++ ticker;
      "  </SECINFO>";
      "</" ++ infotype ++ ">";
      "" ].

(** The lines of the document that one security gives. *)
Definition security_lines (s : Security) : list string :=
  let '(cur, ticker, mutual_fund) := s in
  let infotype := if mutual_fund : bool then "MFINFO" else "STOCKINFO" in
  [ "<" ++ infotype ++ ">";
    "<SECINFO>";
    "<SECID>";
    "<UNIQUEID>" ++ cur;
    "<UNIQUEIDTYPE>TICKER";
    "</SECID>";
    "<SECNAME>" ++ cur;
    "<TICKER>" ++ ticker;
    "</SECINFO>";
    "</" ++ infotype ++ ">" ].

(** [TEMPLATE] filled with the date of the server, the account name, the
    text of the transactions and the text of the securities. *)
Definition filled_template (dtserver account invtranlist seclist : string)
  : string :=
  text_of_lines
    [ "";
      "<OFX>";
      "  <SIGNONMSGSRSV1>";
      "    <SONRS>";
      "      <STATUS>";
      "        <CODE>0";
      "        <SEVERITY>INFO";
      "      </STATUS>";
      "      <DTSERVER>" ++ dtserver;
      "      <LANGUAGE>ENG";
      "    </SONRS>";
      "  </SIGNONMSGSRSV1>";
      "  <INVSTMTMSGSRSV1>";
      "    <INVSTMTTRNRS>";
      "      <TRNUID>1001";
      "      <STATUS>";
      "        <CODE>0";
      "        <SEVERITY>INFO";
      "      </STATUS>";
      "      <INVSTMTRS>";
      "        <DTASOF>" ++ dtserver;
      "        <CURDEF>USD";
      "        <INVACCTFROM>";
      "          <BROKERID>Beancount";
      "          <ACCTID>" ++ account;
      "        </INVACCTFROM>";
      "        <INVTRANLIST>";
      "          <DTSTART>" ++ dtserver;
      "          <DTEND>" ++ dtserver;
      "          " ++ invtranlist;
      "        </INVTRANLIST>";
      "      </INVSTMTRS>";
      "    </INVSTMTTRNRS>";
      "  </INVSTMTMSGSRSV1>";
      "  <SECLISTMSGSRSV1>";
      "    <SECLIST>";
      "     " ++ seclist;
      "    </SECLIST>";
      "  </SECLISTMSGSRSV1>";
      "</OFX>";
      "" ].

(** The lines of the document between the preamble and the
    transactions. *)
Definition document_head (dtserver account : string) : list string :=
  [ "<OFX>";
    "<SIGNONMSGSRSV1>";
    "<SONRS>";
    "<STATUS>";
    "<CODE>0";
    "<SEVERITY>INFO";
    "</STATUS>";
    "<DTSERVER>" ++ dtserver;
    "<LANGUAGE>ENG";
    "</SONRS>";
    "</SIGNONMSGSRSV1>";
    "<INVSTMTMSGSRSV1>";
    "<INVSTMTTRNRS>";
    "<TRNUID>1001";
    "<STATUS>";
    "<CODE>0";
    "<SEVERITY>INFO";
    "</STATUS>";
    "<INVSTMTRS>";
    "<DTASOF>" ++ dtserver;
    "<CURDEF>USD";
    "<INVACCTFROM>";
    "<BROKERID>Beancount";
    "<ACCTID>" ++ account;
    "</INVACCTFROM>";
    "<INVTRANLIST>";
    "<DTSTART>" ++ dtserver;
    "<DTEND>" ++ dtserver ].

(** The lines of the document after the preamble. *)
Definition document_lines (dtserver account : string)
           (transactions : list Transaction) (securities : list Security)
  : list string :=
  (document_head dtserver account
   ++ flat_map transaction_lines transactions
   ++ [ "</INVTRANLIST>";
        "</INVSTMTRS>";
        "</INVSTMTTRNRS>";
        "</INVSTMTMSGSRSV1>";
        "<SECLISTMSGSRSV1>";
        "<SECLIST>" ]
   ++ flat_map security_lines securities
   ++ [ "</SECLIST>";
        "</SECLISTMSGSRSV1>";
        "</OFX>" ])%list.

(** The memo, the ticker and the four amounts that a transaction puts into
    the document hold no line boundary. *)
Definition single_line_transaction (t : Transaction) : bool :=
  no_linebreak (str_opt (memo t))
  && no_linebreak (uniqueid t)
  && no_linebreak (str_Decimal (units t))
  && no_linebreak (str_Decimal (unitprice t))
  && no_linebreak (str_Decimal (fee t))
  && no_linebreak (str_Decimal (total t)).

End Texts.

(** The currency and the ticker that a security puts into the document
    hold no line boundary. *)
Definition single_line_security (s : Security) : bool :=
  let '(cur, ticker, _) := s in no_linebreak cur && no_linebreak ticker.

(** ** Reference descriptions for the outcome of the export *)

(** The holdings that the export loop skips, and the ones it exports. *)
Definition skipped_of (L : Ledger) : list Holding :=
  filter (is_skipped (get_values_meta (commodity_map L))) (final_holdings L).

Definition exported_of (L : Ledger) : list Holding :=
  filter (fun h => negb (is_skipped (get_values_meta (commodity_map L)) h))
         (final_holdings L).

(** The skipped holdings that, once converted, are valued in the cash
    currency. *)
Definition cash_included (ops : Ops) (L : Ledger) (cash_currency : string)
  : list Holding :=
  filter (fun h => opt_str_eqb (cost_currency h) (Some cash_currency))
         (convert_to_currency ops (price_map L) cash_currency (skipped_of L)).

(** Both values that the cash equivalent adds up are present. *)
Definition values_defined (hs : list Holding) : Prop :=
  Forall (fun h => book_value h <> None /\ market_value h <> None) hs.

(** The sum of a list of values that are all defined: the [int] 0 for the
    empty list, else the values added one by one to a total that starts
    at zero. *)
Definition sum_of (ops : Ops) (xs : list (option Decimal)) : Num :=
  fold_left (fun a x =>
               match x with
               | Some v => Dec (dec_add ops (num_value a) v)
               | None => a
               end)
            xs Int0.

(** The market value that the cash equivalent stands for: the sum of the
    market values of these holdings. *)
Definition cash_market_value (ops : Ops) (L : Ledger) (cash_currency : string)
  : Num :=
  sum_of ops (map market_value (cash_included ops L cash_currency)).

(** The ratio of their book value to their market value, as the operators
    of [Decimal] give it. *)
Definition cash_unit_price (ops : Ops) (L : Ledger) (cash_currency : string)
  : Decimal :=
  dec_div ops
    (num_value (sum_of ops (map book_value
                                (cash_included ops L cash_currency))))
    (num_value (cash_market_value ops L cash_currency)).

(** The same ledger under another title. *)
Definition with_title (L : Ledger) (t : string) : Ledger :=
  mkLedger (final_holdings L) (price_map L) (commodity_map L)
           (operating_currency L) t (quantize L).

(** The same ledger under another display context. *)
Definition with_quantize (L : Ledger) (q : Num -> string -> result Decimal)
  : Ledger :=
  mkLedger (final_holdings L) (price_map L) (commodity_map L)
           (operating_currency L) (title L) q.

(** [l1] is [l2] with some elements left out, the others in their order. *)
Inductive subseq {A : Type} : list A -> list A -> Prop :=
| subseq_nil : subseq [] []
| subseq_skip (x : A) (l1 l2 : list A) : subseq l1 l2 -> subseq l1 (x :: l2)
| subseq_take (x : A) (l1 l2 : list A) :
    subseq l1 l2 -> subseq (x :: l1) (x :: l2).

(** A ledger without holdings. *)
Definition ledger_without_holdings : Ledger :=
  mkLedger [] no_prices example_commodities ["USD"; "CAD"] "Example"
           example_quantize.

(** ** Reference descriptions for the CSV loader *)

(** The value of an attribute of a holding, as a cell. *)
Definition get_attr (a : attr) (h : Holding) : option cell :=
  match a with
  | a_account => option_map CStr (account h)
  | a_number => option_map CDec (number h)
  | a_currency => option_map CStr (currency h)
  | a_cost_currency => option_map CStr (cost_currency h)
  | a_cost_number => option_map CDec (cost_number h)
  | a_price_number => option_map CDec (price_number h)
  | a_book_value => option_map CDec (book_value h)
  | a_market_value => option_map CDec (market_value h)
  | a_price_date => option_map CStr (price_date h)
  end.

(** The cell that a column with converter [conv] stores for the text [v];
    [None] when the converter raises. *)
Definition converted (D : string -> option Decimal) (conv : converter)
           (v : string) : option cell :=
  match conv with
  | conv_None => Some (CStr v)
  | conv_D => option_map CDec (D v)
  end.

(** The column name of each attribute in [column_spec]. *)
Definition attr_name (a : attr) : string :=
  match a with
  | a_account => "Account"
  | a_number => "Units"
  | a_currency => "Currency"
  | a_cost_currency => "Cost Currency"
  | a_cost_number => "Average Cost"
  | a_price_number => "Price"
  | a_book_value => "Book Value"
  | a_market_value => "Market Value"
  | a_price_date => "Price Date"
  end.

(** The converter of each attribute in [column_spec]. *)
Definition attr_converter (a : attr) : converter :=
  match a with
  | a_account | a_currency | a_cost_currency | a_price_date => conv_None
  | a_number | a_cost_number | a_price_number | a_book_value
  | a_market_value => conv_D
  end.


(** ** [CashReport.generate_table] *)

(** The parsed command line of the cash report. *)
Record CashArgs : Type := mkCashArgs {
  cash_args_currency : option string;     (* -c / --currency *)
  cash_args_ignored : bool;               (* -i / --ignored *)
  cash_args_operating_only : bool         (* -o / --operating-only *)
}.

(** [a == b] on optional decimals: decimals are compared by value. *)
Definition opt_dec_eqb (a b : option Decimal) : bool :=
  match a, b with
  | Some x, Some y => Qeq_bool x y
  | None, None => true
  | _, _ => false
  end.

(** [a == b] on holdings: the equality of named tuples, field by field. *)
Definition holding_eqb (a b : Holding) : bool :=
  opt_str_eqb (account a) (account b)
  && opt_dec_eqb (number a) (number b)
  && opt_str_eqb (currency a) (currency b)
  && opt_str_eqb (cost_currency a) (cost_currency b)
  && opt_dec_eqb (cost_number a) (cost_number b)
  && opt_dec_eqb (price_number a) (price_number b)
  && opt_dec_eqb (book_value a) (book_value b)
  && opt_dec_eqb (market_value a) (market_value b)
  && opt_str_eqb (price_date a) (price_date b).

(** [set(l)]: the elements of [l], one for each class of equal holdings
    (the first that was added). *)
Definition set_of_list (l : list Holding) : list Holding :=
  fold_left (fun s x => set_add holding_eqb x s) l [].

(** [a - b] on sets. *)
Definition set_difference (a b : list Holding) : list Holding :=
  filter (fun x => negb (existsb (holding_eqb x) b)) a.

(** [holding.currency == holding.cost_currency or
     holding.cost_currency is None]. *)
Definition is_cash_holding (holding : Holding) : bool :=
  opt_str_eqb (currency holding) (cost_currency holding)
  || is_None (cost_currency holding).

(** [holding.currency in operating_currencies]. *)
Definition in_operating_currencies (operating_currencies : list string)
           (holding : Holding) : bool :=
  match currency holding with
  | Some c => existsb (String.eqb c) operating_currencies
  | None => false
  end.

(** [CashReport.generate_table].  With [--ignored] the rows are a set; the
    order in which a set yields its elements is not fixed by the language
    and is given by [iteration]. *)
Definition CashReport_generate_table (ops : Ops)
           (iteration : list Holding -> list Holding)
           (args : CashArgs) (L : Ledger) : Table Holding :=
  let '(holdings_list, price_map) := get_assets_holdings ops L None in
  let holdings_list_orig := holdings_list in
  let holdings_list := filter is_cash_holding holdings_list in
  let holdings_list :=
    if cash_args_operating_only args
    then filter (in_operating_currencies (operating_currency L))
                holdings_list
    else holdings_list in
  let holdings_list :=
    if cash_args_ignored args
    then iteration (set_difference (set_of_list holdings_list_orig)
                                   (set_of_list holdings_list))
    else holdings_list in
  let holdings_list :=
    match cash_args_currency args with
    | Some c =>
        if str_truthy c
        then convert_to_currency ops price_map c holdings_list
        else holdings_list
    | None => holdings_list
    end in
  create_table holdings_list FIELD_SPEC.

(** The holdings that the cash report keeps. *)
Definition is_reported_cash (args : CashArgs) (L : Ledger) (h : Holding)
  : bool :=
  is_cash_holding h
  && (negb (cash_args_operating_only args)
      || in_operating_currencies (operating_currency L) h).

(** The conversion that [--currency] asks for. *)
Definition cash_conversion (ops : Ops) (args : CashArgs) (L : Ledger)
           (hs : list Holding) : list Holding :=
  if opt_str_truthy (cash_args_currency args)
  then convert_to_currency ops (price_map L)
                           (match cash_args_currency args with
                            | Some c => c
                            | None => EmptyString
                            end) hs
  else hs.

(** A ledger with two cash positions, one of them twice, and a stock. *)
Definition ledger_for_cash : Ledger :=
  mkLedger [ cash "Assets:Bank" "USD" 250;
             stock "Assets:Broker" "AAA" "USD" 10 100 110;
             stock "Assets:Broker" "AAA" "USD" 10 100 110;
             cash "Assets:Bank" "CAD" 40 ]
           no_prices example_commodities
           ["USD"] "Example" example_quantize.

(** ** [get_holdings_entries] and [HoldingsReport.render_beancount] *)

(** How a call ends when it can also raise [IndexError]. *)
Inductive outcome (A : Type) : Type :=
| Returns (a : A)
| Raises (e : exn)
| RaisesIndexError.
Arguments Returns {A} a.
Arguments Raises {A} e.
Arguments RaisesIndexError {A}.

Section Directives.

(** Positions, their negated costs, and the directives of the ledger are
    values of other modules. *)
Variables Position Cost Directive : Type.

(** [data.Posting(entry, account, position, None, None, None)]. *)
Record Posting : Type := mkPosting {
  posting_account : option string;
  posting_position : Position + Cost
}.

(** The directives that the function builds, and those that it passes on. *)
Inductive Entry : Type :=
| OpenEntry (meta : string * Z) (date : string) (acct : string)
| TransactionEntry (meta : string * Z) (date : string) (flag : string)
              (postings : list Posting)
| ExistingEntry (d : Directive).

(** What the entries and other modules supply to [get_holdings_entries]. *)
Record EntriesView : Type := mkEntriesView {
  view_ledger : Ledger;
  latest_date : option string;        (* entries[-1].date; None: no entry *)
  equity_account : string;            (* options.get_previous_accounts(..)[1] *)
  FLAG_SUMMARIZE : string;            (* flags.FLAG_SUMMARIZE *)
  holding_to_position : Holding -> Position;
  negated_cost : Position -> Cost;    (* -position_.cost() *)
  open_entries : list (string * Z * string * string);
                                      (* summarize.get_open_entries(..):
                                         meta, date, account of each *)
  last_price_entries : list Directive (* prices.get_last_price_entries(..) *)
}.

(** The loop [for index, holding in enumerate(holdings_list)]. *)
Fixpoint holdings_entries_loop (V : EntriesView) (date : string)
         (index : Z) (holdings_list : list Holding) : list Entry :=
  match holdings_list with
  | [] => []
  | holding :: rest =>
      let meta := ("report_holdings_print", index) in
      let position_ := holding_to_position V holding in
      TransactionEntry meta date (FLAG_SUMMARIZE V)
                  [ mkPosting (account holding) (inl position_);
                    mkPosting (Some (equity_account V))
                              (inr (negated_cost V position_)) ]
      :: holdings_entries_loop V date (index + 1)%Z rest
  end.

Definition get_holdings_entries (ops : Ops) (V : EntriesView)
  : outcome (list Entry) :=
  match latest_date V with
  | None => RaisesIndexError                       (* entries[-1] *)
  | Some date =>
      let '(holdings_list, _) :=
        get_assets_holdings ops (view_ledger V) None in
      let holdings_entries := holdings_entries_loop V date 0%Z holdings_list in
      let used_accounts := map account holdings_list in
      let used_open_entries :=
        map (fun '(meta, d, a) => OpenEntry meta d a)
            (filter (fun '(meta, d, a) =>
                       existsb (opt_str_eqb (Some a)) used_accounts)
                    (open_entries V)) in
      let used_open_entries :=
        OpenEntry ("report_holdings_print", (-1)%Z) date (equity_account V)
        :: used_open_entries in
      let price_entries := map ExistingEntry (last_price_entries V) in
      Returns (used_open_entries ++ holdings_entries ++ price_entries)%list
  end.

(** [getattr(self.args, attribute)] as a truth value. *)
Definition getattr_truthy (args : HoldingsArgs) (attribute : string) : bool :=
  if String.eqb attribute "currency"
  then opt_str_truthy (args_currency args)
  else if String.eqb attribute "relative" then args_relative args
  else if String.eqb attribute "groupby"
       then negb (is_None (args_groupby args))
       else false.

(** The loop [for attribute in 'currency', 'relative', 'groupby']. *)
Fixpoint check_no_aggregation (args : HoldingsArgs) (attributes : list string)
  : result unit :=
  match attributes with
  | [] => Ok tt
  | attribute :: rest =>
      if getattr_truthy args attribute
      then Raise (SystemExit ("'beancount' format does not support --"
                              ++ attribute ++ " option"))
      else check_no_aggregation args rest
  end.

(** [HoldingsReport.render_beancount]: the entries handed to the printer. *)
Definition HoldingsReport_render_beancount (ops : Ops) (self : HoldingsReport)
           (V : EntriesView) : outcome (list Entry) :=
  match check_no_aggregation (self_args self)
                             ["currency"; "relative"; "groupby"] with
  | Raise e => Raises e
  | Ok _ => get_holdings_entries ops V
  end.

End Directives.

Arguments OpenEntry {Position Cost Directive} meta date acct.
Arguments TransactionEntry {Position Cost Directive} meta date flag postings.
Arguments ExistingEntry {Position Cost Directive} d.
Arguments mkPosting {Position Cost} posting_account posting_position.
Arguments posting_account {Position Cost} p.
Arguments posting_position {Position Cost} p.
Arguments view_ledger {Position Cost Directive} e.
Arguments latest_date {Position Cost Directive} e.
Arguments equity_account {Position Cost Directive} e.
Arguments FLAG_SUMMARIZE {Position Cost Directive} e.
Arguments holding_to_position {Position Cost Directive} e _.
Arguments negated_cost {Position Cost Directive} e _.
Arguments open_entries {Position Cost Directive} e.
Arguments last_price_entries {Position Cost Directive} e.
Arguments holdings_entries_loop {Position Cost Directive} V date index
  holdings_list.
Arguments get_holdings_entries {Position Cost Directive} ops V.
Arguments HoldingsReport_render_beancount {Position Cost Directive} ops self V.

(** A view of the entries of the example ledger with a cash and a stock
    position; positions and costs are shown by their holding. *)
Definition example_view : EntriesView Holding Holding string :=
  mkEntriesView Holding Holding string
    ledger_cash_then_stock (Some "2014-03-07") "Equity:Opening-Balances" "S"
    (fun h => h) (fun p => p)
    [ (("ledger.beancount", 1%Z), "2014-01-01", "Assets:Bank");
      (("ledger.beancount", 2%Z), "2014-01-01", "Assets:Broker");
      (("ledger.beancount", 3%Z), "2014-01-01", "Expenses:Food") ]
    ["2014-03-06 price AAA 110 USD"].

(** ** Valid [datetime] values *)

(** The ranges that [datetime.datetime] guarantees for its fields: years
    from 1 to 9999 and microseconds below one million. *)
Definition valid_datetime (d : datetime) : Prop :=
  (1 <= year d < 100 * 100 /\ 1 <= month d <= 12 /\ 1 <= day d <= 31
   /\ hour d < 24 /\ minute d < 60 /\ second d < 60
   /\ microsecond d < 1000 * 1000)%nat.

(** The value of a string of decimal digits. *)
Fixpoint digits_value (s : string) (acc : nat) : nat :=
  match s with
  | EmptyString => acc
  | String c rest => digits_value rest (10 * acc + (nat_of_ascii c - 48))%nat
  end.

(* ================================================================== *)
(** * Part II: properties *)
(* ================================================================== *)

Example is_mutual_fund_ex1 : is_mutual_fund "MUTF:ABCDX" = true.
Proof. reflexivity. Qed.
Example is_mutual_fund_ex2 : is_mutual_fund "ABCD" = false.
Proof. reflexivity. Qed.
Example is_mutual_fund_ex3 : is_mutual_fund "MUTFX:A" = true.
Proof. reflexivity. Qed.

(** ** Strings *)

Lemma append_nil_r (s : string) : s ++ "" = s.
Proof. induction s as [|c s IH]; simpl; [reflexivity | now rewrite IH]. Qed.

Lemma append_assoc (s1 s2 s3 : string) : (s1 ++ s2) ++ s3 = s1 ++ (s2 ++ s3).
Proof. induction s1 as [|c s1 IH]; simpl; [reflexivity | now rewrite IH]. Qed.

Lemma append_eq_nil (s1 s2 : string) : s1 ++ s2 = "" -> s1 = "" /\ s2 = "".
Proof. destruct s1; simpl; intros H; [now split | discriminate]. Qed.

(** ** The derivative matcher agrees with the declarative semantics *)

Module ReFacts.
Import Re.

Lemma nullable_matches (r : regex) : nullable r = true <-> matches r "".
Proof.
  split.
  - induction r; simpl; intros H; try discriminate.
    + constructor.
    + apply andb_true_iff in H as [H1 H2].
      change "" with ("" ++ ""). constructor; auto.
    + apply orb_true_iff in H as [H|H]; [apply MAltL | apply MAltR]; auto.
    + constructor.
  - intros H. remember "" as s eqn:Es.
    induction H; simpl; try reflexivity; try discriminate.
    + apply append_eq_nil in Es as [-> ->].
      rewrite IHmatches1, IHmatches2; reflexivity.
    + rewrite IHmatches by assumption. reflexivity.
    + rewrite IHmatches by assumption. apply orb_true_r.
Qed.

Lemma matches_deriv_intro (r : regex) (t : string) :
  matches r t -> forall c s, t = String c s -> matches (deriv c r) s.
Proof.
  induction 1 as [ | d | d Hd | r1 r2 s1 s2 H1 IH1 H2 IH2
                 | r1 r2 s0 H1 IH1 | r1 r2 s0 H2 IH2 | r0
                 | r0 s1 s2 H1 IH1 H2 IH2 ];
    intros c s E; simpl.
  - discriminate.
  - injection E as <- <-. rewrite Ascii.eqb_refl. constructor.
  - injection E as <- <-.
    destruct (Ascii.eqb_spec d newline) as [->|_]; [contradiction | constructor].
  - destruct s1 as [|c1 s1'].
    + simpl in E. subst s2.
      apply nullable_matches in H1. rewrite H1.
      apply MAltR. now apply IH2.
    + simpl in E. injection E as -> <-.
      specialize (IH1 c s1' eq_refl).
      destruct (nullable r1); [apply MAltL|]; now constructor.
  - apply MAltL. now apply IH1.
  - apply MAltR. now apply IH2.
  - discriminate.
  - destruct s1 as [|c1 s1'].
    + simpl in E. now apply IH2.
    + simpl in E. injection E as -> <-.
      constructor; [now apply IH1 | assumption].
Qed.

Lemma matches_deriv_elim (c : ascii) (r : regex) :
  forall s, matches (deriv c r) s -> matches r (String c s).
Proof.
  induction r as [ | | d | | r1 IH1 r2 IH2 | r1 IH1 r2 IH2 | r1 IH1 ];
    simpl; intros s H.
  - inversion H.
  - inversion H.
  - destruct (Ascii.eqb_spec c d) as [->|_]; inversion H; subst. constructor.
  - destruct (Ascii.eqb_spec c newline) as [->|Hn]; inversion H; subst.
    now constructor.
  - destruct (nullable r1) eqn:N1.
    + inversion H as [ | | | | ? ? ? HL | ? ? ? HR | | ]; subst.
      * inversion HL as [ | | | ? ? s1 s2 Ha Hb | | | | ]; subst.
        change (String c (s1 ++ s2)) with (String c s1 ++ s2).
        constructor; auto.
      * change (String c s) with ("" ++ String c s).
        constructor; [now apply nullable_matches | auto].
    + inversion H as [ | | | ? ? s1 s2 Ha Hb | | | | ]; subst.
      change (String c (s1 ++ s2)) with (String c s1 ++ s2).
      constructor; auto.
  - inversion H; subst; [apply MAltL | apply MAltR]; auto.
  - inversion H as [ | | | ? ? s1 s2 Ha Hb | | | | ]; subst.
    change (String c (s1 ++ s2)) with (String c s1 ++ s2).
    constructor; auto.
Qed.

(** [re_match] finds a match exactly when a prefix of the subject is in
    the language of the pattern. *)
Lemma re_match_spec (s : string) :
  forall r, re_match r s = true <->
            exists p q, s = p ++ q /\ matches r p.
Proof.
  induction s as [|c s IH]; intros r; simpl.
  - rewrite orb_false_r, nullable_matches. split.
    + intros H. exists "", "". now split.
    + intros (p & q & E & H). symmetry in E.
      apply append_eq_nil in E as [-> _]. exact H.
  - rewrite orb_true_iff, nullable_matches, IH. split.
    + intros [H | (p & q & -> & H)].
      * exists "", (String c s). now split.
      * exists (String c p), q. split; [reflexivity|].
        now apply matches_deriv_elim.
    + intros (p & q & E & H). destruct p as [|c' p].
      * now left.
      * simpl in E. injection E as <- ->. right.
        exists p, q. split; [reflexivity|].
        now apply matches_deriv_intro with (t := String c p).
Qed.

Lemma matches_cat_inv (r1 r2 : regex) (s : string) :
  matches (Cat r1 r2) s ->
  exists s1 s2, s = s1 ++ s2 /\ matches r1 s1 /\ matches r2 s2.
Proof. intros H; inversion H; subst; eauto. Qed.

Lemma matches_chr_inv (c : ascii) (s : string) :
  matches (Chr c) s -> s = String c "".
Proof. intros H; inversion H; reflexivity. Qed.

Lemma matches_lit (w s : string) : matches (lit w) s <-> s = w.
Proof.
  revert s. induction w as [|c w IH]; intros s; simpl.
  - split; [intros H; inversion H; reflexivity | intros ->; constructor].
  - split.
    + intros H. apply matches_cat_inv in H as (s1 & s2 & -> & H1 & H2).
      apply matches_chr_inv in H1 as ->. apply IH in H2 as ->. reflexivity.
    + intros ->. change (String c w) with (String c "" ++ w).
      constructor; [constructor | now apply IH].
Qed.

End ReFacts.

(** ** [is_mutual_fund] *)

Lemma contains_append (c : ascii) (s1 s2 : string) :
  contains c (s1 ++ s2) = contains c s1 || contains c s2.
Proof.
  induction s1 as [|d s1 IH]; cbn [contains append]; [reflexivity|].
  now rewrite IH, orb_assoc.
Qed.

Lemma matches_star_dot (a : string) :
  Re.matches (Re.Star Re.Dot) a <-> contains Re.newline a = false.
Proof.
  split.
  - intros H. remember (Re.Star Re.Dot) as r eqn:Er.
    induction H; try discriminate; [reflexivity|].
    injection Er as ->.
    rewrite contains_append, IHmatches2 by reflexivity.
    inversion H as [ | | c Hc | | | | | ]; subst. cbn [contains].
    destruct (Ascii.eqb_spec Re.newline c) as [E|_]; [now subst | reflexivity].
  - induction a as [|c a IH]; cbn [contains]; intros H; [constructor|].
    apply orb_false_iff in H as [Hc Ha].
    change (String c a) with (String c "" ++ a).
    constructor; [|now apply IH].
    constructor. intros ->. now rewrite Ascii.eqb_refl in Hc.
Qed.

Lemma matches_MUTF_PATTERN (p : string) :
  Re.matches MUTF_PATTERN p <->
  exists a, p = "MUTF" ++ a ++ ":" /\ contains Re.newline a = false.
Proof.
  unfold MUTF_PATTERN. split.
  - intros H.
    apply ReFacts.matches_cat_inv in H as (s1 & s2 & -> & H1 & H2).
    apply ReFacts.matches_lit in H1 as ->.
    apply ReFacts.matches_cat_inv in H2 as (a & s3 & -> & Ha & H3).
    apply ReFacts.matches_chr_inv in H3 as ->.
    exists a. split; [reflexivity | now apply matches_star_dot].
  - intros (a & -> & Ha).
    constructor; [now apply ReFacts.matches_lit|].
    constructor; [now apply matches_star_dot | constructor].
Qed.

(** C4 (as amended): [is_mutual_fund] returns true exactly for the tickers
    that start with [MUTF], continue with any run of characters other than
    a newline, and then have a colon; in particular ["MUTF:ABCDX"] is a
    mutual fund and ["ABCD"] is not. *)
Theorem is_mutual_fund_spec :
  (forall ticker : string,
      is_mutual_fund ticker = true <->
      exists a b, ticker = "MUTF" ++ a ++ ":" ++ b
                  /\ contains Re.newline a = false)
  /\ is_mutual_fund "MUTF:ABCDX" = true
  /\ is_mutual_fund "ABCD" = false.
Proof.
  split; [|split; reflexivity].
  intros ticker. unfold is_mutual_fund.
  rewrite ReFacts.re_match_spec. split.
  - intros (p & q & -> & H).
    apply matches_MUTF_PATTERN in H as (a & -> & Ha).
    exists a, q. split; [|exact Ha].
    simpl. now rewrite append_assoc.
  - intros (a & b & -> & Ha).
    exists ("MUTF" ++ a ++ ":"), b. split.
    + simpl. now rewrite append_assoc.
    + apply matches_MUTF_PATTERN. now exists a.
Qed.

(** C4 as stated fails: ["MUTFX:A"] is classified as a mutual fund although
    it does not start with ["MUTF:"]. *)
Lemma is_mutual_fund_prefix_counterexample :
  ~ (is_mutual_fund "MUTFX:A" = true <->
     String.prefix "MUTF:" "MUTFX:A" = true).
Proof. intros [H _]. specialize (H eq_refl). discriminate H. Qed.

(** ** [load_from_csv] *)

Example parse_decimal_ex : parse_decimal "12.50" = Some (1250 # 100).
Proof. reflexivity. Qed.

Lemma dict_lookup_None {V : Type} (d : list (string * V)) (key : string) :
  dict_lookup d key = None <-> ~ In key (map fst d).
Proof.
  induction d as [|[k v] d IH]; simpl.
  - tauto.
  - destruct (dict_lookup d key) as [v'|].
    + split; [discriminate|]. intros H. exfalso.
      assert (Hn : ~ In key (map fst d)) by tauto.
      apply IH in Hn. discriminate.
    + destruct (String.eqb_spec k key) as [->|Hne].
      * split; [discriminate | tauto].
      * split; [|reflexivity]. intros _ [E|HIn]; [contradiction|].
        now apply IH in HIn.
Qed.

Lemma column_dict_keys : map fst column_dict = recognized_columns.
Proof. reflexivity. Qed.

(** Each entry of [column_spec] converts with [D] exactly the decimal
    attributes, so [set_attr] is only called on matching kinds. *)
Lemma column_spec_typed :
  Forall (fun '(_, a, conv) =>
            match a, conv with
            | (a_account | a_currency | a_cost_currency | a_price_date),
              conv_None => True
            | (a_number | a_cost_number | a_price_number
               | a_book_value | a_market_value), conv_D => True
            | _, _ => False
            end) column_spec.
Proof. repeat constructor. Qed.

Lemma read_header_Raise (header : list string) (e : exn) :
  read_header header = Raise e ->
  e = IOError INVALID_CONTENTS
  /\ exists name, In name header /\ ~ In name recognized_columns.
Proof.
  induction header as [|name rest IH]; cbn [read_header]; [discriminate|].
  destruct (dict_lookup column_dict name) as [ac|] eqn:L.
  - destruct (read_header rest) as [acs|e'] eqn:R; cbn [bind]; [discriminate|].
    intros E. destruct (IH E) as (-> & n & Hn & Hr).
    split; [reflexivity|]. exists n. split; [now right | exact Hr].
  - intros [= <-]. split; [reflexivity|]. exists name. split; [now left|].
    rewrite <- column_dict_keys. now apply dict_lookup_None.
Qed.

Lemma read_header_Ok (header : list string) (acs : list (attr * converter)) :
  read_header header = Ok acs ->
  Forall (fun name => In name recognized_columns) header
  /\ Forall2 (fun name ac => dict_lookup column_dict name = Some ac)
             header acs.
Proof.
  revert acs. induction header as [|name rest IH]; cbn [read_header]; intros acs.
  - intros [= <-]. split; constructor.
  - destruct (dict_lookup column_dict name) as [ac|] eqn:L; [|discriminate].
    destruct (read_header rest) as [acs'|e'] eqn:R; cbn [bind]; [|discriminate].
    intros [= <-]. destruct (IH _ eq_refl) as [HF HF2].
    split; constructor; auto.
    destruct (in_dec string_dec name recognized_columns) as [HIn|HnIn]; auto.
    rewrite <- column_dict_keys in HnIn.
    apply dict_lookup_None in HnIn. congruence.
Qed.

Lemma read_line_not_IOError D acs line h msg :
  read_line D acs line h <> Raise (IOError msg).
Proof.
  revert line h. induction acs as [|[a conv] acs IH]; intros line h; simpl.
  - discriminate.
  - destruct line as [|v line]; [discriminate|].
    destruct conv; [apply IH|].
    destruct (D v); [apply IH | discriminate].
Qed.

Lemma read_lines_not_IOError D acs lines msg :
  read_lines D acs lines <> Raise (IOError msg).
Proof.
  induction lines as [|line lines IH]; simpl; [discriminate|].
  destruct (read_line D acs line defaults_dict) as [h|e] eqn:R; simpl.
  - destruct (read_lines D acs lines) as [hs|e'] eqn:Rs; simpl;
      [discriminate | congruence].
  - intros [= ->]. now apply read_line_not_IOError in R.
Qed.

(** C3 (as amended): [load_from_csv] raises its format error exactly when
    some column name of the header, at any position, is not one of the
    recognized names; an unrecognized column is never ignored.  When every
    name is recognized the header is accepted and each column is read with
    the attribute and converter that [column_spec] gives its name. *)
Theorem load_from_csv_header :
  forall (D : string -> option Decimal) (generator_stop : bool)
         (header : list string) (lines : list (list string)),
    (load_from_csv D generator_stop (header :: lines)
     = Raise (IOError INVALID_CONTENTS)
     <-> exists name, In name header /\ ~ In name recognized_columns)
    /\ (Forall (fun name => In name recognized_columns) header
        <-> exists acs,
            read_header header = Ok acs
            /\ Forall2 (fun name ac => dict_lookup column_dict name = Some ac)
                       header acs
            /\ load_from_csv D generator_stop (header :: lines)
               = read_lines D acs lines).
Proof.
  intros D generator_stop header lines. unfold load_from_csv.
  destruct (read_header header) as [acs|e] eqn:R; simpl.
  - destruct (read_header_Ok _ _ R) as [HF HF2]. split.
    + split.
      * intros H. now apply read_lines_not_IOError in H.
      * intros (name & HIn & Hn). exfalso. apply Hn.
        rewrite Forall_forall in HF. now apply HF.
    + split; [|intros _; exact HF].
      intros _. exists acs. auto.
  - destruct (read_header_Raise _ _ R) as (-> & name & HIn & Hn). split.
    + split; [intros _; now exists name | reflexivity].
    + split.
      * intros HF. exfalso. apply Hn.
        rewrite Forall_forall in HF. now apply HF.
      * intros (acs & E & _). discriminate.
Qed.

(** C3 as stated fails: a header with all the recognized names and one
    extra column does not load, under either treatment of generators. *)
Lemma load_from_csv_extra_column_counterexample :
  ~ exists generator_stop hs,
      load_from_csv parse_decimal generator_stop
        [ ["Account"; "Units"; "Currency"; "Cost Currency"; "Average Cost";
           "Price"; "Book Value"; "Market Value"; "Price Date"; "Notes"];
          ["Assets:Broker"; "10"; "AAA"; "USD"; "100"; "110"; "1000";
           "1100"; "2014-01-01"; "a note"] ]
      = Ok hs.
Proof. intros (gs & hs & H). vm_compute in H. discriminate H. Qed.

Example load_from_csv_ex :
  load_from_csv parse_decimal true
    [ ["Account"; "Units"; "Currency"];
      ["Assets:Broker"; "10"; "AAA"] ]
  = Ok [ mkHolding (Some "Assets:Broker") (Some (10 # 1)) (Some "AAA")
                   None None None None None None ].
Proof. reflexivity. Qed.

(** ** [HoldingsReport.__init__] *)

(** C8: a relative holdings report requested without a currency is refused
    with a configuration error when the report object is constructed; the
    ledger is never consulted and no table comes out. *)
Theorem relative_needs_currency :
  forall (ops : Ops) (args : HoldingsArgs) (L : Ledger),
    args_relative args = true ->
    opt_str_truthy (args_currency args) = false ->
    HoldingsReport_init args = Raise (SystemExit RELATIVE_NEEDS_CURRENCY)
    /\ run_holdings_report ops args L
       = Raise (SystemExit RELATIVE_NEEDS_CURRENCY).
Proof.
  intros ops args L Hrel Hcur.
  assert (E : HoldingsReport_init args
              = Raise (SystemExit RELATIVE_NEEDS_CURRENCY)).
  { unfold HoldingsReport_init. cbn [self_args]. now rewrite Hrel, Hcur. }
  split; [exact E|].
  unfold run_holdings_report. now rewrite E.
Qed.

Lemma relative_needs_currency_witness :
  HoldingsReport_init (mkHoldingsArgs None true None)
  = Raise (SystemExit RELATIVE_NEEDS_CURRENCY)
  /\ run_holdings_report spec_ops (mkHoldingsArgs None true None)
                         ledger_empty_ticker
     = Raise (SystemExit RELATIVE_NEEDS_CURRENCY).
Proof.
  apply (relative_needs_currency spec_ops (mkHoldingsArgs None true None)
                                 ledger_empty_ticker); reflexivity.
Defined.

(** Every other combination of options constructs the report. *)
Lemma HoldingsReport_init_accepts (args : HoldingsArgs) :
  args_relative args = false
  \/ opt_str_truthy (args_currency args) = true ->
  HoldingsReport_init args = Ok (mkHoldingsReport args).
Proof.
  unfold HoldingsReport_init. cbn [self_args].
  intros [-> | ->]; [reflexivity|].
  now rewrite andb_false_r.
Qed.

(** ** [export_holdings] *)

Section Classifier.

Variable tickers : string -> option meta_value.

(** The one-pass loop computes three filters of its input. *)
Lemma classify_loop_filter (hs : list Holding) :
  forall b,
    classify_loop tickers hs b
    = mkBuckets (holdings_export b ++ filter (is_export tickers) hs)%list
                (holdings_convert b ++ filter (is_convert tickers) hs)%list
                (holdings_ignore b ++ filter (is_ignore tickers) hs)%list.
Proof.
  induction hs as [|h hs IH]; intros [e c i]; cbn [classify_loop filter].
  - cbn. now rewrite !app_nil_r.
  - unfold is_export, is_convert, is_ignore in *.
    destruct (is_cash_marker (tickers_get tickers (currency h)));
      [|destruct (ticker_truthy_None (tickers_get tickers (currency h)))];
      rewrite IH; cbn; now rewrite <- ?app_assoc.
Qed.

Lemma three_way_partition (hs : list Holding) :
  Permutation (filter (is_export tickers) hs
               ++ filter (is_convert tickers) hs
               ++ filter (is_ignore tickers) hs)%list hs.
Proof.
  induction hs as [|h hs IH]; cbn [filter]; [constructor|].
  unfold is_export, is_convert, is_ignore in *.
  destruct (is_cash_marker (tickers_get tickers (currency h))); cbn.
  - apply Permutation_sym, Permutation_cons_app, Permutation_sym, IH.
  - destruct (ticker_truthy_None (tickers_get tickers (currency h))); cbn.
    + now constructor.
    + apply Permutation_sym.
      rewrite app_assoc. apply Permutation_cons_app.
      rewrite <- app_assoc. apply Permutation_sym, IH.
Qed.

Lemma export_loop_total (promiscuous : bool) (hs : list Holding) :
  Forall (fun h => ticker_truthy_None
                     (tickers_get tickers (currency h)) = true) hs ->
  exists exported,
    export_loop tickers promiscuous hs = Ok exported
    /\ Forall2 (fun h e =>
                  tickers_get tickers (currency h)
                  = Some (MetaStr (ee_ticker e))
                  /\ ee_number e = number h
                  /\ ee_cost_number e = cost_number h
                  /\ ee_mutual_fund e = is_mutual_fund (ee_ticker e)
                  /\ ee_memo e = if promiscuous then account h else Some "")
               hs exported.
Proof.
  induction 1 as [|h hs Hh _ IH]; cbn [export_loop].
  - exists []. split; constructor.
  - destruct IH as (exported & -> & HF). cbn beta in Hh.
    destruct (tickers_get tickers (currency h)) as [[|t]|] eqn:T;
      cbn in Hh; try discriminate.
    cbn [bind]. eexists. split; [reflexivity|].
    constructor; [cbn; repeat split; exact T | exact HF].
Qed.

End Classifier.

Lemma ticker_of_lookup (L : Ledger) (h : Holding) (t : string) :
  tickers_get (get_values_meta (commodity_map L)) (currency h)
  = Some (MetaStr t) <-> ticker_of L h = Some t.
Proof.
  unfold ticker_of, tickers_get, get_values_meta.
  destruct (currency h) as [c|]; [|split; discriminate].
  destruct (commodity_map L c) as [[t'|]|]; split; congruence.
Qed.

Lemma ticker_of_None (L : Ledger) (h : Holding) :
  ticker_of L h = None <->
  forall t, tickers_get (get_values_meta (commodity_map L)) (currency h)
            <> Some (MetaStr t).
Proof.
  split.
  - intros H t E. apply ticker_of_lookup in E. congruence.
  - intros H. destruct (ticker_of L h) as [t|] eqn:E; [|reflexivity].
    apply ticker_of_lookup in E. now apply H in E.
Qed.

Lemma str_truthy_iff (s : string) : str_truthy s = true <-> s <> "".
Proof. destruct s; cbn; split; congruence. Qed.

(** C7 (as amended): [export_holdings] returns, and its three buckets hold
    every input holding exactly once.  A holding is in the cash-like bucket
    when its currency has a ticker that equals "cash" without regard to
    case; in the exportable bucket when its currency has a ticker that is
    not empty and is not "cash"; and in the ignored bucket when its currency
    has no ticker or has the empty string as ticker. *)
Theorem export_holdings_buckets :
  forall (ops : Ops) (L : Ledger) (promiscuous : bool),
  exists exported export convert ignore,
    export_holdings ops L promiscuous
    = Ok (exported, (export, convert, ignore))
    /\ Permutation (export ++ convert ++ ignore)%list (final_holdings L)
    /\ (forall h, In h convert <->
                  In h (final_holdings L)
                  /\ exists t, ticker_of L h = Some t /\ lower t = "cash")
    /\ (forall h, In h export <->
                  In h (final_holdings L)
                  /\ exists t, ticker_of L h = Some t
                               /\ t <> "" /\ lower t <> "cash")
    /\ (forall h, In h ignore <->
                  In h (final_holdings L)
                  /\ (ticker_of L h = None \/ ticker_of L h = Some ""))
    /\ Forall2 (fun h e =>
                  ticker_of L h = Some (ee_ticker e)
                  /\ ee_number e = number h
                  /\ ee_cost_number e = cost_number h
                  /\ ee_mutual_fund e = is_mutual_fund (ee_ticker e)
                  /\ ee_memo e = if promiscuous then account h else Some "")
               export exported.
Proof.
  intros ops L promiscuous.
  unfold export_holdings, get_assets_holdings.
  set (tickers := get_values_meta (commodity_map L)).
  rewrite classify_loop_filter. cbn [holdings_export holdings_convert
                                     holdings_ignore app].
  destruct (export_loop_total tickers promiscuous
              (filter (is_export tickers) (final_holdings L)))
    as (exported & E & HF).
  { apply Forall_forall. intros h Hh. apply filter_In in Hh as [_ Hh].
    now apply andb_true_iff in Hh as [_ Hh]. }
  rewrite E. cbn [bind]. unfold is_export, is_convert, is_ignore in *.
  do 4 eexists. split; [reflexivity|].
  split; [apply three_way_partition|].
  repeat split.
  - apply filter_In in H. tauto.
  - apply filter_In in H as [_ H]. unfold is_cash_marker in H.
    destruct (tickers_get tickers (currency h)) as [[|t]|] eqn:T;
      try discriminate.
    exists t. split; [now apply ticker_of_lookup | now apply String.eqb_eq].
  - intros (Hin & t & Ht & Hc). apply filter_In. split; [exact Hin|].
    apply ticker_of_lookup in Ht. fold tickers in Ht. rewrite Ht. cbn.
    now apply String.eqb_eq.
  - apply filter_In in H. tauto.
  - apply filter_In in H as [_ H]. apply andb_true_iff in H as [Hc Ht].
    destruct (tickers_get tickers (currency h)) as [[|t]|] eqn:T;
      try discriminate.
    exists t. split; [now apply ticker_of_lookup|].
    cbn in Hc, Ht. split; [now apply str_truthy_iff|].
    apply negb_true_iff in Hc. now apply String.eqb_neq.
  - intros (Hin & t & Ht & Hne & Hc). apply filter_In. split; [exact Hin|].
    apply ticker_of_lookup in Ht. fold tickers in Ht. rewrite Ht. cbn.
    apply andb_true_iff. split.
    + apply negb_true_iff. now apply String.eqb_neq.
    + now apply str_truthy_iff.
  - apply filter_In in H. tauto.
  - apply filter_In in H as [_ H]. apply andb_true_iff in H as [Hc Ht].
    apply negb_true_iff in Ht.
    destruct (ticker_of L h) as [t|] eqn:T; [|now left]. right.
    apply ticker_of_lookup in T. fold tickers in T. rewrite T in Ht.
    cbn in Ht. destruct t; [reflexivity | discriminate].
  - intros (Hin & Ht). apply filter_In. split; [exact Hin|].
    destruct Ht as [Ht|Ht].
    + pose proof (proj1 (ticker_of_None L h) Ht) as Hn. fold tickers in Hn.
      destruct (tickers_get tickers (currency h)) as [[|t]|] eqn:T;
        try reflexivity.
      now destruct (Hn t).
    + apply ticker_of_lookup in Ht. fold tickers in Ht. now rewrite Ht.
  - eapply Forall2_impl; [|exact HF]. cbn. intros h e (H1 & H2).
    split; [now apply ticker_of_lookup | exact H2].
Qed.

(** C7 as stated fails: a currency whose ticker is present but empty is not
    "cash", yet its holding is ignored, not exported. *)
Lemma export_holdings_empty_ticker_counterexample :
  exists exported export convert ignore h t,
    export_holdings spec_ops ledger_empty_ticker false
    = Ok (exported, (export, convert, ignore))
    /\ In h (final_holdings ledger_empty_ticker)
    /\ ticker_of ledger_empty_ticker h = Some t
    /\ lower t <> "cash"
    /\ ~ In h export
    /\ In h ignore.
Proof.
  do 4 eexists. exists (stock "Assets:Broker" "AAA" "USD" 10 100 110), "".
  split; [reflexivity|].
  split; [now left|].
  split; [reflexivity|].
  split; [discriminate|].
  split; [intros [] | now left].
Qed.

(** ** The operations as the spec describes them, on its scenarios *)

Example spec_aggregate_scenario :
  spec_aggregate_holdings_by
    [ mkHolding (Some "AAA") (Some (10 # 1)) (Some "USD") (Some "USD")
                (Some (100 # 1)) (Some (110 # 1))
                (Some (1000 # 1)) (Some (1100 # 1)) None;
      mkHolding (Some "BBB") (Some (5 # 1)) (Some "USD") (Some "USD")
                (Some (50 # 1)) (Some (60 # 1))
                (Some (250 # 1)) (Some (300 # 1)) None ]
    cost_currency
  = [ mkHolding None (Some (15 # 1)) (Some "USD") (Some "USD")
                (Some 83.33333333333333333333333333%Q)
                (Some 93.33333333333333333333333333%Q)
                (Some (1250 # 1)) (Some (1400 # 1)) None ].
Proof. vm_compute. reflexivity. Qed.

Example spec_reduce_relative_scenario :
  map (fun h => option_map Qred (market_value h))
      (spec_reduce_relative
         [ mkHolding (Some "X") None None None None None None
                     (Some (300 # 1)) None;
           mkHolding (Some "Y") None None None None None None
                     (Some (700 # 1)) None ])
  = [Some (3 # 10); Some (7 # 10)].
Proof. vm_compute. reflexivity. Qed.

(** Converting a holding to its own cost currency changes nothing. *)
Lemma convert_holding_identity (pm : PriceMap) (h : Holding) (cur : string) :
  cost_currency h = Some cur -> convert_holding pm cur h = h.
Proof.
  intros E. unfold convert_holding. rewrite E. cbn.
  now rewrite String.eqb_refl.
Qed.

Example spec_account_root_ex :
  spec_account_root 3 "Assets:US:Broker:Cash" = "Assets:US:Broker".
Proof. reflexivity. Qed.

(** ** [NetWorthReport.generate_table] *)

(** With one operating currency the loop does what the spec says. *)
Lemma net_worth_single_currency (ops : Ops) (L : Ledger) (cur : string) :
  operating_currency L = [cur] ->
  table_rows (NetWorthReport_generate_table ops L) = spec_net_worths ops L.
Proof.
  intros E. unfold NetWorthReport_generate_table, spec_net_worths,
    get_assets_holdings.
  rewrite E. cbn [table_rows net_worth_loop flat_map].
  rewrite app_nil_r. unfold spec_net_worth_rows.
  destruct (convert_to_currency ops (price_map L) cur (final_holdings L));
    [reflexivity|].
  destruct (filter _ _); reflexivity.
Qed.

(** C2, evaluated on a ledger with ten AAA valued in CAD and ten AAA valued
    in EUR, where only USD has rates to the other two currencies: with CAD
    alone, or CAD first, the net worth in CAD is 10; with USD configured
    before CAD it is 110, because the second iteration converts the list
    that the first one left in [holdings_list]. *)
Theorem net_worth_depends_on_other_currencies :
  net_worth_of (NetWorthReport_generate_table spec_ops
                  (with_operating_currency ledger_two_currencies ["CAD"]))
               "CAD" = Some (Some (10 # 1))
  /\ net_worth_of (NetWorthReport_generate_table spec_ops
                     (with_operating_currency ledger_two_currencies
                                              ["CAD"; "USD"]))
                  "CAD" = Some (Some (10 # 1))
  /\ net_worth_of (NetWorthReport_generate_table spec_ops
                     (with_operating_currency ledger_two_currencies
                                              ["USD"; "CAD"]))
                  "CAD" = Some (Some (110 # 1))
  /\ spec_net_worths spec_ops
       (with_operating_currency ledger_two_currencies ["USD"; "CAD"])
     = [("USD", Some (110 # 1)); ("CAD", Some (10 # 1))].
Proof. repeat split; vm_compute; reflexivity. Qed.

(** ** The operators of [Decimal] under the default context *)

(** A product of 29 significant digits is rounded to 28. *)
Example dec_mul_rounds :
  dec_mul spec_ops 7 142.8571428571428571428571429 = 1000.
Proof. vm_compute. reflexivity. Qed.

(** A quotient that does not end is cut after 28 significant digits. *)
Example py_div_rounds :
  py_div spec_ops (Dec 1000) (Dec 1100)
  = Ok (Dec 0.9090909090909090909090909091).
Proof. vm_compute. reflexivity. Qed.

(** A tie goes to the even neighbour: 0.125 gives 0.12 and 0.135 gives
    0.14. *)
Example round_to_precision_half_even :
  round_to_precision 2 (125 # 1000) = 3 # 25
  /\ round_to_precision 2 (135 # 1000) = 7 # 50.
Proof. split; vm_compute; reflexivity. Qed.

(** A value of at most 28 significant digits is left as it is. *)
Example default_round_exact :
  default_round 1100 = 1100 /\ default_round (- (1 # 8)) = - (1 # 8).
Proof. split; vm_compute; reflexivity. Qed.

(** Zero divided by zero raises, be the zeros the [int] 0 of empty sums or
    decimals. *)
Example py_div_zero :
  py_div spec_ops Int0 Int0 = Raise ArithmeticError
  /\ py_div spec_ops (Dec 0) (Dec 0) = Raise ArithmeticError.
Proof. split; reflexivity. Qed.

(** ** The export loop of [render_ofx] *)

Lemma opt_str_eqb_eq (a b : option string) :
  opt_str_eqb a b = true <-> a = b.
Proof.
  destruct a as [x|], b as [y|]; cbn; try (split; congruence).
  rewrite String.eqb_eq. split; congruence.
Qed.

Lemma security_eqb_eq (a b : Security) : security_eqb a b = true <-> a = b.
Proof.
  destruct a as [[c1 t1] m1], b as [[c2 t2] m2]. cbn.
  rewrite !andb_true_iff, !String.eqb_eq, Bool.eqb_true_iff.
  split; [intros [[-> ->] ->]; reflexivity | intros [= -> -> ->]; auto].
Qed.

Lemma set_add_In {A : Type} (eqb : A -> A -> bool)
      (Heqb : forall a b, eqb a b = true <-> a = b) (x y : A) (s : list A) :
  In y (set_add eqb x s) <-> In y s \/ y = x.
Proof.
  unfold set_add. destruct (existsb (eqb x) s) eqn:E.
  - split; [now left|]. intros [H| ->]; [exact H|].
    apply existsb_exists in E as (z & Hz & Ez). apply Heqb in Ez. now subst.
  - rewrite in_app_iff. cbn. intuition congruence.
Qed.

Lemma set_add_NoDup {A : Type} (eqb : A -> A -> bool)
      (Heqb : forall a b, eqb a b = true <-> a = b) (x : A) (s : list A) :
  NoDup s -> NoDup (set_add eqb x s).
Proof.
  intros Hnd. unfold set_add. destruct (existsb (eqb x) s) eqn:E; [exact Hnd|].
  apply NoDup_app; [exact Hnd | repeat constructor; intros [] |].
  intros a Ha Hx. cbn in Hx. destruct Hx as [<-|[]].
  assert (existsb (eqb x) s = true); [|congruence].
  apply existsb_exists. exists x. split; [exact Ha | now apply Heqb].
Qed.

Lemma enumerate_from_cons {A : Type} (i : nat) (x : A) (l : list A) :
  enumerate_from i (x :: l) = (i, x) :: enumerate_from (S i) l.
Proof. reflexivity. Qed.

Lemma not_skipped_inv (tickers : string -> option meta_value) (h : Holding) :
  is_skipped tickers h = false ->
  exists ticker cur c,
    tickers_get tickers (currency h) = Some (MetaStr ticker)
    /\ ticker <> ""
    /\ currency h = Some cur
    /\ cost_number h = Some c
    /\ currency h <> cost_currency h.
Proof.
  unfold is_skipped. intros H.
  apply orb_false_iff in H as [H Hu].
  apply orb_false_iff in H as [H Ht].
  apply orb_false_iff in H as [He Hc].
  destruct (currency h) as [cur|] eqn:Ecur; [|discriminate Ht].
  destruct (tickers_get tickers (Some cur)) as [[|ticker]|] eqn:Etk;
    try discriminate.
  destruct (cost_number h) as [c|]; [|discriminate].
  exists ticker, cur, c. repeat split; try reflexivity.
  - cbn in Ht. destruct ticker; [discriminate | congruence].
  - intros E. apply opt_str_eqb_eq in E. congruence.
Qed.

Section ExportLoop.

Variable ops : Ops.
Variable tickers : string -> option meta_value.
Variable promiscuous : bool.
Variable trade : datetime.

(** What the loop has done when it returns. *)
Lemma ofx_loop_Ok (hs : list Holding) :
  forall (i : nat) (st st' : OfxState),
    ofx_loop ops tickers promiscuous trade i hs st = Ok st' ->
    st_skipped_holdings st'
    = (st_skipped_holdings st ++ filter (is_skipped tickers) hs)%list
    /\ (exists buys,
           st_invtranlist st' = (st_invtranlist st ++ buys)%list
           /\ Forall2 (is_individual_buy ops tickers promiscuous trade)
                      (exported_with_index tickers i hs) buys)
    /\ st_index st'
       = match hs with
         | [] => st_index st
         | _ :: _ => (i + List.length hs - 1)%nat
         end
    /\ (forall s,
           In s (st_commodities st') <->
           In s (st_commodities st)
           \/ exists h ticker cur,
               In h hs /\ is_skipped tickers h = false
               /\ tickers_get tickers (currency h) = Some (MetaStr ticker)
               /\ currency h = Some cur
               /\ s = (cur, ticker, is_mutual_fund ticker))
    /\ (NoDup (st_commodities st) -> NoDup (st_commodities st')).
Proof.
  induction hs as [|h rest IH]; intros i st st'; cbn [ofx_loop].
  - intros [= <-]. rewrite app_nil_r. repeat split; auto.
    + exists []. rewrite app_nil_r. split; [reflexivity | constructor].
    + intros [H | (h & _ & _ & [] & _)]. exact H.
  - unfold exported_with_index. rewrite enumerate_from_cons.
    cbn [filter snd]. destruct (is_skipped tickers h) eqn:Sk.
    + intros H. apply IH in H as (Hs & (buys & Hb & HF) & Hi & Hc & Hnd).
      cbn [st_skipped_holdings st_invtranlist st_index st_commodities] in *.
      split; [now rewrite Hs, <- app_assoc|].
      split; [now exists buys|].
      split; [destruct rest; cbn [List.length] in *; lia|].
      split; [|exact Hnd].
      intros s. rewrite Hc. split.
      * intros [H | (h' & t & c & Hin & Hrest)]; [now left|].
        right. exists h', t, c. split; [now right | exact Hrest].
      * intros [H | (h' & t & c & [<-|Hin] & Hsk & Hrest)]; [now left | |].
        -- congruence.
        -- right. now exists h', t, c.
    + destruct (not_skipped_inv _ _ Sk)
        as (ticker & cur & c & Ht & Hne & Hcur & Hcost & _).
      rewrite Ht, Hcur, Hcost.
      destruct (number h) as [n|] eqn:Hn; [|discriminate].
      intros H. apply IH in H as (Hs & (buys & Hb & HF) & Hi & Hc & Hnd).
      cbn [st_skipped_holdings st_invtranlist st_index st_commodities] in *.
      split; [exact Hs|].
      split.
      { eexists. split; [rewrite Hb, <- app_assoc; reflexivity|].
        cbn [negb]. constructor; [|exact HF].
        exists ticker, n, c. cbn [txntype fitid dttrade memo uniqueid units
                                  unitprice fee total buytype].
        repeat split; auto. }
      split; [destruct rest; cbn [List.length] in *; lia|].
      split.
      { intros s. rewrite Hc, (set_add_In _ security_eqb_eq). split.
        - intros [[H | ->] | (h' & t & c' & Hin & Hrest)].
          + now left.
          + right. exists h, ticker, cur.
            repeat split; auto using in_eq.
          + right. exists h', t, c'. split; [now right | exact Hrest].
        - intros [H | (h' & t & c' & [<-|Hin] & Hsk & Ht' & Hcur' & ->)].
          + now left; left.
          + left; right. rewrite Hcur in *. congruence.
          + right. now exists h', t, c'. }
      intros Hnd0. apply Hnd. now apply set_add_NoDup; [apply security_eqb_eq|].
Qed.

(** The loop returns when every holding that is not skipped has a
    number of units, and only then. *)
Lemma ofx_loop_total (hs : list Holding) :
  forall (i : nat) (st : OfxState),
    units_defined tickers hs
    <-> exists st', ofx_loop ops tickers promiscuous trade i hs st = Ok st'.
Proof.
  unfold units_defined.
  induction hs as [|h rest IH]; intros i st; cbn [ofx_loop].
  - split; [intros _; now eexists | constructor].
  - destruct (is_skipped tickers h) eqn:Sk.
    + rewrite <- IH. split.
      * intros H. now inversion H.
      * intros H. constructor; [intros E; congruence | exact H].
    + destruct (not_skipped_inv _ _ Sk)
        as (ticker & cur & c & Ht & Hne & Hcur & Hcost & _).
      rewrite Ht, Hcur, Hcost.
      destruct (number h) as [n|] eqn:Hn.
      * rewrite <- IH. split.
        -- intros H. now inversion H.
        -- intros H. constructor; [intros _; congruence | exact H].
      * split.
        -- intros H. inversion H as [|? ? Hh _]; subst.
           now destruct (Hh Sk).
        -- intros [st' H]. discriminate.
Qed.

(** The loop raises only [TypeError], and only on a holding that it does
    not skip and that has no number of units. *)
Lemma ofx_loop_Raise (hs : list Holding) :
  forall (i : nat) (st : OfxState) (e : exn),
    ofx_loop ops tickers promiscuous trade i hs st = Raise e ->
    e = TypeError
    /\ exists h, In h hs /\ is_skipped tickers h = false /\ number h = None.
Proof.
  induction hs as [|h rest IH]; intros i st e; cbn [ofx_loop];
    [discriminate|].
  destruct (is_skipped tickers h) eqn:Sk.
  - intros H. apply IH in H as (-> & h' & Hin & Hrest).
    split; [reflexivity|]. exists h'. split; [now right | exact Hrest].
  - destruct (not_skipped_inv _ _ Sk)
      as (ticker & cur & c & Ht & Hne & Hcur & Hcost & _).
    rewrite Ht, Hcur, Hcost.
    destruct (number h) as [n|] eqn:Hn.
    + intros H. apply IH in H as (-> & h' & Hin & Hrest).
      split; [reflexivity|]. exists h'. split; [now right | exact Hrest].
    + intros [= <-]. split; [reflexivity|]. exists h. auto using in_eq.
Qed.

End ExportLoop.

Lemma ticker_missing_iff (L : Ledger) (h : Holding) :
  not_ticker (tickers_get (get_values_meta (commodity_map L)) (currency h))
  || is_undefined (tickers_get (get_values_meta (commodity_map L)) (currency h))
  = true
  <-> ticker_of L h = None \/ ticker_of L h = Some "".
Proof.
  unfold ticker_of, tickers_get, get_values_meta.
  destruct (currency h) as [c|]; cbn; [|tauto].
  destruct (commodity_map L c) as [[t|]|]; cbn; try tauto.
  rewrite orb_false_r. destruct t; cbn; split; intros H; auto.
  - discriminate.
  - destruct H; discriminate.
Qed.

Lemma is_None_iff {A : Type} (o : option A) : is_None o = true <-> o = None.
Proof. destruct o; cbn; split; congruence. Qed.

(** When a holding is skipped, in terms of the ledger. *)
Lemma is_skipped_iff (L : Ledger) (h : Holding) :
  is_skipped (get_values_meta (commodity_map L)) h = true <->
  currency h = cost_currency h
  \/ cost_number h = None
  \/ ticker_of L h = None
  \/ ticker_of L h = Some "".
Proof.
  unfold is_skipped.
  rewrite <- orb_assoc, orb_true_iff, ticker_missing_iff, orb_true_iff,
    opt_str_eqb_eq, is_None_iff.
  tauto.
Qed.

(** C6: the export loop skips a holding, adding it to the holdings that make
    up the cash equivalent, exactly when it is cash-like, or has no cost
    number, or its currency has no ticker or an empty one.  When the loop
    returns, the skipped holdings are those, in the order of the input, and
    every other holding has given exactly one buy transaction, in the order
    of the input, with the units of the holding, its cost number as unit
    price, a zero fee and the total [-(number * cost_number + fee)] as the
    operators of [Decimal] compute it.  The loop returns unless a holding
    that is not skipped has no number of units; it then raises
    [TypeError]. *)
Theorem ofx_individual_export :
  forall (ops : Ops) (L : Ledger) (args : ExportArgs) (clock : Clock),
    (forall h,
        is_skipped (get_values_meta (commodity_map L)) h = true <->
        currency h = cost_currency h
        \/ cost_number h = None
        \/ ticker_of L h = None
        \/ ticker_of L h = Some "")
    /\ match ofx_loop ops (get_values_meta (commodity_map L))
                      (args_promiscuous args) (trade_date clock)
                      0 (final_holdings L) initial_state with
       | Ok st =>
           st_skipped_holdings st
           = filter (is_skipped (get_values_meta (commodity_map L)))
                    (final_holdings L)
           /\ Forall2 (is_individual_buy ops (get_values_meta (commodity_map L))
                                         (args_promiscuous args)
                                         (trade_date clock))
                      (exported_with_index (get_values_meta (commodity_map L))
                                           0 (final_holdings L))
                      (st_invtranlist st)
           /\ Forall (fun h =>
                        is_skipped (get_values_meta (commodity_map L)) h = false
                        -> number h <> None)
                     (final_holdings L)
       | Raise e =>
           e = TypeError
           /\ exists h,
               In h (final_holdings L)
               /\ is_skipped (get_values_meta (commodity_map L)) h = false
               /\ number h = None
       end.
Proof.
  intros ops L args clock.
  split; [intros h; apply is_skipped_iff|].
  destruct (ofx_loop ops (get_values_meta (commodity_map L))
                     (args_promiscuous args) (trade_date clock)
                     0 (final_holdings L) initial_state) as [st|e] eqn:Hloop.
  - assert (Hu : units_defined (get_values_meta (commodity_map L))
                               (final_holdings L)).
    { eapply ofx_loop_total. eexists. exact Hloop. }
    apply ofx_loop_Ok in Hloop as (Hs & (buys & Hb & HF) & _).
    cbn in Hs, Hb. subst buys. auto.
  - now apply ofx_loop_Raise in Hloop.
Qed.

(** On a cash position followed by a stock position the loop skips the
    first and writes one purchase of ten units at 100 for the second. *)
Lemma ofx_individual_export_witness :
  ofx_loop spec_ops (get_values_meta (commodity_map ledger_cash_then_stock))
           (args_promiscuous quiet) (trade_date example_clock) 0
           (final_holdings ledger_cash_then_stock) initial_state
  = Ok (mkOfxState
          [mkTransaction "BUYSTOCK" 2 "20140305090000.000" (Some "")
                         "NYSE:AAA" (10 # 1) (100 # 1) 0 (- 1000 # 1) "BUY"]
          [("AAA", "NYSE:AAA", false)]
          [cash "Assets:Bank" "USD" 250]
          [Some "USD"] 1)
  /\ Forall2 (is_individual_buy
                spec_ops
                (get_values_meta (commodity_map ledger_cash_then_stock))
                (args_promiscuous quiet) (trade_date example_clock))
             [(1%nat, stock "Assets:Broker" "AAA" "USD" 10 100 110)]
             [mkTransaction "BUYSTOCK" 2 "20140305090000.000" (Some "")
                            "NYSE:AAA" (10 # 1) (100 # 1) 0 (- 1000 # 1) "BUY"].
Proof.
  assert (E : ofx_loop spec_ops
                (get_values_meta (commodity_map ledger_cash_then_stock))
                (args_promiscuous quiet) (trade_date example_clock) 0
                (final_holdings ledger_cash_then_stock) initial_state
              = Ok (mkOfxState
                      [mkTransaction "BUYSTOCK" 2 "20140305090000.000"
                                     (Some "") "NYSE:AAA" (10 # 1) (100 # 1) 0
                                     (- 1000 # 1) "BUY"]
                      [("AAA", "NYSE:AAA", false)]
                      [cash "Assets:Bank" "USD" 250]
                      [Some "USD"] 1)).
  { vm_compute. reflexivity. }
  split; [exact E|].
  destruct (ofx_individual_export spec_ops ledger_cash_then_stock quiet
                                  example_clock) as [_ H].
  rewrite E in H. destruct H as (_ & HF & _). exact HF.
Defined.

(** ** FITIDs *)

Lemma enumerate_from_app {A : Type} (l : list A) (x : A) :
  forall i,
    enumerate_from i (l ++ [x])
    = (enumerate_from i l ++ [((i + List.length l)%nat, x)])%list.
Proof.
  induction l as [|y l IH]; intros i.
  - cbn. now rewrite Nat.add_0_r.
  - cbn [app]. rewrite !enumerate_from_cons, IH. cbn [app List.length].
    now rewrite Nat.add_succ_r.
Qed.

(** [enumerate_from] pairs every element with its position. *)
Lemma enumerate_from_nth {A : Type} (l : list A) :
  forall i,
    Forall (fun ix => (i <= fst ix)%nat
                      /\ nth_error l (fst ix - i) = Some (snd ix))
           (enumerate_from i l).
Proof.
  induction l as [|y l IH]; intros i.
  - constructor.
  - rewrite enumerate_from_cons. constructor.
    + cbn [fst snd]. rewrite Nat.sub_diag. split; [lia | reflexivity].
    + eapply Forall_impl; [|apply (IH (S i))].
      intros [j x] [Hle Hnth]. cbn [fst snd] in *. split; [lia|].
      replace (j - i)%nat with (S (j - S i)) by lia. exact Hnth.
Qed.

Lemma exported_with_index_nth (tickers : string -> option meta_value)
      (hs : list Holding) :
  Forall (fun ih => nth_error hs (fst ih) = Some (snd ih)
                    /\ is_skipped tickers (snd ih) = false)
         (exported_with_index tickers 0 hs).
Proof.
  apply Forall_forall. intros [i h] Hin.
  apply filter_In in Hin as [Hin Hsk].
  pose proof (enumerate_from_nth hs 0) as HF.
  rewrite Forall_forall in HF. apply HF in Hin as [_ Hnth].
  cbn [fst snd] in *. rewrite Nat.sub_0_r in Hnth.
  split; [exact Hnth | now apply negb_true_iff].
Qed.

(** What the cash-equivalent part has done when it returns. *)
Lemma cash_equivalent_Ok (ops : Ops) (L : Ledger) (trade : datetime)
      (st st' : OfxState) :
  cash_equivalent ops L trade st = Ok st' ->
  match operating_currency L with
  | [] => st' = st
  | cash_currency :: _ =>
      exists t,
        st_invtranlist st' = (st_invtranlist st ++ [t])%list
        /\ txntype t = "BUYMF"
        /\ uniqueid t = CASH_EQUIVALENT_CURRENCY
        /\ fitid t = (st_index st + 1)%nat
        /\ st_commodities st'
           = set_add security_eqb
               (CASH_EQUIVALENT_CURRENCY, CASH_EQUIVALENT_CURRENCY, false)
               (st_commodities st)
        /\ st_skipped_holdings st' = st_skipped_holdings st
        /\ st_index st' = st_index st
  end.
Proof.
  unfold cash_equivalent.
  destruct (operating_currency L) as [|cash_currency rest];
    [now intros [= <-]|].
  destruct (py_sum ops (map book_value _)) as [bv|]; cbn [bind];
    [|discriminate].
  destruct (py_sum ops (map market_value _)) as [mv|]; cbn [bind];
    [|discriminate].
  destruct (quantize L mv cash_currency) as [u|]; cbn [bind]; [|discriminate].
  destruct (py_div ops bv mv) as [q|]; cbn [bind]; [|discriminate].
  destruct (quantize L q cash_currency) as [p|]; cbn [bind]; [|discriminate].
  intros [= <-]. eexists. cbn. repeat split.
Qed.

(** C10: every individually exported transaction has as FITID one plus
    the position of its holding in the whole input list, skipped holdings
    included; the cash-equivalent transaction has as FITID one plus the
    last position (1 for an empty list).  So when the last holding is
    exported individually and a cash-equivalent transaction is written, the
    two transactions carry the same FITID. *)
Theorem ofx_fitids :
  forall (ops : Ops) (L : Ledger) (args : ExportArgs) (clock : Clock)
         (st : OfxState),
    ofx_transactions ops L args clock = Ok st ->
    exists buys,
      Forall2 (fun ih t =>
                 nth_error (final_holdings L) (fst ih) = Some (snd ih)
                 /\ fitid t = (fst ih + 1)%nat)
              (exported_with_index (get_values_meta (commodity_map L))
                                   0 (final_holdings L))
              buys
      /\ match operating_currency L with
         | [] => st_invtranlist st = buys
         | _ :: _ =>
             exists cash_txn,
               st_invtranlist st = (buys ++ [cash_txn])%list
               /\ uniqueid cash_txn = CASH_EQUIVALENT_CURRENCY
               /\ fitid cash_txn
                  = (List.length (final_holdings L) - 1 + 1)%nat
               /\ forall hs' h,
                   final_holdings L = (hs' ++ [h])%list ->
                   is_skipped (get_values_meta (commodity_map L)) h = false ->
                   exists buys' last_buy,
                     buys = (buys' ++ [last_buy])%list
                     /\ fitid last_buy = fitid cash_txn
         end.
Proof.
  intros ops L args clock st. unfold ofx_transactions, get_assets_holdings.
  set (tickers := get_values_meta (commodity_map L)).
  set (hs := final_holdings L).
  destruct (ofx_loop ops tickers (args_promiscuous args) (trade_date clock)
                     0 hs initial_state) as [st0|e] eqn:Hloop;
    cbn [bind]; [|discriminate].
  intros Hcash.
  apply ofx_loop_Ok in Hloop as (_ & (buys & Hb & HF) & Hi & _).
  cbn [initial_state st_invtranlist st_index app] in Hb, Hi.
  assert (Hidx : st_index st0 = (List.length hs - 1)%nat).
  { rewrite Hi. destruct hs; cbn [List.length]; lia. }
  assert (HF' : Forall2 (fun ih t =>
                           nth_error hs (fst ih) = Some (snd ih)
                           /\ fitid t = (fst ih + 1)%nat)
                        (exported_with_index tickers 0 hs) buys).
  { pose proof (exported_with_index_nth tickers hs) as Hnth.
    revert Hnth. clear -HF. induction HF as [|[i h] t ihs txns Ht _ IH];
      intros Hnth; constructor.
    - inversion Hnth as [|? ? [Hn _] _]; subst. split; [exact Hn|].
      destruct Ht as (? & ? & ? & _ & _ & _ & _ & Hfit & _). exact Hfit.
    - apply IH. now inversion Hnth. }
  exists buys. split; [exact HF'|].
  apply cash_equivalent_Ok in Hcash.
  destruct (operating_currency L) as [|cash_currency rest].
  - now subst st.
  - destruct Hcash as (t & Hinv & _ & Hu & Hfit & _).
    exists t. rewrite Hinv, Hb, Hfit, Hidx. repeat split; auto.
    intros hs' h Ehs Hsk.
    unfold exported_with_index in HF'. rewrite Ehs in HF'.
    rewrite enumerate_from_app, filter_app in HF'. cbn [filter snd] in HF'.
    rewrite Hsk in HF'. cbn [negb] in HF'.
    apply Forall2_app_inv_l in HF' as (buys' & last & _ & Hlast & ->).
    inversion Hlast as [|? last_buy ? ? [_ Hf] Hnil]; subst.
    inversion Hnil; subst.
    exists buys', last_buy. split; [reflexivity|].
    rewrite Hf, Ehs, length_app. cbn. lia.
Qed.

Lemma ofx_fitids_witness :
  ofx_transactions spec_ops ledger_cash_then_stock quiet example_clock
  = Ok state_cash_then_stock
  /\ exists buys cash_txn,
      st_invtranlist state_cash_then_stock = (buys ++ [cash_txn])%list
      /\ fitid cash_txn = 2%nat
      /\ exists buys' last_buy,
          buys = (buys' ++ [last_buy])%list
          /\ fitid last_buy = fitid cash_txn.
Proof.
  assert (H : ofx_transactions spec_ops ledger_cash_then_stock quiet
                               example_clock
              = Ok state_cash_then_stock) by (vm_compute; reflexivity).
  split; [exact H|].
  destruct (ofx_fitids _ _ _ _ _ H) as (buys & _ & cash_txn & Hinv & _ & Hfit
                                        & Hlast).
  exists buys, cash_txn. split; [exact Hinv|]. split; [exact Hfit|].
  apply (Hlast [cash "Assets:Bank" "USD" 250]
               (stock "Assets:Broker" "AAA" "USD" 10 100 110));
    reflexivity.
Defined.

(** ** The cash-equivalent transaction *)

(** Whenever the excluded holdings that convert add up to a market value of
    zero, the cash equivalent raises: on the division, unless the display
    context has refused the market value before. *)
Lemma cash_equivalent_zero_market_value (ops : Ops) (L : Ledger)
      (trade : datetime) (st : OfxState) (cash_currency : string)
      (rest : list string) (bv mv : Num) :
  operating_currency L = cash_currency :: rest ->
  py_sum ops (map book_value
              (filter (fun h => opt_str_eqb (cost_currency h)
                                            (Some cash_currency))
                      (convert_to_currency ops (price_map L) cash_currency
                                           (st_skipped_holdings st))))
  = Ok bv ->
  py_sum ops (map market_value
              (filter (fun h => opt_str_eqb (cost_currency h)
                                            (Some cash_currency))
                      (convert_to_currency ops (price_map L) cash_currency
                                           (st_skipped_holdings st))))
  = Ok mv ->
  (num_value mv == 0)%Q ->
  cash_equivalent ops L trade st
  = match quantize L mv cash_currency with
    | Ok _ => Raise ArithmeticError
    | Raise e => Raise e
    end.
Proof.
  intros Eop Ebv Emv Hz. unfold cash_equivalent.
  rewrite Eop, Ebv, Emv. cbn [bind].
  destruct (quantize L mv cash_currency) as [u|e]; cbn [bind];
    [|reflexivity].
  unfold py_div, dec_truthy.
  apply Qeq_bool_iff in Hz. now rewrite Hz.
Qed.

(** C1, evaluated on a ledger whose only holding is exported individually,
    with USD as operating currency: no holding is excluded, the market value
    of the excluded holdings is zero, and the export raises on the division
    instead of completing without a cash-equivalent transaction; nothing is
    written.  Under any other display context the export raises as well:
    when the context refuses the [int] 0 that the empty sum gives, with the
    exception of the context. *)
Theorem render_ofx_without_excluded_holdings :
  is_skipped (get_values_meta (commodity_map ledger_all_exported))
             (stock "Assets:Broker" "AAA" "USD" 10 100 110) = false
  /\ ofx_transactions spec_ops ledger_all_exported quiet example_clock
     = Raise ArithmeticError
  /\ render_ofx show_decimal spec_ops ledger_all_exported quiet example_clock
     = (EmptyString, Raise ArithmeticError)
  /\ forall (q : Num -> string -> result Decimal) (args : ExportArgs),
      render_ofx show_decimal spec_ops (with_quantize ledger_all_exported q)
                 args example_clock
      = (EmptyString,
         match q Int0 "USD" with
         | Ok _ => Raise ArithmeticError
         | Raise e => Raise e
         end).
Proof.
  repeat split; try (vm_compute; reflexivity).
  intros q args. unfold render_ofx, ofx_transactions.
  cbn [get_assets_holdings with_quantize final_holdings commodity_map
       ledger_all_exported].
  replace (ofx_loop spec_ops (get_values_meta example_commodities)
                    (args_promiscuous args) (trade_date example_clock) 0
                    [stock "Assets:Broker" "AAA" "USD" 10 100 110]
                    initial_state)
    with (Ok (mkOfxState
                [mkTransaction "BUYSTOCK" 1 "20140305090000.000"
                               (if args_promiscuous args
                                then Some "Assets:Broker" else Some "")
                               "NYSE:AAA" (10 # 1) (100 # 1) 0 (- 1000 # 1)
                               "BUY"]
                [("AAA", "NYSE:AAA", false)] [] [] 0))
    by (destruct (args_promiscuous args); vm_compute; reflexivity).
  cbn [bind]. unfold cash_equivalent.
  cbn [operating_currency with_quantize st_skipped_holdings quantize
       price_map ledger_all_exported].
  change (convert_to_currency spec_ops _ "USD" []) with (@nil Holding).
  cbn [filter map py_sum fold_left bind].
  destruct (q Int0 "USD") as [u|e]; reflexivity.
Qed.

(** C5, evaluated on a ledger with a cash position and a stock position:
    the cash-equivalent transaction is written as a mutual-fund purchase
    ([BUYMF], from [CASH_EQUIVALENT_MFUND]) while the triple added to the
    securities has the flag [False], so the security list presents the
    cash equivalent as a stock. *)
Theorem cash_equivalent_security_flag :
  ofx_transactions spec_ops ledger_cash_then_stock quiet example_clock
  = Ok state_cash_then_stock
  /\ (exists buys cash_txn,
         st_invtranlist state_cash_then_stock = (buys ++ [cash_txn])%list
         /\ uniqueid cash_txn = CASH_EQUIVALENT_CURRENCY
         /\ txntype cash_txn = "BUYMF")
  /\ CASH_EQUIVALENT_MFUND = true
  /\ sorted (st_commodities state_cash_then_stock)
     = [ ("AAA", "NYSE:AAA", false);
         (CASH_EQUIVALENT_CURRENCY, CASH_EQUIVALENT_CURRENCY, false) ].
Proof.
  split; [vm_compute; reflexivity|].
  split; [|split; reflexivity].
  eexists [_], _. cbn. repeat split.
Qed.

(** ** [sorted] *)

Lemma bool_compare_antisym (a b : bool) :
  bool_compare a b = CompOpp (bool_compare b a).
Proof. now destruct a, b. Qed.

Lemma security_compare_antisym (a b : Security) :
  security_compare a b = CompOpp (security_compare b a).
Proof.
  destruct a as [[c1 t1] m1], b as [[c2 t2] m2]. cbn.
  rewrite (String.compare_antisym c2 c1), (String.compare_antisym t2 t1),
    (bool_compare_antisym m2 m1).
  destruct (String.compare c1 c2); cbn; try reflexivity.
  destruct (String.compare t1 t2); cbn; try reflexivity.
  now destruct (bool_compare m1 m2).
Qed.

Lemma security_leb_total (a b : Security) :
  security_leb a b = false -> security_leb b a = true.
Proof.
  unfold security_leb. rewrite (security_compare_antisym b a).
  now destruct (security_compare a b).
Qed.

Lemma security_leb_currency (a b : Security) :
  security_leb a b = true ->
  String.leb (security_currency a) (security_currency b) = true.
Proof.
  destruct a as [[c1 t1] m1], b as [[c2 t2] m2].
  unfold security_leb, security_compare, String.leb, security_currency.
  cbn [fst]. now destruct (String.compare c1 c2).
Qed.

Lemma insert_sorted_Permutation (x : Security) (l : list Security) :
  Permutation (insert_sorted x l) (x :: l).
Proof.
  induction l as [|y l IH]; cbn; [reflexivity|].
  destruct (security_leb x y); [reflexivity|].
  rewrite IH. apply perm_swap.
Qed.

Lemma sorted_Permutation (l : list Security) : Permutation (sorted l) l.
Proof.
  induction l as [|x l IH]; cbn; [constructor|].
  rewrite insert_sorted_Permutation. now constructor.
Qed.

Lemma insert_sorted_Sorted (x : Security) (l : list Security) :
  Sorted (fun a b => security_leb a b = true) l ->
  Sorted (fun a b => security_leb a b = true) (insert_sorted x l).
Proof.
  induction 1 as [|y l Hs IH Hd]; cbn; [repeat constructor|].
  destruct (security_leb x y) eqn:E.
  - constructor; [now constructor | now constructor].
  - constructor; [exact IH|].
    apply security_leb_total in E.
    destruct l as [|z l]; cbn; [now constructor|].
    destruct (security_leb x z); constructor; [exact E|].
    now inversion Hd.
Qed.

Lemma sorted_Sorted (l : list Security) :
  Sorted (fun a b => security_leb a b = true) (sorted l).
Proof.
  induction l as [|x l IH]; cbn; [constructor|].
  now apply insert_sorted_Sorted.
Qed.

Lemma Sorted_weaken {A : Type} (R R' : A -> A -> Prop) (l : list A) :
  (forall a b, R a b -> R' a b) -> Sorted R l -> Sorted R' l.
Proof.
  intros HR. induction 1 as [|x l Hs IH Hd]; constructor; [exact IH|].
  destruct Hd; constructor. now apply HR.
Qed.

(** The security list is in ascending order of currency. *)
Lemma sorted_by_currency (l : list Security) :
  Sorted (fun a b => String.leb (security_currency a) (security_currency b)
                     = true)
         (sorted l).
Proof.
  eapply Sorted_weaken; [|apply sorted_Sorted].
  intros a b. apply security_leb_currency.
Qed.

(** *** The order of [sorted] is total, so the result does not depend on the
    order in which a set yields its elements *)

Lemma string_compare_refl (s : string) : String.compare s s = Eq.
Proof. now apply String_as_OT.cmp_eq. Qed.

Lemma string_compare_Lt_trans (a b c : string) :
  String.compare a b = Lt -> String.compare b c = Lt ->
  String.compare a c = Lt.
Proof.
  intros H1 H2. apply String_as_OT.cmp_lt.
  apply String_as_OT.cmp_lt in H1, H2.
  now apply String_as_OT.lt_trans with b.
Qed.

Lemma security_compare_Eq (a b : Security) :
  security_compare a b = Eq <-> a = b.
Proof.
  destruct a as [[c1 t1] m1], b as [[c2 t2] m2]. cbn. split.
  - destruct (String.compare c1 c2) eqn:Ec; try discriminate.
    destruct (String.compare t1 t2) eqn:Et; try discriminate.
    apply String.compare_eq_iff in Ec, Et. subst.
    destruct m1, m2; cbn; congruence.
  - intros [= -> -> ->]. rewrite !string_compare_refl. now destruct m2.
Qed.

Lemma security_compare_Lt_trans (a b c : Security) :
  security_compare a b = Lt -> security_compare b c = Lt ->
  security_compare a c = Lt.
Proof.
  destruct a as [[c1 t1] m1], b as [[c2 t2] m2], c as [[c3 t3] m3]. cbn.
  destruct (String.compare c1 c2) eqn:E12; try discriminate;
    destruct (String.compare c2 c3) eqn:E23; try discriminate;
    try (apply String.compare_eq_iff in E12; subst c2);
    try (apply String.compare_eq_iff in E23; subst c3);
    rewrite ?E12, ?E23, ?string_compare_refl,
      ?(string_compare_Lt_trans _ _ _ E12 E23); try reflexivity.
  destruct (String.compare t1 t2) eqn:F12; try discriminate;
    destruct (String.compare t2 t3) eqn:F23; try discriminate;
    try (apply String.compare_eq_iff in F12; subst t2);
    try (apply String.compare_eq_iff in F23; subst t3);
    rewrite ?F12, ?F23, ?string_compare_refl,
      ?(string_compare_Lt_trans _ _ _ F12 F23); try reflexivity.
  now destruct m1, m2, m3.
Qed.

Lemma security_leb_spec (a b : Security) :
  security_leb a b = true <-> security_compare a b = Lt \/ a = b.
Proof.
  unfold security_leb. rewrite <- security_compare_Eq.
  destruct (security_compare a b); intuition discriminate.
Qed.

Lemma security_leb_trans (a b c : Security) :
  security_leb a b = true -> security_leb b c = true ->
  security_leb a c = true.
Proof.
  rewrite !security_leb_spec. intros [H1| ->] [H2| ->]; auto.
  left. now apply security_compare_Lt_trans with b.
Qed.

Lemma security_leb_antisym (a b : Security) :
  security_leb a b = true -> security_leb b a = true -> a = b.
Proof.
  unfold security_leb. rewrite (security_compare_antisym b a).
  destruct (security_compare a b) eqn:E; try discriminate.
  intros _ _. now apply security_compare_Eq.
Qed.

Lemma insert_sorted_comm (x y : Security) (l : list Security) :
  insert_sorted x (insert_sorted y l) = insert_sorted y (insert_sorted x l).
Proof.
  induction l as [|z l IH]; cbn [insert_sorted].
  - destruct (security_leb x y) eqn:Exy, (security_leb y x) eqn:Eyx;
      try reflexivity.
    + now rewrite (security_leb_antisym _ _ Exy Eyx).
    + apply security_leb_total in Exy. congruence.
  - destruct (security_leb y z) eqn:Eyz, (security_leb x z) eqn:Exz;
      cbn [insert_sorted]; rewrite ?Eyz, ?Exz.
    + destruct (security_leb x y) eqn:Exy, (security_leb y x) eqn:Eyx;
        try reflexivity.
      * now rewrite (security_leb_antisym _ _ Exy Eyx).
      * apply security_leb_total in Exy. congruence.
    + destruct (security_leb x y) eqn:Exy; [|reflexivity].
      rewrite (security_leb_trans _ _ _ Exy Eyz) in Exz. discriminate.
    + destruct (security_leb y x) eqn:Eyx; [|reflexivity].
      rewrite (security_leb_trans _ _ _ Eyx Exz) in Eyz. discriminate.
    + now rewrite IH.
Qed.

(** [sorted] gives the same list for every enumeration of the same set. *)
Lemma sorted_order_independent (l l' : list Security) :
  Permutation l l' -> sorted l = sorted l'.
Proof.
  unfold sorted.
  induction 1 as [|x l l' _ IH|x y l|l l' l'' _ IH1 _ IH2];
    cbn [fold_right].
  - reflexivity.
  - now rewrite IH.
  - apply insert_sorted_comm.
  - now rewrite IH1.
Qed.

(** ** [lstrip] and [strip] *)

Lemma lstrip_spec (s : string) :
  exists ws, s = ws ++ lstrip s
             /\ is_blank ws = true
             /\ is_left_trimmed (lstrip s) = true.
Proof.
  induction s as [|c s (ws & E & Hb & Ht)]; cbn [lstrip].
  - exists "". repeat split.
  - destruct (isspace c) eqn:Hc.
    + exists (String c ws). cbn [append is_blank]. rewrite Hc, Hb.
      repeat split; [now rewrite <- E | exact Ht].
    + exists "". cbn [append is_blank is_left_trimmed]. now rewrite Hc.
Qed.

Lemma lstrip_blank (s : string) : is_blank s = true <-> lstrip s = "".
Proof.
  induction s as [|c s IH]; cbn [lstrip is_blank]; [tauto|].
  destruct (isspace c); cbn [andb]; [exact IH|]. split; discriminate.
Qed.

Lemma rstrip_nonblank (c : ascii) (s : string) :
  isspace c = false -> rstrip (String c s) <> "".
Proof.
  intros Hc. cbn [rstrip]. destruct (rstrip s); [now rewrite Hc|]; discriminate.
Qed.

(** [line.strip()] is truthy exactly on the lines that are not blank. *)
Lemma strip_truthy (s : string) : str_truthy (strip s) = negb (is_blank s).
Proof.
  unfold strip. destruct (is_blank s) eqn:Hb.
  - apply lstrip_blank in Hb. now rewrite Hb.
  - destruct (lstrip_spec s) as (ws & E & Hws & Ht).
    destruct (lstrip s) as [|c r] eqn:El.
    + assert (is_blank s = true) by now apply lstrip_blank. congruence.
    + cbn [is_left_trimmed] in Ht. apply negb_true_iff in Ht.
      apply (rstrip_nonblank c r) in Ht.
      destruct (rstrip (String c r)); [contradiction | reflexivity].
Qed.

(** ** The rendered document *)

Lemma TEMPLATE_fields :
  fields TEMPLATE
  = ["dtserver"; "dtasof"; "broker"; "account"; "dtstart"; "dtend";
     "invtranlist"; "seclist"].
Proof. reflexivity. Qed.

Lemma TRANSACTION_fields :
  fields TRANSACTION
  = ["txntype"; "fitid"; "dttrade"; "memo"; "uniqueid"; "units";
     "unitprice"; "fee"; "total"; "buytype"; "txntype"].
Proof. reflexivity. Qed.

Lemma SECURITY_fields :
  fields SECURITY
  = ["infotype"; "uniqueid"; "secname"; "ticker"; "infotype"].
Proof. reflexivity. Qed.

(** The transactions and securities that [render_ofx] has collected when it
    reaches the templates. *)
Lemma ofx_transactions_Ok (ops : Ops) (L : Ledger) (args : ExportArgs)
      (clock : Clock) (st : OfxState) :
  ofx_transactions ops L args clock = Ok st ->
  exists buys,
    Forall2 (is_individual_buy ops (get_values_meta (commodity_map L))
                               (args_promiscuous args) (trade_date clock))
            (exported_with_index (get_values_meta (commodity_map L))
                                 0 (final_holdings L))
            buys
    /\ (st_invtranlist st = buys
        \/ exists cash_txn,
            st_invtranlist st = (buys ++ [cash_txn])%list
            /\ uniqueid cash_txn = CASH_EQUIVALENT_CURRENCY)
    /\ NoDup (st_commodities st).
Proof.
  unfold ofx_transactions, get_assets_holdings.
  destruct (ofx_loop _ _ _ _ 0 (final_holdings L) initial_state)
    as [st0|e] eqn:Hloop; cbn [bind]; [|discriminate].
  intros Hcash.
  apply ofx_loop_Ok in Hloop as (_ & (buys & Hb & HF) & _ & _ & Hnd).
  cbn [initial_state st_invtranlist st_commodities app] in Hb, Hnd.
  specialize (Hnd (NoDup_nil _)).
  exists buys. split; [exact HF|].
  apply cash_equivalent_Ok in Hcash.
  destruct (operating_currency L) as [|cash_currency rest].
  - subst st. split; [now left | exact Hnd].
  - destruct Hcash as (t & Hinv & _ & Hu & _ & Hc & _).
    split; [right; exists t; now rewrite Hinv, Hb|].
    rewrite Hc. now apply set_add_NoDup; [apply security_eqb_eq|].
Qed.

(** ** The filled templates, line by line *)

Lemma TRANSACTION_format_text (str_Decimal : Decimal -> string)
      (t : Transaction) :
  TRANSACTION_format str_Decimal t = transaction_text str_Decimal t.
Proof.
  unfold TRANSACTION_format, transaction_text, text_of_lines.
  cbn. rewrite !append_assoc. reflexivity.
Qed.

Lemma SECURITY_format_text (s : Security) :
  SECURITY_format s = security_text s.
Proof.
  destruct s as [[cur ticker] [|]];
    unfold SECURITY_format, security_text, text_of_lines;
    cbn; rewrite ?append_assoc; reflexivity.
Qed.

Lemma TEMPLATE_format_text (dtserver account invtranlist seclist : string) :
  format TEMPLATE
    (locals [ ("dtserver", dtserver); ("dtasof", dtserver);
              ("dtstart", dtserver); ("dtend", dtserver);
              ("broker", "Beancount"); ("account", account);
              ("invtranlist", invtranlist); ("seclist", seclist) ])
  = filled_template dtserver account invtranlist seclist.
Proof.
  unfold filled_template, text_of_lines.
  cbn. rewrite ?append_assoc. reflexivity.
Qed.

(** ** [splitlines] *)

Lemma no_linebreak_app (a b : string) :
  no_linebreak (a ++ b) = no_linebreak a && no_linebreak b.
Proof.
  induction a as [|c a IH]; cbn; [reflexivity|].
  now rewrite IH, andb_assoc.
Qed.

Lemma splitlines_from_spec :
  forall (n : nat) (s : string),
    (String.length s <= n)%nat ->
    forall line,
      no_linebreak line = true ->
      split_lines (line ++ s) (splitlines_from s line).
Proof.
  assert (Hend : forall line, no_linebreak line = true ->
                              split_lines (line ++ "") (splitlines_from "" line)).
  { intros line Hline. rewrite append_nil_r. cbn.
    destruct line; [constructor | apply split_last; [discriminate | exact Hline]]. }
  induction n as [|n IH]; intros s Hlen line Hline.
  - destruct s; [now apply Hend | cbn in Hlen; lia].
  - destruct s as [|c rest]; [now apply Hend|].
    cbn [String.length] in Hlen. cbn [splitlines_from].
    destruct (is_linebreak c) eqn:Hc.
    + destruct rest as [|c' rest'].
      * apply split_break; auto; [intros _ r; discriminate | constructor].
      * destruct (Ascii.eqb c CR && Ascii.eqb c' LF) eqn:E.
        -- apply andb_true_iff in E as [E1 E2].
           apply Ascii.eqb_eq in E1, E2. subst c c'.
           apply split_crlf; [exact Hline|].
           apply (IH rest') with (line := ""); [cbn in Hlen; lia | reflexivity].
        -- apply split_break; auto.
           ++ intros -> r' [= -> ->]. discriminate E.
           ++ apply (IH (String c' rest')) with (line := "");
                [lia | reflexivity].
    + replace (line ++ String c rest) with ((line ++ String c "") ++ rest)
        by (now rewrite append_assoc).
      apply IH; [lia|].
      rewrite no_linebreak_app, Hline. cbn. now rewrite Hc.
Qed.

(** [splitlines] cuts a text into its lines. *)
Lemma splitlines_spec (s : string) : split_lines s (splitlines s).
Proof. now apply (splitlines_from_spec (String.length s) s) with (line := ""). Qed.

(** A text without line boundary is its only line. *)
Lemma splitlines_from_single (s : string) :
  forall line,
    no_linebreak s = true ->
    splitlines_from s line
    = match line ++ s with EmptyString => [] | l => [l] end.
Proof.
  induction s as [|c s IH]; intros line Hs.
  - rewrite append_nil_r. now destruct line.
  - cbn in Hs. apply andb_true_iff in Hs as [Hc Hs].
    apply negb_true_iff in Hc. cbn [splitlines_from]. rewrite Hc, IH by exact Hs.
    now rewrite append_assoc.
Qed.

(** ** The lines that the document keeps *)

Lemma stripped_lines_app (l1 l2 : list string) :
  stripped_lines (l1 ++ l2)%list
  = (stripped_lines l1 ++ stripped_lines l2)%list.
Proof. unfold stripped_lines. now rewrite filter_app, map_app. Qed.

Lemma stripped_lines_cons (l : string) (ls : list string) :
  stripped_lines (l :: ls) = (stripped_lines [l] ++ stripped_lines ls)%list.
Proof. apply (stripped_lines_app [l] ls). Qed.

(** Cutting a text at a line feed cuts its kept lines in two. *)
Lemma stripped_lines_from_LF :
  forall (n : nat) (a : string),
    (String.length a <= n)%nat ->
    forall line b,
      stripped_lines (splitlines_from (a ++ String LF b) line)
      = (stripped_lines (splitlines_from a line)
         ++ stripped_lines (splitlines_from b ""))%list.
Proof.
  assert (Hnil : forall line b,
             stripped_lines (splitlines_from (String LF b) line)
             = (stripped_lines (splitlines_from "" line)
                ++ stripped_lines (splitlines_from b ""))%list).
  { intros line b. cbn [splitlines_from].
    replace (is_linebreak LF) with true by reflexivity.
    assert (E : match b with
                | String c' rest' =>
                    if Ascii.eqb LF CR && Ascii.eqb c' LF
                    then line :: splitlines_from rest' ""
                    else line :: splitlines_from b ""
                | EmptyString => line :: splitlines_from b ""
                end = line :: splitlines_from b "") by now destruct b.
    rewrite E, stripped_lines_cons. destruct line; reflexivity. }
  induction n as [|n IH]; intros a Hlen line b.
  - destruct a; [apply Hnil | cbn in Hlen; lia].
  - destruct a as [|c a]; [apply Hnil|].
    cbn [String.length] in Hlen. cbn [append splitlines_from].
    destruct (is_linebreak c) eqn:Hc.
    + destruct a as [|c' a'].
      * cbn [append]. destruct (Ascii.eqb c CR && Ascii.eqb LF LF).
        -- cbn [splitlines_from].
           rewrite (stripped_lines_cons line), (stripped_lines_cons line).
           now rewrite <- app_assoc.
        -- rewrite (stripped_lines_cons line), (Hnil "" b).
           cbn [splitlines_from]. reflexivity.
      * cbn [append]. destruct (Ascii.eqb c CR && Ascii.eqb c' LF).
        -- rewrite (stripped_lines_cons line), IH by (cbn in Hlen; lia).
           now rewrite (stripped_lines_cons line (splitlines_from a' "")),
             <- app_assoc.
        -- rewrite (stripped_lines_cons line).
           change (String c' (a' ++ String LF b))
             with (String c' a' ++ String LF b).
           rewrite IH by lia.
           now rewrite (stripped_lines_cons line (splitlines_from _ "")),
             <- app_assoc.
    + apply IH. lia.
Qed.


Lemma kept_of_nl (a b : string) :
  kept_of (a ++ nl ++ b) = (kept_of a ++ kept_of b)%list.
Proof.
  unfold kept_of, splitlines.
  apply (stripped_lines_from_LF (String.length a)). lia.
Qed.

Lemma kept_of_text_of_lines (ls : list string) :
  kept_of (text_of_lines ls) = flat_map kept_of ls.
Proof.
  induction ls as [|l ls IH]; [reflexivity|].
  destruct ls as [|l' ls].
  - cbn [text_of_lines String.concat flat_map]. now rewrite app_nil_r.
  - change (text_of_lines (l :: l' :: ls))
      with (l ++ nl ++ text_of_lines (l' :: ls)).
    now rewrite kept_of_nl, IH.
Qed.

(** A text that holds no line boundary and is not blank gives one line. *)
Lemma kept_of_single (s k : string) :
  no_linebreak s = true -> lstrip s = k -> k <> "" -> kept_of s = [k].
Proof.
  intros Hs Hk Hne. unfold kept_of, splitlines.
  rewrite splitlines_from_single by exact Hs. cbn [append].
  assert (Hb : is_blank s = false).
  { destruct (is_blank s) eqn:E; [|reflexivity].
    apply lstrip_blank in E. congruence. }
  destruct s as [|c s]; [discriminate Hb|].
  unfold stripped_lines. cbn [filter]. rewrite strip_truthy, Hb.
  cbn [negb map]. now rewrite Hk.
Qed.

Lemma kept_of_app (a b : string) :
  b = "" \/ (exists b', b = nl ++ b') ->
  kept_of (a ++ b) = (kept_of a ++ kept_of b)%list.
Proof.
  intros [-> | [b' ->]].
  - rewrite append_nil_r. change (kept_of "") with (@nil string).
    now rewrite app_nil_r.
  - rewrite kept_of_nl. f_equal.
    exact (eq_sym (kept_of_nl "" b')).
Qed.

Lemma concat_nil_cons (x : string) (l : list string) :
  String.concat "" (x :: l) = x ++ String.concat "" l.
Proof. destruct l; cbn; [now rewrite append_nil_r | reflexivity]. Qed.

(** The kept lines of texts written one after the other, each beginning
    with a line feed. *)
Lemma kept_of_concat {A : Type} (f : A -> string) (ts : list A) :
  (forall t, exists body, f t = nl ++ body) ->
  kept_of (String.concat "" (map f ts)) = flat_map (fun t => kept_of (f t)) ts.
Proof.
  intros Hf. induction ts as [|t ts IH]; [reflexivity|].
  cbn [map flat_map]. rewrite concat_nil_cons, kept_of_app, IH; [reflexivity|].
  destruct ts as [|t' ts]; [now left|]. right.
  destruct (Hf t') as [body E]. cbn [map]. rewrite concat_nil_cons, E.
  eexists. now rewrite append_assoc.
Qed.

Lemma concat_starts_nl {A : Type} (f : A -> string) (ts : list A) :
  (forall t, exists body, f t = nl ++ body) ->
  String.concat "" (map f ts) = ""
  \/ exists b', String.concat "" (map f ts) = nl ++ b'.
Proof.
  intros Hf. destruct ts as [|t ts]; [now left|]. right.
  destruct (Hf t) as [body E]. cbn [map]. rewrite concat_nil_cons, E.
  eexists. now rewrite append_assoc.
Qed.

Lemma no_linebreak_uint (u : Decimal.uint) :
  no_linebreak (NilEmpty.string_of_uint u) = true.
Proof. induction u; cbn; auto. Qed.

Lemma no_linebreak_str_nat (n : nat) : no_linebreak (str_nat n) = true.
Proof. apply no_linebreak_uint. Qed.

Lemma no_linebreak_zeros (n : nat) : no_linebreak (zeros n) = true.
Proof. induction n; cbn; auto. Qed.

Lemma no_linebreak_zero_pad (w n : nat) : no_linebreak (zero_pad w n) = true.
Proof.
  unfold zero_pad.
  now rewrite no_linebreak_app, no_linebreak_zeros, no_linebreak_str_nat.
Qed.

Lemma no_linebreak_render_ofx_date (d : datetime) :
  no_linebreak (render_ofx_date d) = true.
Proof.
  unfold render_ofx_date, strftime_YmdHMS.
  now rewrite !no_linebreak_app, !no_linebreak_zero_pad, no_linebreak_str_nat.
Qed.

(** Discharges the side conditions of [kept_of_single] on a line made of
    fixed text and values without line boundary. *)
Ltac single_line :=
  rewrite ?no_linebreak_app;
  repeat (apply andb_true_intro; split);
  first [ reflexivity | assumption | apply no_linebreak_str_nat ].

(** Reads the lines of [flat_map kept_of] one by one. *)
Ltac kept_lines_step :=
  lazymatch goal with
  | |- (kept_of ?s ++ ?rest)%list = ?k :: ?ks =>
      rewrite (kept_of_single s k);
      [ cbn [app]; f_equal
      | single_line
      | reflexivity
      | cbn [append]; discriminate ]
  | |- ?k :: _ = ?k :: _ => f_equal
  end.

Section DocumentLines.

Variable str_Decimal : Decimal -> string.

Lemma transaction_text_starts_nl (t : Transaction) :
  exists body, transaction_text str_Decimal t = nl ++ body.
Proof. eexists. reflexivity. Qed.

Lemma kept_of_transaction_text (t : Transaction) :
  no_linebreak (txntype t) = true ->
  no_linebreak (dttrade t) = true ->
  no_linebreak (buytype t) = true ->
  single_line_transaction str_Decimal t = true ->
  kept_of (transaction_text str_Decimal t) = transaction_lines str_Decimal t.
Proof.
  intros Htx Hdt Hb H. unfold single_line_transaction in H.
  apply andb_true_iff in H as [H H4].
  apply andb_true_iff in H as [H H3].
  apply andb_true_iff in H as [H H2].
  apply andb_true_iff in H as [H H1].
  apply andb_true_iff in H as [Hm Hu].
  unfold transaction_text, transaction_lines.
  rewrite kept_of_text_of_lines. cbn [flat_map].
  change (kept_of "") with (@nil string). cbn [app].
  do 20 kept_lines_step.
Qed.

Lemma kept_of_transactions (ts : list Transaction) :
  Forall (fun t => no_linebreak (txntype t) = true
                   /\ no_linebreak (dttrade t) = true
                   /\ no_linebreak (buytype t) = true
                   /\ single_line_transaction str_Decimal t = true) ts ->
  kept_of (String.concat "" (map (transaction_text str_Decimal) ts))
  = flat_map (transaction_lines str_Decimal) ts.
Proof.
  intros H. rewrite kept_of_concat by apply transaction_text_starts_nl.
  induction H as [|t ts (Htx & Hdt & Hb & Ht) _ IH]; [reflexivity|].
  cbn [flat_map]. now rewrite IH, kept_of_transaction_text.
Qed.

Lemma security_text_starts_nl (s : Security) :
  exists body, security_text s = nl ++ body.
Proof. destruct s as [[cur ticker] mf]. eexists. reflexivity. Qed.

Lemma kept_of_security_text (s : Security) :
  single_line_security s = true ->
  kept_of (security_text s) = security_lines s.
Proof.
  destruct s as [[cur ticker] mf]. unfold single_line_security.
  intros H. apply andb_true_iff in H as [Hc Ht].
  unfold security_text, security_lines.
  rewrite kept_of_text_of_lines. cbn [flat_map].
  change (kept_of "") with (@nil string). cbn [app].
  destruct mf; do 10 kept_lines_step.
Qed.

Lemma kept_of_securities (secs : list Security) :
  Forall (fun s => single_line_security s = true) secs ->
  kept_of (String.concat "" (map security_text secs))
  = flat_map security_lines secs.
Proof.
  intros H. rewrite kept_of_concat by apply security_text_starts_nl.
  induction H as [|s secs Hs _ IH]; [reflexivity|].
  cbn [flat_map]. now rewrite IH, kept_of_security_text.
Qed.

(** The lines kept of the filled root template, when no value that fills
    it holds a line boundary. *)
Lemma kept_of_filled_template (dtserver account : string)
      (ts : list Transaction) (secs : list Security) :
  no_linebreak dtserver = true ->
  no_linebreak account = true ->
  Forall (fun t => no_linebreak (txntype t) = true
                   /\ no_linebreak (dttrade t) = true
                   /\ no_linebreak (buytype t) = true
                   /\ single_line_transaction str_Decimal t = true) ts ->
  Forall (fun s => single_line_security s = true) secs ->
  kept_of (filled_template
             dtserver account
             (String.concat "" (map (transaction_text str_Decimal) ts))
             (String.concat "" (map security_text secs)))
  = document_lines str_Decimal dtserver account ts secs.
Proof.
  intros Hd Ha Hts Hsecs.
  unfold filled_template, document_lines, document_head.
  rewrite kept_of_text_of_lines. cbn [flat_map].
  change (kept_of "") with (@nil string). cbn [app].
  do 28 kept_lines_step.
  rewrite kept_of_app
    by (apply concat_starts_nl, transaction_text_starts_nl).
  change (kept_of "          ") with (@nil string). cbn [app].
  rewrite kept_of_transactions by exact Hts.
  f_equal. cbn [app].
  do 6 kept_lines_step.
  rewrite kept_of_app
    by (apply concat_starts_nl, security_text_starts_nl).
  change (kept_of "     ") with (@nil string). cbn [app].
  rewrite kept_of_securities by exact Hsecs.
  f_equal.
Qed.

End DocumentLines.

(** The kept lines are the lines that are not blank, each without its
    leading whitespace. *)
Lemma stripped_lines_spec (lines : list string) :
  Forall2 is_lstrip_of (filter (fun line => negb (is_blank line)) lines)
          (stripped_lines lines).
Proof.
  unfold stripped_lines.
  rewrite (filter_ext (fun line => str_truthy (strip line))
                      (fun line => negb (is_blank line)))
    by apply strip_truthy.
  induction lines as [|line lines IH]; cbn [filter map]; [constructor|].
  destruct (is_blank line) eqn:Hb; cbn [negb map]; [exact IH|].
  constructor; [|exact IH].
  destruct (lstrip_spec line) as (ws & E & Hws & Ht).
  now exists ws.
Qed.

(** The cash-equivalent transaction: its fixed fields. *)
Lemma cash_equivalent_fields (ops : Ops) (L : Ledger) (trade : datetime)
      (st st' : OfxState) (cash_currency : string) (rest : list string) :
  cash_equivalent ops L trade st = Ok st' ->
  operating_currency L = cash_currency :: rest ->
  exists t,
    st_invtranlist st' = (st_invtranlist st ++ [t])%list
    /\ txntype t = "BUYMF"
    /\ dttrade t = render_ofx_date trade
    /\ memo t = Some ""
    /\ uniqueid t = CASH_EQUIVALENT_CURRENCY
    /\ fee t = ZERO
    /\ buytype t = "BUY".
Proof.
  unfold cash_equivalent. intros H Hop. rewrite Hop in H.
  destruct (py_sum ops (map book_value _)) as [bv|]; cbn [bind] in H;
    [|discriminate].
  destruct (py_sum ops (map market_value _)) as [mv|]; cbn [bind] in H;
    [|discriminate].
  destruct (quantize L mv cash_currency) as [u|]; cbn [bind] in H;
    [|discriminate].
  destruct (py_div ops bv mv) as [q|]; cbn [bind] in H; [|discriminate].
  destruct (quantize L q cash_currency) as [p|]; cbn [bind] in H;
    [|discriminate].
  injection H as <-. eexists. cbn. repeat split.
Qed.

(** The fields of a transaction that the code fixes hold no line
    boundary. *)
Lemma ofx_transactions_fixed_fields (ops : Ops) (L : Ledger)
      (args : ExportArgs) (clock : Clock) (st : OfxState) :
  ofx_transactions ops L args clock = Ok st ->
  Forall (fun t => no_linebreak (txntype t) = true
                   /\ no_linebreak (dttrade t) = true
                   /\ no_linebreak (buytype t) = true)
         (st_invtranlist st).
Proof.
  unfold ofx_transactions, get_assets_holdings.
  destruct (ofx_loop _ _ _ _ 0 (final_holdings L) initial_state)
    as [st0|e] eqn:Hloop; cbn [bind]; [|discriminate].
  intros Hcash.
  apply ofx_loop_Ok in Hloop as (_ & (buys & Hb & HF) & _).
  cbn [initial_state st_invtranlist app] in Hb.
  assert (Hbuys : Forall (fun t => no_linebreak (txntype t) = true
                                   /\ no_linebreak (dttrade t) = true
                                   /\ no_linebreak (buytype t) = true) buys).
  { clear Hb. induction HF as [|[i h] t ihs txns Ht _ IH];
      constructor; [|exact IH].
    destruct Ht as (ticker & n & c & _ & _ & _ & Htx & _ & Hdt & _ & _ & _
                    & _ & _ & _ & Hbt).
    rewrite Htx, Hdt, Hbt, no_linebreak_render_ofx_date.
    now destruct (is_mutual_fund ticker). }
  destruct (operating_currency L) as [|cash_currency rest] eqn:Hop.
  - unfold cash_equivalent in Hcash. rewrite Hop in Hcash.
    injection Hcash as <-. now rewrite Hb.
  - destruct (cash_equivalent_fields _ _ _ _ _ _ _ Hcash Hop)
      as (t & Hinv & Htx & Hdt & _ & _ & _ & Hbt).
    rewrite Hinv, Hb. apply Forall_app. split; [exact Hbuys|].
    constructor; [|constructor].
    now rewrite Htx, Hdt, Hbt, no_linebreak_render_ofx_date.
Qed.

(** C9: the document is the fixed preamble followed by the lines of the
    filled-in root template that are not blank, each without its leading
    whitespace and joined by newlines; the template is filled with the
    transactions in the order in which their holdings are met (the cash
    equivalent last) and with the securities in ascending order of
    currency.  When no memo, ticker, currency, amount or title holds a line
    boundary, the document is the preamble followed by the lines of
    [document_lines].  After the write the call returns, or raises
    [NameError] under [--verbose]. *)
Theorem render_ofx_document :
  forall (str_Decimal : Decimal -> string) (ops : Ops) (L : Ledger)
         (args : ExportArgs) (clock : Clock) (st : OfxState),
    ofx_transactions ops L args clock = Ok st ->
    (exists buys,
        Forall2 (is_individual_buy ops (get_values_meta (commodity_map L))
                                   (args_promiscuous args)
                                   (trade_date clock))
                (exported_with_index (get_values_meta (commodity_map L))
                                     0 (final_holdings L))
                buys
        /\ (st_invtranlist st = buys
            \/ exists cash_txn,
                st_invtranlist st = (buys ++ [cash_txn])%list
                /\ uniqueid cash_txn = CASH_EQUIVALENT_CURRENCY))
    /\ Permutation (sorted (st_commodities st)) (st_commodities st)
    /\ NoDup (sorted (st_commodities st))
    /\ Sorted (fun a b => String.leb (security_currency a)
                                     (security_currency b) = true)
              (sorted (st_commodities st))
    /\ (exists lines kept,
           split_lines
             (filled_template
                (render_ofx_date (morning clock))
                (if args_promiscuous args then title L else "")
                (String.concat ""
                   (map (transaction_text str_Decimal) (st_invtranlist st)))
                (String.concat ""
                   (map security_text (sorted (st_commodities st)))))
             lines
           /\ Forall2 is_lstrip_of
                      (filter (fun line => negb (is_blank line)) lines) kept
           /\ fst (render_ofx str_Decimal ops L args clock)
              = PREFIX ++ String.concat nl kept)
    /\ (no_linebreak (if args_promiscuous args then title L else "") = true ->
        Forall (fun t => single_line_transaction str_Decimal t = true)
               (st_invtranlist st) ->
        Forall (fun s => single_line_security s = true) (st_commodities st) ->
        fst (render_ofx str_Decimal ops L args clock)
        = PREFIX
          ++ String.concat nl
               (document_lines str_Decimal
                  (render_ofx_date (morning clock))
                  (if args_promiscuous args then title L else "")
                  (st_invtranlist st) (sorted (st_commodities st))))
    /\ snd (render_ofx str_Decimal ops L args clock)
       = if args_verbose args then Raise NameError else Ok tt.
Proof.
  intros str_Decimal ops L args clock st Ht.
  assert (Hdoc : render_ofx str_Decimal ops L args clock
                 = (PREFIX
                    ++ String.concat nl
                         (kept_of
                            (filled_template
                               (render_ofx_date (morning clock))
                               (if args_promiscuous args then title L else "")
                               (String.concat ""
                                  (map (transaction_text str_Decimal)
                                       (st_invtranlist st)))
                               (String.concat ""
                                  (map security_text
                                       (sorted (st_commodities st)))))),
                    if args_verbose args then Raise NameError else Ok tt)).
  { unfold render_ofx. rewrite Ht, TEMPLATE_format_text.
    rewrite (map_ext _ _ (TRANSACTION_format_text str_Decimal)).
    rewrite (map_ext _ _ SECURITY_format_text).
    unfold kept_of, stripped_lines. reflexivity. }
  destruct (ofx_transactions_Ok _ _ _ _ _ Ht) as (buys & HF & Hinv & Hnd).
  split; [exists buys; split; assumption|].
  split; [apply sorted_Permutation|].
  split; [eapply Permutation_NoDup;
          [apply Permutation_sym, sorted_Permutation | exact Hnd]|].
  split; [apply sorted_by_currency|].
  rewrite Hdoc. cbn [fst snd].
  split; [|split; [|reflexivity]].
  - eexists _, _. split; [apply splitlines_spec|].
    split; [apply stripped_lines_spec | reflexivity].
  - intros Ha Hts Hsecs. f_equal. f_equal.
    apply kept_of_filled_template.
    + apply no_linebreak_render_ofx_date.
    + exact Ha.
    + pose proof (ofx_transactions_fixed_fields _ _ _ _ _ Ht) as Hfix.
      rewrite Forall_forall in *. intros t Hin.
      destruct (Hfix t Hin) as (? & ? & ?). auto.
    + eapply Permutation_Forall;
        [apply Permutation_sym, sorted_Permutation | exact Hsecs].
Qed.

(** The export of a cash position followed by a stock position, written
    out. *)
Lemma render_ofx_document_witness :
  ofx_transactions spec_ops ledger_cash_then_stock quiet example_clock
  = Ok state_cash_then_stock
  /\ render_ofx show_decimal spec_ops ledger_cash_then_stock quiet
                example_clock
     = (document_cash_then_stock, Ok tt).
Proof.
  assert (H : ofx_transactions spec_ops ledger_cash_then_stock quiet
                               example_clock
              = Ok state_cash_then_stock) by (vm_compute; reflexivity).
  split; [exact H|].
  destruct (render_ofx_document show_decimal _ _ _ _ _ H)
    as (_ & _ & _ & _ & _ & Hdoc & Hout).
  rewrite (surjective_pairing (render_ofx _ _ _ _ _)), Hout, Hdoc.
  - vm_compute. reflexivity.
  - reflexivity.
  - unfold state_cash_then_stock. cbn [st_invtranlist].
    repeat (constructor; [vm_compute; reflexivity|]). constructor.
  - unfold state_cash_then_stock. cbn [st_commodities].
    repeat (constructor; [vm_compute; reflexivity|]). constructor.
Defined.

(* ================================================================== *)
(** * Part III: further properties of the code *)
(* ================================================================== *)

(** ** When the export returns and how it fails *)

Lemma py_sum_from_Raise (ops : Ops) (xs : list (option Decimal)) (e : exn) :
  fold_left (fun acc x => a <- acc ;; py_add ops a x) xs (Raise e) = Raise e.
Proof. induction xs as [|x xs IH]; cbn; [reflexivity | exact IH]. Qed.

Lemma py_sum_from_Ok (ops : Ops) (xs : list (option Decimal)) :
  forall a : Num,
    fold_left (fun acc x => a <- acc ;; py_add ops a x) xs (Ok a)
    = if forallb (fun x => negb (is_None x)) xs
      then Ok (fold_left (fun a x =>
                            match x with
                            | Some v => Dec (dec_add ops (num_value a) v)
                            | None => a
                            end) xs a)
      else Raise TypeError.
Proof.
  induction xs as [|[v|] xs IH]; intros a; cbn.
  - reflexivity.
  - apply IH.
  - apply py_sum_from_Raise.
Qed.

(** [sum] of optional values returns their total when all are present and
    raises [TypeError] otherwise. *)
Lemma py_sum_spec (ops : Ops) (xs : list (option Decimal)) :
  py_sum ops xs = if forallb (fun x => negb (is_None x)) xs
                  then Ok (sum_of ops xs) else Raise TypeError.
Proof. apply py_sum_from_Ok. Qed.

Lemma values_defined_forallb (hs : list Holding) :
  values_defined hs <->
  forallb (fun x => negb (is_None x)) (map book_value hs) = true
  /\ forallb (fun x => negb (is_None x)) (map market_value hs) = true.
Proof.
  unfold values_defined. induction hs as [|h hs IH]; cbn.
  - split; [now split | constructor].
  - rewrite !andb_true_iff. split.
    + intros H. inversion H as [|? ? [Hb Hm] Hrest]; subst.
      apply IH in Hrest as [? ?].
      destruct (book_value h), (market_value h); cbn; tauto.
    + intros [[Hb Hbs] [Hm Hms]]. constructor; [|apply IH; now split].
      destruct (book_value h), (market_value h); cbn in *;
        split; congruence.
Qed.

(** The cash equivalent, from the state that the loop leaves: what it
    computes, step by step. *)
Lemma cash_equivalent_steps (ops : Ops) (L : Ledger) (trade : datetime)
      (st0 : OfxState) (c : string) (rest : list string) :
  operating_currency L = c :: rest ->
  st_skipped_holdings st0 = skipped_of L ->
  cash_equivalent ops L trade st0
  = if forallb (fun x => negb (is_None x))
               (map book_value (cash_included ops L c))
       && forallb (fun x => negb (is_None x))
                  (map market_value (cash_included ops L c))
    then
      match quantize L (cash_market_value ops L c) c with
      | Raise e => Raise e
      | Ok u =>
          if dec_truthy (num_value (cash_market_value ops L c))
          then
            match quantize L (Dec (cash_unit_price ops L c)) c with
            | Raise e => Raise e
            | Ok p =>
                Ok (mkOfxState
                      (st_invtranlist st0
                       ++ [mkTransaction
                             "BUYMF" (st_index st0 + 1) (render_ofx_date trade)
                             (Some "") CASH_EQUIVALENT_CURRENCY u p ZERO
                             (dec_neg ops (dec_add ops (dec_mul ops u p) ZERO))
                             "BUY"])%list
                      (set_add security_eqb
                               (CASH_EQUIVALENT_CURRENCY,
                                CASH_EQUIVALENT_CURRENCY, false)
                               (st_commodities st0))
                      (st_skipped_holdings st0)
                      (st_ignored_commodities st0)
                      (st_index st0))
            end
          else Raise ArithmeticError
      end
    else Raise TypeError.
Proof.
  intros Hop Hsk. unfold cash_equivalent. rewrite Hop, Hsk.
  change (filter _ (convert_to_currency ops (price_map L) c _))
    with (cash_included ops L c).
  rewrite !py_sum_spec.
  destruct (forallb _ (map book_value _)); cbn [bind andb]; [|reflexivity].
  destruct (forallb _ (map market_value _)); cbn [bind]; [|reflexivity].
  change (sum_of ops (map market_value (cash_included ops L c)))
    with (cash_market_value ops L c).
  destruct (quantize L (cash_market_value ops L c) c) as [u|e]; cbn [bind];
    [|reflexivity].
  unfold py_div.
  destruct (dec_truthy (num_value (cash_market_value ops L c)));
    cbn [bind]; [|reflexivity].
  change (dec_div ops (num_value (sum_of ops (map book_value _)))
                  (num_value (cash_market_value ops L c)))
    with (cash_unit_price ops L c).
  destruct (quantize L (Dec (cash_unit_price ops L c)) c) as [p|e];
    reflexivity.
Qed.

(** The loop, in terms of the ledger: it returns with the skipped holdings
    when every exported holding has a number of units, and raises
    [TypeError] otherwise. *)
Lemma ofx_loop_outcome (ops : Ops) (L : Ledger) (args : ExportArgs)
      (clock : Clock) :
  match ofx_loop ops (get_values_meta (commodity_map L))
                 (args_promiscuous args) (trade_date clock) 0
                 (final_holdings L) initial_state with
  | Ok st0 =>
      units_defined (get_values_meta (commodity_map L)) (final_holdings L)
      /\ st_skipped_holdings st0 = skipped_of L
  | Raise e =>
      e = TypeError
      /\ ~ units_defined (get_values_meta (commodity_map L)) (final_holdings L)
  end.
Proof.
  destruct (ofx_loop _ _ _ _ 0 (final_holdings L) initial_state)
    as [st0|e] eqn:Hloop.
  - split; [eapply ofx_loop_total; eexists; exact Hloop|].
    now apply ofx_loop_Ok in Hloop as (Hsk & _).
  - split; [now apply ofx_loop_Raise in Hloop|].
    intros Hunits.
    apply (ofx_loop_total ops (get_values_meta (commodity_map L))
                          (args_promiscuous args) (trade_date clock)
                          (final_holdings L) 0 initial_state) in Hunits
      as [st Hst].
    congruence.
Qed.

(** What [render_ofx] gives once the transactions are collected. *)
Lemma render_ofx_written (str_Decimal : Decimal -> string) (ops : Ops)
      (L : Ledger) (args : ExportArgs) (clock : Clock) (st : OfxState) :
  ofx_transactions ops L args clock = Ok st ->
  exists body,
    render_ofx str_Decimal ops L args clock
    = (PREFIX ++ body, if args_verbose args then Raise NameError else Ok tt).
Proof.
  intros Hst. unfold render_ofx. rewrite Hst. eexists. reflexivity.
Qed.

(** How the export ends, in terms of the ledger.  It raises [TypeError],
    writing nothing, when an exported holding has no number of units.
    Otherwise, without an operating currency the document is written.  With
    one, the export writes nothing and raises [TypeError] when a skipped
    holding that converts to the first operating currency lacks a book value
    or a market value, the exception of the display context when it refuses
    the market value or the unit price, and an arithmetic error when the
    market values add up to zero; else the document is written.  Once the
    document is written the call returns, unless [--verbose] is given: it
    then raises [NameError]. *)
Theorem render_ofx_outcome :
  forall (str_Decimal : Decimal -> string) (ops : Ops) (L : Ledger)
         (args : ExportArgs) (clock : Clock),
    (~ units_defined (get_values_meta (commodity_map L)) (final_holdings L) ->
     render_ofx str_Decimal ops L args clock = (EmptyString, Raise TypeError))
    /\ (units_defined (get_values_meta (commodity_map L)) (final_holdings L) ->
        match operating_currency L with
        | [] =>
            exists body,
              render_ofx str_Decimal ops L args clock
              = (PREFIX ++ body,
                 if args_verbose args then Raise NameError else Ok tt)
        | c :: _ =>
            (~ values_defined (cash_included ops L c) ->
             render_ofx str_Decimal ops L args clock
             = (EmptyString, Raise TypeError))
            /\ (values_defined (cash_included ops L c) ->
                match quantize L (cash_market_value ops L c) c with
                | Raise e =>
                    render_ofx str_Decimal ops L args clock
                    = (EmptyString, Raise e)
                | Ok _ =>
                    if dec_truthy (num_value (cash_market_value ops L c))
                    then
                      match quantize L (Dec (cash_unit_price ops L c)) c with
                      | Raise e =>
                          render_ofx str_Decimal ops L args clock
                          = (EmptyString, Raise e)
                      | Ok _ =>
                          exists body,
                            render_ofx str_Decimal ops L args clock
                            = (PREFIX ++ body,
                               if args_verbose args
                               then Raise NameError else Ok tt)
                      end
                    else
                      render_ofx str_Decimal ops L args clock
                      = (EmptyString, Raise ArithmeticError)
                end)
        end).
Proof.
  intros str_Decimal ops L args clock.
  pose proof (ofx_loop_outcome ops L args clock) as Hloop.
  assert (Hraise : forall e,
             ofx_transactions ops L args clock = Raise e ->
             render_ofx str_Decimal ops L args clock = (EmptyString, Raise e)).
  { intros e He. unfold render_ofx. now rewrite He. }
  unfold ofx_transactions, get_assets_holdings in Hraise.
  pose proof (render_ofx_written str_Decimal ops L args clock) as Hwritten.
  unfold ofx_transactions, get_assets_holdings in Hwritten.
  destruct (ofx_loop _ _ _ _ 0 (final_holdings L) initial_state)
    as [st0|e]; cbn [bind] in Hraise, Hwritten.
  - destruct Hloop as [Hunits Hsk]. split; [intros H; now destruct H|].
    intros _.
    destruct (operating_currency L) as [|c rest] eqn:Hop.
    + apply (Hwritten st0). unfold cash_equivalent. now rewrite Hop.
    + rewrite (cash_equivalent_steps _ _ _ _ _ _ Hop Hsk) in Hraise, Hwritten.
      pose proof (values_defined_forallb (cash_included ops L c)) as Hv.
      destruct (forallb _ (map book_value (cash_included ops L c))) eqn:Eb;
        cbn [andb] in Hraise, Hwritten.
      * destruct (forallb _ (map market_value (cash_included ops L c)))
          eqn:Em.
        -- split; [intros H; destruct H; now apply Hv|]. intros _.
           destruct (quantize L (cash_market_value ops L c) c) as [u|e];
             [|now apply Hraise].
           destruct (dec_truthy (num_value (cash_market_value ops L c)));
             [|now apply Hraise].
           destruct (quantize L (Dec (cash_unit_price ops L c)) c) as [p|e];
             [|now apply Hraise].
           eapply Hwritten. reflexivity.
        -- split; [intros _; now apply Hraise|].
           intros H. apply Hv in H as [_ H]. discriminate.
      * split; [intros _; now apply Hraise|].
        intros H. apply Hv in H as [H _]. discriminate.
  - destruct Hloop as [-> Hunits]. split; [intros _; now apply Hraise|].
    intros H. now destruct Hunits.
Qed.

(** With [--verbose] the export of a cash position followed by a stock
    position writes the document and then raises [NameError]. *)
Lemma render_ofx_outcome_witness :
  units_defined (get_values_meta (commodity_map ledger_cash_then_stock))
                (final_holdings ledger_cash_then_stock)
  /\ values_defined (cash_included spec_ops ledger_cash_then_stock "USD")
  /\ exists body,
      render_ofx show_decimal spec_ops ledger_cash_then_stock
                 (mkExportArgs true false) example_clock
      = (PREFIX ++ body, Raise NameError).
Proof.
  assert (Hu : units_defined
                 (get_values_meta (commodity_map ledger_cash_then_stock))
                 (final_holdings ledger_cash_then_stock)).
  { repeat constructor; intros _; discriminate. }
  assert (Hv : values_defined
                 (cash_included spec_ops ledger_cash_then_stock "USD")).
  { repeat constructor; discriminate. }
  split; [exact Hu|]. split; [exact Hv|].
  exact (proj2 (proj2 (render_ofx_outcome show_decimal spec_ops
                         ledger_cash_then_stock (mkExportArgs true false)
                         example_clock) Hu) Hv).
Defined.

(** ** What the export has collected when it returns *)

Lemma exported_with_index_holdings (tickers : string -> option meta_value)
      (hs : list Holding) :
  forall i,
    map snd (exported_with_index tickers i hs)
    = filter (fun h => negb (is_skipped tickers h)) hs.
Proof.
  unfold exported_with_index.
  induction hs as [|h hs IH]; intros i; [reflexivity|].
  rewrite enumerate_from_cons. cbn [filter snd].
  destruct (is_skipped tickers h); cbn [negb map snd]; now rewrite IH.
Qed.

Lemma filter_partition_length {A : Type} (f : A -> bool) (l : list A) :
  (List.length (filter (fun x => negb (f x)) l) + List.length (filter f l)
   = List.length l)%nat.
Proof.
  induction l as [|x l IH]; cbn; [reflexivity|].
  destruct (f x); cbn; lia.
Qed.

(** When an operating currency is configured and the export returns, the
    last transaction is the cash equivalent: a mutual-fund purchase of
    VMMXX.  Its units are what the display context makes of the sum of the
    market values of the skipped holdings that convert to the first
    operating currency; its unit price is what the display context makes of
    the ratio of their book value to their market value, sums and ratio being
    those of the operators of [Decimal], rounded by the decimal context; the
    memo is empty, the fee zero and the total
    [-(units * unitprice + fee)].  These holdings all have a book value and
    a market value, and their market values do not add up to zero. *)
Theorem ofx_cash_equivalent_values :
  forall (ops : Ops) (L : Ledger) (args : ExportArgs) (clock : Clock)
         (st : OfxState) (c : string) (rest : list string),
    ofx_transactions ops L args clock = Ok st ->
    operating_currency L = c :: rest ->
    exists buys cash_txn,
      st_invtranlist st = (buys ++ [cash_txn])%list
      /\ List.length buys = List.length (exported_of L)
      /\ txntype cash_txn = "BUYMF"
      /\ uniqueid cash_txn = CASH_EQUIVALENT_CURRENCY
      /\ memo cash_txn = Some ""
      /\ buytype cash_txn = "BUY"
      /\ quantize L (cash_market_value ops L c) c = Ok (units cash_txn)
      /\ quantize L (Dec (cash_unit_price ops L c)) c
         = Ok (unitprice cash_txn)
      /\ fee cash_txn = ZERO
      /\ total cash_txn
         = dec_neg ops (dec_add ops (dec_mul ops (units cash_txn)
                                             (unitprice cash_txn))
                                (fee cash_txn))
      /\ values_defined (cash_included ops L c)
      /\ ~ (num_value (cash_market_value ops L c) == 0)%Q.
Proof.
  intros ops L args clock st c rest Hst Hop.
  pose proof (ofx_loop_outcome ops L args clock) as Hout.
  unfold ofx_transactions, get_assets_holdings in Hst.
  destruct (ofx_loop _ _ _ _ 0 (final_holdings L) initial_state)
    as [st0|e] eqn:Hloop; cbn [bind] in Hst; [|discriminate].
  destruct Hout as [_ Hsk].
  apply ofx_loop_Ok in Hloop as (_ & (buys & Hb & HF) & _).
  cbn [initial_state st_invtranlist app] in Hb.
  rewrite (cash_equivalent_steps _ _ _ _ _ _ Hop Hsk) in Hst.
  pose proof (values_defined_forallb (cash_included ops L c)) as Hv.
  destruct (forallb _ (map book_value (cash_included ops L c))) eqn:Eb;
    cbn [andb] in Hst; [|discriminate].
  destruct (forallb _ (map market_value (cash_included ops L c))) eqn:Em;
    [|discriminate].
  destruct (quantize L (cash_market_value ops L c) c) as [u|] eqn:Hu;
    [|discriminate].
  destruct (dec_truthy (num_value (cash_market_value ops L c))) eqn:Hnz;
    [|discriminate].
  destruct (quantize L (Dec (cash_unit_price ops L c)) c) as [p|] eqn:Hp;
    [|discriminate].
  injection Hst as <-. cbn [st_invtranlist]. rewrite Hb.
  eexists buys, _. split; [reflexivity|].
  split.
  { apply Forall2_length in HF. rewrite <- HF.
    unfold exported_of. rewrite <- (exported_with_index_holdings _ _ 0).
    now rewrite length_map. }
  cbn [txntype uniqueid memo buytype units unitprice fee total].
  repeat split; auto.
  - now apply Hv.
  - intros Hz. unfold dec_truthy in Hnz. apply Qeq_bool_iff in Hz.
    now rewrite Hz in Hnz.
Qed.

(** On a cash position of 250 USD followed by a stock position, the cash
    equivalent is 250 units at the price 1. *)
Lemma ofx_cash_equivalent_values_witness :
  ofx_transactions spec_ops ledger_cash_then_stock quiet example_clock
  = Ok state_cash_then_stock
  /\ exists buys cash_txn,
      st_invtranlist state_cash_then_stock = (buys ++ [cash_txn])%list
      /\ Ok (250 # 1) = Ok (units cash_txn)
      /\ Ok (1 # 1) = Ok (unitprice cash_txn).
Proof.
  assert (H : ofx_transactions spec_ops ledger_cash_then_stock quiet
                               example_clock
              = Ok state_cash_then_stock) by (vm_compute; reflexivity).
  split; [exact H|].
  destruct (ofx_cash_equivalent_values _ _ _ _ _ "USD" [] H eq_refl)
    as (buys & cash_txn & Hinv & _ & _ & _ & _ & _ & Hu & Hp & _).
  exists buys, cash_txn. split; [exact Hinv|]. split; [exact Hu | exact Hp].
Defined.

(** When the export returns, every holding has been either skipped or
    written as exactly one transaction, and one more transaction (the cash
    equivalent) is written exactly when an operating currency is
    configured. *)
Theorem ofx_transaction_count :
  forall (ops : Ops) (L : Ledger) (args : ExportArgs) (clock : Clock)
         (st : OfxState),
    ofx_transactions ops L args clock = Ok st ->
    st_skipped_holdings st = skipped_of L
    /\ (List.length (exported_of L) + List.length (skipped_of L)
        = List.length (final_holdings L))%nat
    /\ List.length (st_invtranlist st)
       = (List.length (exported_of L)
          + match operating_currency L with [] => 0 | _ :: _ => 1 end)%nat.
Proof.
  intros ops L args clock st Hst.
  unfold ofx_transactions, get_assets_holdings in Hst.
  destruct (ofx_loop _ _ _ _ 0 (final_holdings L) initial_state)
    as [st0|e] eqn:Hloop; cbn [bind] in Hst; [|discriminate].
  apply ofx_loop_Ok in Hloop as (Hsk & (buys & Hb & HF) & _).
  cbn [initial_state st_skipped_holdings st_invtranlist app] in Hsk, Hb.
  assert (Hlen : List.length buys = List.length (exported_of L)).
  { apply Forall2_length in HF. rewrite <- HF.
    unfold exported_of. rewrite <- (exported_with_index_holdings _ _ 0).
    now rewrite length_map. }
  apply cash_equivalent_Ok in Hst.
  split; [|split].
  - destruct (operating_currency L); [now subst st|].
    destruct Hst as (t & _ & _ & _ & _ & _ & Hs & _).
    now rewrite Hs.
  - apply filter_partition_length.
  - destruct (operating_currency L).
    + subst st. rewrite Hb, Hlen. lia.
    + destruct Hst as (t & Hinv & _). rewrite Hinv, length_app, Hb, Hlen.
      reflexivity.
Qed.

Lemma ofx_transaction_count_witness :
  ofx_transactions spec_ops ledger_cash_then_stock quiet example_clock
  = Ok state_cash_then_stock
  /\ List.length (st_invtranlist state_cash_then_stock)
     = (List.length (exported_of ledger_cash_then_stock) + 1)%nat.
Proof.
  assert (H : ofx_transactions spec_ops ledger_cash_then_stock quiet
                               example_clock
              = Ok state_cash_then_stock) by (vm_compute; reflexivity).
  split; [exact H|].
  exact (proj2 (proj2 (ofx_transaction_count _ _ _ _ _ H))).
Defined.

(** The security list of the export holds, without repetition and in
    ascending order of currency, one triple
    [(currency, ticker, is_mutual_fund(ticker))] for every exported holding
    and, when an operating currency is configured, the triple
    [(VMMXX, VMMXX, False)]; it holds nothing else. *)
Theorem ofx_security_list :
  forall (ops : Ops) (L : Ledger) (args : ExportArgs) (clock : Clock)
         (st : OfxState),
    ofx_transactions ops L args clock = Ok st ->
    (forall s,
        In s (sorted (st_commodities st)) <->
        (exists h ticker cur,
            In h (exported_of L)
            /\ ticker_of L h = Some ticker
            /\ currency h = Some cur
            /\ s = (cur, ticker, is_mutual_fund ticker))
        \/ (operating_currency L <> []
            /\ s = (CASH_EQUIVALENT_CURRENCY, CASH_EQUIVALENT_CURRENCY,
                    false)))
    /\ NoDup (sorted (st_commodities st))
    /\ Sorted (fun a b => String.leb (security_currency a)
                                     (security_currency b) = true)
              (sorted (st_commodities st)).
Proof.
  intros ops L args clock st Hst.
  destruct (ofx_transactions_Ok _ _ _ _ _ Hst) as (_ & _ & _ & Hnd).
  split; [|split; [|apply sorted_by_currency]].
  2: { eapply Permutation_NoDup;
       [apply Permutation_sym, sorted_Permutation | exact Hnd]. }
  unfold ofx_transactions, get_assets_holdings in Hst.
  destruct (ofx_loop _ _ _ _ 0 (final_holdings L) initial_state)
    as [st0|e] eqn:Hloop; cbn [bind] in Hst; [|discriminate].
  apply ofx_loop_Ok in Hloop as (_ & _ & _ & Hc & _).
  cbn [initial_state st_commodities] in Hc.
  apply cash_equivalent_Ok in Hst.
  assert (Hloop_iff : forall s,
             In s (st_commodities st0) <->
             exists h ticker cur,
               In h (exported_of L)
               /\ ticker_of L h = Some ticker
               /\ currency h = Some cur
               /\ s = (cur, ticker, is_mutual_fund ticker)).
  { intros s. rewrite Hc. split.
    - intros [[] | (h & t & cur & Hin & Hsk & Ht & Hcur & ->)].
      exists h, t, cur. repeat split; auto.
      + apply filter_In. split; [exact Hin | now rewrite Hsk].
      + now apply ticker_of_lookup.
    - intros (h & t & cur & Hin & Ht & Hcur & ->). right.
      apply filter_In in Hin as [Hin Hsk]. apply negb_true_iff in Hsk.
      exists h, t, cur. repeat split; auto. now apply ticker_of_lookup. }
  intros s.
  assert (Hperm : In s (sorted (st_commodities st))
                  <-> In s (st_commodities st)).
  { split; apply Permutation_in;
      [|apply Permutation_sym]; apply sorted_Permutation. }
  rewrite Hperm. clear Hperm.
  destruct (operating_currency L) as [|c rest].
  - subst st. rewrite Hloop_iff. split; [now left|].
    intros [H | [H _]]; [exact H | now destruct H].
  - destruct Hst as (t & _ & _ & _ & _ & Hcm & _).
    rewrite Hcm, (set_add_In _ security_eqb_eq), Hloop_iff. split.
    + intros [H | ->]; [now left|]. right. split; [discriminate | reflexivity].
    + intros [H | [_ ->]]; [now left | now right].
Qed.

Lemma ofx_security_list_witness :
  ofx_transactions spec_ops ledger_cash_then_stock quiet example_clock
  = Ok state_cash_then_stock
  /\ NoDup (sorted (st_commodities state_cash_then_stock)).
Proof.
  assert (H : ofx_transactions spec_ops ledger_cash_then_stock quiet
                               example_clock
              = Ok state_cash_then_stock) by (vm_compute; reflexivity).
  split; [exact H|].
  exact (proj1 (proj2 (ofx_security_list _ _ _ _ _ H))).
Defined.

(** ** What the export does not reveal and does not read *)

(** Without [--promiscuous] no transaction carries an account name: every
    memo is empty, and the document is the same whatever the title of the
    ledger is. *)
Theorem ofx_not_promiscuous :
  forall (str_Decimal : Decimal -> string) (ops : Ops) (L : Ledger)
         (args : ExportArgs) (clock : Clock),
    args_promiscuous args = false ->
    (forall st,
        ofx_transactions ops L args clock = Ok st ->
        Forall (fun t => memo t = Some "") (st_invtranlist st))
    /\ (forall t,
           render_ofx str_Decimal ops (with_title L t) args clock
           = render_ofx str_Decimal ops L args clock).
Proof.
  intros str_Decimal ops L args clock Hp. split.
  - intros st Hst.
    unfold ofx_transactions, get_assets_holdings in Hst.
    destruct (ofx_loop _ _ _ _ 0 (final_holdings L) initial_state)
      as [st0|e] eqn:Hloop; cbn [bind] in Hst; [|discriminate].
    apply ofx_loop_Ok in Hloop as (Hsk & (buys & Hb & HF) & _).
    cbn [initial_state st_skipped_holdings st_invtranlist app] in Hsk, Hb.
    assert (Hbuys : Forall (fun t => memo t = Some "") buys).
    { clear -HF Hp. induction HF as [|[i h] t ihs txns Ht _ IH];
        constructor; [|exact IH].
      destruct Ht as (? & ? & ? & _ & _ & _ & _ & _ & _ & Hm & _).
      now rewrite Hp in Hm. }
    destruct (operating_currency L) as [|c rest] eqn:Hop.
    + apply cash_equivalent_Ok in Hst. rewrite Hop in Hst. subst st.
      now rewrite Hb.
    + destruct (cash_equivalent_fields _ _ _ _ _ _ _ Hst Hop)
        as (t & Hinv & _ & _ & Hm & _).
      rewrite Hinv, Hb.
      apply Forall_app. split; [exact Hbuys | now repeat constructor].
  - intros t. unfold render_ofx.
    change (ofx_transactions ops (with_title L t) args clock)
      with (ofx_transactions ops L args clock).
    now rewrite Hp.
Qed.

Lemma ofx_not_promiscuous_witness :
  args_promiscuous quiet = false
  /\ render_ofx show_decimal spec_ops
                (with_title ledger_cash_then_stock "My ledger") quiet
                example_clock
     = render_ofx show_decimal spec_ops ledger_cash_then_stock quiet
                  example_clock.
Proof.
  split; [reflexivity|].
  exact (proj2 (ofx_not_promiscuous show_decimal spec_ops
                  ledger_cash_then_stock quiet example_clock eq_refl)
               "My ledger").
Defined.

(** Only the first operating currency is used: the export gives the same
    result whatever operating currencies follow it. *)
Theorem ofx_first_operating_currency :
  forall (str_Decimal : Decimal -> string) (ops : Ops) (L : Ledger)
         (args : ExportArgs) (clock : Clock) (c : string)
         (rest rest' : list string),
    render_ofx str_Decimal ops (with_operating_currency L (c :: rest))
               args clock
    = render_ofx str_Decimal ops (with_operating_currency L (c :: rest'))
                 args clock.
Proof. reflexivity. Qed.

(** ** The net-worth table *)

Lemma subseq_length {A : Type} (l1 l2 : list A) :
  subseq l1 l2 -> (List.length l1 <= List.length l2)%nat.
Proof. induction 1; cbn; lia. Qed.

Lemma subseq_In {A : Type} (l1 l2 : list A) (x : A) :
  subseq l1 l2 -> In x l1 -> In x l2.
Proof.
  induction 1 as [|y l1 l2 _ IH|y l1 l2 _ IH]; cbn; [tauto | tauto |].
  intros [->|H]; [now left | right; now apply IH].
Qed.

Lemma subseq_NoDup {A : Type} (l1 l2 : list A) :
  subseq l1 l2 -> NoDup l2 -> NoDup l1.
Proof.
  induction 1 as [|y l1 l2 Hs IH|y l1 l2 Hs IH]; intros Hnd.
  - constructor.
  - inversion Hnd; subst. now apply IH.
  - inversion Hnd as [|? ? Hy Hnd']; subst. constructor; [|now apply IH].
    intros Hin. apply Hy. now apply (subseq_In l1 l2).
Qed.

(** The loop appends at most one row per currency, in the order of the
    currencies. *)
Lemma net_worth_loop_rows (ops : Ops) (pm : PriceMap) (cs : list string) :
  forall (hl : list Holding) (acc : list NetWorthRow),
  exists rows,
    net_worth_loop ops pm cs hl acc = (acc ++ rows)%list
    /\ subseq (map fst rows) cs.
Proof.
  induction cs as [|c cs IH]; intros hl acc; cbn [net_worth_loop].
  - exists []. rewrite app_nil_r. split; [reflexivity | constructor].
  - destruct (convert_to_currency ops pm c hl) as [|h0 converted].
    + destruct (IH hl acc) as (rows & -> & Hs).
      exists rows. split; [reflexivity | now constructor].
    + destruct (filter _ _) as [|first valid].
      * destruct (IH [] acc) as (rows & -> & Hs).
        exists rows. split; [reflexivity | now constructor].
      * destruct (IH (first :: valid)
                     (acc ++ [(c, market_value first)])%list)
          as (rows & -> & Hs).
        exists ((c, market_value first) :: rows).
        split; [now rewrite <- app_assoc | now constructor].
Qed.

(** The net-worth table has at most one row per configured operating
    currency, and its rows follow the order in which the currencies are
    configured; with distinct operating currencies no currency is reported
    twice. *)
Theorem net_worth_rows_follow_currencies :
  forall (ops : Ops) (L : Ledger),
    subseq (map fst (table_rows (NetWorthReport_generate_table ops L)))
           (operating_currency L)
    /\ (List.length (table_rows (NetWorthReport_generate_table ops L))
        <= List.length (operating_currency L))%nat
    /\ (NoDup (operating_currency L) ->
        NoDup (map fst (table_rows (NetWorthReport_generate_table ops L)))).
Proof.
  intros ops L. unfold NetWorthReport_generate_table, get_assets_holdings.
  cbn [table_rows].
  destruct (net_worth_loop_rows ops (price_map L) (operating_currency L)
                                (final_holdings L) [])
    as (rows & -> & Hs).
  cbn [app]. split; [exact Hs|]. split.
  - apply subseq_length in Hs. now rewrite length_map in Hs.
  - now apply subseq_NoDup.
Qed.

(** The net worth in the first operating currency is computed from the
    holdings of the ledger: the table starts with the row that the
    conversion and aggregation of the original list give for it. *)
Theorem net_worth_first_currency :
  forall (ops : Ops) (L : Ledger) (c : string) (rest : list string),
    operating_currency L = c :: rest ->
    exists later,
      table_rows (NetWorthReport_generate_table ops L)
      = (spec_net_worth_rows ops (price_map L) (final_holdings L) c
         ++ later)%list.
Proof.
  intros ops L c rest Hop.
  unfold NetWorthReport_generate_table, get_assets_holdings,
    spec_net_worth_rows.
  cbn [table_rows]. rewrite Hop. cbn [net_worth_loop].
  destruct (convert_to_currency ops (price_map L) c (final_holdings L))
    as [|h0 converted].
  - destruct (net_worth_loop_rows ops (price_map L) rest (final_holdings L)
                                  []) as (rows & -> & _).
    now exists rows.
  - destruct (filter _ _) as [|first valid].
    + destruct (net_worth_loop_rows ops (price_map L) rest [] [])
        as (rows & -> & _).
      now exists rows.
    + cbn [app].
      destruct (net_worth_loop_rows ops (price_map L) rest (first :: valid)
                                    [(c, market_value first)])
        as (rows & -> & _).
      now exists rows.
Qed.

Lemma net_worth_first_currency_witness :
  operating_currency ledger_two_currencies = "USD" :: ["CAD"]
  /\ exists later,
      table_rows (NetWorthReport_generate_table spec_ops
                                                ledger_two_currencies)
      = (spec_net_worth_rows spec_ops (price_map ledger_two_currencies)
                             (final_holdings ledger_two_currencies) "USD"
         ++ later)%list.
Proof.
  split; [reflexivity|].
  exact (net_worth_first_currency spec_ops ledger_two_currencies
                                  "USD" ["CAD"] eq_refl).
Defined.

Lemma net_worth_loop_empty (ops : Ops) (pm : PriceMap) (cs : list string)
      (acc : list NetWorthRow) :
  (forall c, convert_to_currency ops pm c [] = []) ->
  net_worth_loop ops pm cs [] acc = acc.
Proof.
  intros Hconv. induction cs as [|c cs IH]; cbn [net_worth_loop];
    [reflexivity|].
  now rewrite Hconv.
Qed.

(** With a converter that maps no holdings to no holdings, once the
    aggregates of one operating currency are all discarded (or the ledger
    has no holdings at all), no later currency gets a row: the table ends
    with the rows reported so far. *)
Theorem net_worth_stops_when_empty :
  forall (ops : Ops) (L : Ledger),
    (forall c, convert_to_currency ops (price_map L) c [] = []) ->
    (final_holdings L = [] ->
     table_rows (NetWorthReport_generate_table ops L) = [])
    /\ (forall c rest h0 converted,
           operating_currency L = c :: rest ->
           convert_to_currency ops (price_map L) c (final_holdings L)
           = h0 :: converted ->
           filter (fun holding =>
                     opt_str_truthy (currency holding)
                     && opt_str_truthy (cost_currency holding))
                  (aggregate_holdings_by ops (h0 :: converted) cost_currency)
           = [] ->
           table_rows (NetWorthReport_generate_table ops L) = []).
Proof.
  intros ops L Hconv.
  unfold NetWorthReport_generate_table, get_assets_holdings.
  cbn [table_rows]. split.
  - intros ->. now apply net_worth_loop_empty.
  - intros c rest h0 converted Hop Hc Hf. rewrite Hop.
    cbn [net_worth_loop]. rewrite Hc, Hf. now apply net_worth_loop_empty.
Qed.

Lemma net_worth_stops_when_empty_witness :
  (forall c, convert_to_currency spec_ops (price_map ledger_without_holdings)
                                 c [] = [])
  /\ table_rows (NetWorthReport_generate_table spec_ops
                                               ledger_without_holdings) = [].
Proof.
  assert (H : forall c,
             convert_to_currency spec_ops (price_map ledger_without_holdings)
                                 c [] = []) by reflexivity.
  split; [exact H|].
  exact (proj1 (net_worth_stops_when_empty spec_ops ledger_without_holdings H)
               eq_refl).
Defined.

(** ** The CSV loader: errors and fields *)

Lemma read_line_Raise (D : string -> option Decimal)
      (acs : list (attr * converter)) :
  forall (line : list string) (h : Holding) (e : exn),
    read_line D acs line h = Raise e ->
    e = ValueError /\ exists v, In v line /\ D v = None.
Proof.
  induction acs as [|[a conv] acs IH]; intros line h e; cbn [read_line];
    [discriminate|].
  destruct line as [|v line]; [discriminate|].
  destruct conv.
  - intros H. apply IH in H as (-> & w & Hw & HD).
    split; [reflexivity|]. exists w. split; [now right | exact HD].
  - destruct (D v) eqn:HD.
    + intros H. apply IH in H as (-> & w & Hw & HDw).
      split; [reflexivity|]. exists w. split; [now right | exact HDw].
    + intros [= <-]. split; [reflexivity|]. exists v. split; [now left | exact HD].
Qed.

Lemma read_lines_outcome (D : string -> option Decimal)
      (acs : list (attr * converter)) (lines : list (list string)) :
  match read_lines D acs lines with
  | Ok hs => Forall2 (fun line h => read_line D acs line defaults_dict = Ok h)
                     lines hs
  | Raise e => e = ValueError
               /\ exists line v, In line lines /\ In v line /\ D v = None
  end.
Proof.
  induction lines as [|line lines IH]; cbn [read_lines]; [constructor|].
  destruct (read_line D acs line defaults_dict) as [h|e] eqn:R; cbn [bind].
  - destruct (read_lines D acs lines) as [hs|e]; cbn [bind].
    + now constructor.
    + destruct IH as (-> & l & v & Hl & Hv & HD).
      split; [reflexivity|]. exists l, v. split; [now right | now split].
  - apply read_line_Raise in R as (-> & v & Hv & HD).
    split; [reflexivity|]. exists line, v. split; [now left | now split].
Qed.

Lemma dict_lookup_In {V : Type} (d : list (string * V)) (k : string) (v : V) :
  dict_lookup d k = Some v -> In (k, v) d.
Proof.
  induction d as [|[k' v'] d IH]; cbn; [discriminate|].
  destruct (dict_lookup d k) as [w|].
  - intros [= ->]. right. now apply IH.
  - destruct (String.eqb_spec k' k) as [->|_]; [|discriminate].
    intros [= ->]. now left.
Qed.

Lemma column_dict_entry (name : string) (a : attr) (conv : converter) :
  dict_lookup column_dict name = Some (a, conv) ->
  name = attr_name a /\ conv = attr_converter a.
Proof.
  intros H. apply dict_lookup_In in H. cbn in H.
  repeat (destruct H as [[= <- <- <-]|H]; [now split|]).
  destruct H.
Qed.

Lemma attr_name_inj (a b : attr) : attr_name a = attr_name b -> a = b.
Proof. destruct a, b; cbn; intros H; try reflexivity; discriminate H. Qed.

Lemma set_attr_same (D : string -> option Decimal) (a : attr) (v : string)
      (cl : cell) (h : Holding) :
  converted D (attr_converter a) v = Some cl ->
  get_attr a (set_attr a cl h) = Some cl.
Proof.
  destruct a; cbn; try (intros [= <-]; reflexivity);
    destruct (D v); cbn; intros [= <-]; reflexivity.
Qed.

Lemma set_attr_other (a b : attr) (cl : cell) (h : Holding) :
  a <> b -> get_attr b (set_attr a cl h) = get_attr b h.
Proof. destruct a, b, cl; cbn; intros H; try reflexivity; congruence. Qed.

Lemma read_line_step (D : string -> option Decimal) (a : attr)
      (acs : list (attr * converter)) (v : string) (line : list string)
      (h0 h : Holding) :
  read_line D ((a, attr_converter a) :: acs) (v :: line) h0 = Ok h ->
  exists cl, converted D (attr_converter a) v = Some cl
             /\ read_line D acs line (set_attr a cl h0) = Ok h.
Proof.
  cbn [read_line]. unfold converted. destruct (attr_converter a).
  - intros H. now exists (CStr v).
  - destruct (D v) as [d|]; [|discriminate].
    intros H. now exists (CDec d).
Qed.

(** What one data line leaves in each attribute, for columns with distinct
    attributes. *)
Lemma read_line_get (D : string -> option Decimal)
      (acs : list (attr * converter)) :
  Forall (fun ac => snd ac = attr_converter (fst ac)) acs ->
  NoDup (map fst acs) ->
  forall (line : list string) (h0 h : Holding),
    read_line D acs line h0 = Ok h ->
    forall a,
      (forall i, nth_error (map fst acs) i = Some a ->
                 get_attr a h
                 = match nth_error line i with
                   | Some v => converted D (attr_converter a) v
                   | None => get_attr a h0
                   end)
      /\ (~ In a (map fst acs) -> get_attr a h = get_attr a h0).
Proof.
  induction 1 as [|[a0 c0] acs Hty _ IH]; intros Hnd line h0 h Hr a.
  - cbn in Hr. injection Hr as <-. split; [|reflexivity].
    intros [|i]; discriminate.
  - cbn [fst snd] in Hty. subst c0. cbn [map fst] in *.
    inversion Hnd as [|? ? Hnotin Hnd']; subst.
    destruct line as [|v line].
    + cbn in Hr. injection Hr as <-. split; [|reflexivity].
      intros i _. now destruct i.
    + apply read_line_step in Hr as (cl & Hcl & Hr).
      specialize (IH Hnd' line _ h Hr). split.
      * intros [|i] Hi; cbn [nth_error] in *.
        -- injection Hi as <-.
           rewrite (proj2 (IH a0) Hnotin), Hcl.
           now apply set_attr_same with (D := D) (v := v).
        -- rewrite (proj1 (IH a) i Hi).
           destruct (nth_error line i); [reflexivity|].
           apply set_attr_other. intros ->. apply Hnotin.
           now apply nth_error_In with i.
      * intros Hn.
        rewrite (proj2 (IH a)) by (intros Hin; apply Hn; now right).
        apply set_attr_other. intros ->. apply Hn. now left.
Qed.

Lemma read_header_columns (header : list string)
      (acs : list (attr * converter)) :
  read_header header = Ok acs ->
  header = map attr_name (map fst acs)
  /\ Forall (fun ac => snd ac = attr_converter (fst ac)) acs.
Proof.
  intros H. apply read_header_Ok in H as [_ HF].
  induction HF as [|name [a c] header acs Hl _ [IH1 IH2]].
  - split; [reflexivity | constructor].
  - apply column_dict_entry in Hl as [-> ->]. cbn [map fst].
    split; [now rewrite IH1 | now constructor].
Qed.




(** For a header with distinct, recognized names: in every loaded holding,
    the attribute of a column holds the cell of that column (a string, or
    the decimal that the parser gives for it); it is [None] when the line is
    too short to have that cell, and every attribute that no column names
    is [None].  Cells beyond the last column are ignored. *)
Theorem load_from_csv_fields :
  forall (D : string -> option Decimal) (generator_stop : bool)
         (header : list string) (lines : list (list string))
         (hs : list Holding),
    load_from_csv D generator_stop (header :: lines) = Ok hs ->
    NoDup header ->
    Forall2
      (fun line h =>
         forall a,
           (forall i, nth_error header i = Some (attr_name a) ->
                      get_attr a h
                      = match nth_error line i with
                        | Some v => converted D (attr_converter a) v
                        | None => None
                        end)
           /\ (~ In (attr_name a) header -> get_attr a h = None))
      lines hs.
Proof.
  intros D generator_stop header lines hs Hload Hnd.
  cbn [load_from_csv] in Hload.
  destruct (read_header header) as [acs|e] eqn:R; cbn [bind] in Hload;
    [|discriminate].
  apply read_header_columns in R as [Hh Hty]. subst header.
  assert (Hnd' : NoDup (map fst acs)).
  { apply NoDup_map_inv in Hnd. exact Hnd. }
  pose proof (read_lines_outcome D acs lines) as H. rewrite Hload in H.
  eapply Forall2_impl; [|exact H]. cbn beta.
  intros line h Hr a.
  destruct (read_line_get D acs Hty Hnd' line defaults_dict h Hr a)
    as [Hcol Habs].
  assert (Hdef : get_attr a defaults_dict = None) by now destruct a.
  rewrite Hdef in *. split.
  - intros i Hi. apply Hcol.
    rewrite nth_error_map in Hi.
    destruct (nth_error (map fst acs) i) as [b|]; [|discriminate].
    cbn in Hi. injection Hi as Hi. apply attr_name_inj in Hi. now subst.
  - intros Hn. apply Habs. intros Hin. apply Hn. now apply in_map.
Qed.

Lemma load_from_csv_fields_witness :
  load_from_csv parse_decimal true
    [ ["Account"; "Units"; "Currency"];
      ["Assets:Broker"; "10"; "AAA"; "ignored"];
      ["Assets:Bank"] ]
  = Ok [ mkHolding (Some "Assets:Broker") (Some (10 # 1)) (Some "AAA")
                   None None None None None None;
         mkHolding (Some "Assets:Bank") None None
                   None None None None None None ]
  /\ NoDup ["Account"; "Units"; "Currency"]
  /\ Forall2
       (fun line h =>
          forall a,
            (forall i, nth_error ["Account"; "Units"; "Currency"] i
                       = Some (attr_name a) ->
                       get_attr a h
                       = match nth_error line i with
                         | Some v =>
                             converted parse_decimal (attr_converter a) v
                         | None => None
                         end)
            /\ (~ In (attr_name a) ["Account"; "Units"; "Currency"] ->
                get_attr a h = None))
       [ ["Assets:Broker"; "10"; "AAA"; "ignored"]; ["Assets:Bank"] ]
       [ mkHolding (Some "Assets:Broker") (Some (10 # 1)) (Some "AAA")
                   None None None None None None;
         mkHolding (Some "Assets:Bank") None None
                   None None None None None None ].
Proof.
  assert (H : load_from_csv parse_decimal true
                [ ["Account"; "Units"; "Currency"];
                  ["Assets:Broker"; "10"; "AAA"; "ignored"];
                  ["Assets:Bank"] ]
              = Ok [ mkHolding (Some "Assets:Broker") (Some (10 # 1))
                               (Some "AAA") None None None None None None;
                     mkHolding (Some "Assets:Bank") None None
                               None None None None None None ])
    by reflexivity.
  assert (Hnd : NoDup ["Account"; "Units"; "Currency"]).
  { repeat constructor; cbn; intros Hin;
      repeat (destruct Hin as [Hin|Hin]; [discriminate Hin|]); exact Hin. }
  split; [exact H|]. split; [exact Hnd|].
  exact (load_from_csv_fields _ _ _ _ _ H Hnd).
Defined.

(** ** Sorting in [report_holdings] *)

Lemma insert_desc_Permutation {A : Type} (key : A -> Decimal) (x : A)
      (l : list A) :
  Permutation (insert_desc key x l) (x :: l).
Proof.
  induction l as [|y l IH]; cbn; [reflexivity|].
  destruct (Qle_bool (key y) (key x)); [reflexivity|].
  rewrite IH. apply perm_swap.
Qed.

Lemma sort_reverse_Permutation {A : Type} (key : A -> Decimal) (l : list A) :
  Permutation (sort_reverse key l) l.
Proof.
  unfold sort_reverse. induction l as [|x l IH]; cbn; [constructor|].
  rewrite insert_desc_Permutation. now constructor.
Qed.

Lemma insert_desc_Forall {A : Type} (P : A -> Prop) (key : A -> Decimal)
      (x : A) (l : list A) :
  P x -> Forall P l -> Forall P (insert_desc key x l).
Proof.
  intros Hx Hl. eapply Permutation_Forall;
    [apply Permutation_sym, insert_desc_Permutation | now constructor].
Qed.

Lemma insert_desc_sorted {A : Type} (key : A -> Decimal) (x : A)
      (l : list A) :
  StronglySorted (fun a b => key b <= key a)%Q l ->
  StronglySorted (fun a b => key b <= key a)%Q (insert_desc key x l).
Proof.
  induction 1 as [|y l Hs IH Hy]; cbn; [repeat constructor|].
  destruct (Qle_bool (key y) (key x)) eqn:E.
  - apply Qle_bool_iff in E. constructor; [now constructor|].
    constructor; [exact E|].
    eapply Forall_impl; [|exact Hy]. cbn. intros z Hz.
    now apply Qle_trans with (key y).
  - constructor; [exact IH|].
    apply insert_desc_Forall; [|exact Hy].
    apply Qlt_le_weak, Qnot_le_lt. intros Hle.
    apply Qle_bool_iff in Hle. congruence.
Qed.

Lemma sort_reverse_sorted {A : Type} (key : A -> Decimal) (l : list A) :
  StronglySorted (fun a b => key b <= key a)%Q (sort_reverse key l).
Proof.
  unfold sort_reverse. induction l as [|x l IH]; cbn; [constructor|].
  now apply insert_desc_sorted.
Qed.

Lemma insert_desc_stable {A : Type} (key : A -> Decimal) (k : Decimal)
      (x : A) (l : list A) :
  filter (fun a => Qeq_bool (key a) k) (insert_desc key x l)
  = filter (fun a => Qeq_bool (key a) k) (x :: l).
Proof.
  induction l as [|y l IH]; [reflexivity|].
  cbn [insert_desc]. destruct (Qle_bool (key y) (key x)) eqn:E;
    [reflexivity|].
  cbn [filter] in *. rewrite IH.
  destruct (Qeq_bool (key x) k) eqn:Ex; [|reflexivity].
  destruct (Qeq_bool (key y) k) eqn:Ey; [|reflexivity].
  apply Qeq_bool_iff in Ex, Ey.
  assert (Hle : Qle_bool (key y) (key x) = true).
  { apply Qle_bool_iff. rewrite Ex, Ey. apply Qle_refl. }
  congruence.
Qed.

Lemma sort_reverse_stable {A : Type} (key : A -> Decimal) (k : Decimal)
      (l : list A) :
  filter (fun a => Qeq_bool (key a) k) (sort_reverse key l)
  = filter (fun a => Qeq_bool (key a) k) l.
Proof.
  unfold sort_reverse. induction l as [|x l IH]; [reflexivity|].
  cbn [fold_right]. rewrite insert_desc_stable. cbn [filter].
  now rewrite IH.
Qed.

(** With a sort key, as for the grouping by root account, the rows of the
    holdings table are the rows of the unsorted table rearranged so that
    the keys never increase, and rows with equal keys keep the order they
    had; the field spec is not affected. *)
Theorem report_holdings_sorted :
  forall (ops : Ops) (cur : option string) (relative : bool) (L : Ledger)
         (aggregation_key : option (Holding -> option string))
         (key : Holding -> Decimal),
    Permutation
      (table_rows (report_holdings ops cur relative L aggregation_key
                                   (Some key)))
      (table_rows (report_holdings ops cur relative L aggregation_key None))
    /\ StronglySorted
         (fun a b => key b <= key a)%Q
         (table_rows (report_holdings ops cur relative L aggregation_key
                                      (Some key)))
    /\ (forall k,
           filter (fun h => Qeq_bool (key h) k)
                  (table_rows (report_holdings ops cur relative L
                                               aggregation_key (Some key)))
           = filter (fun h => Qeq_bool (key h) k)
                    (table_rows (report_holdings ops cur relative L
                                                 aggregation_key None)))
    /\ table_field_spec (report_holdings ops cur relative L aggregation_key
                                         (Some key))
       = table_field_spec (report_holdings ops cur relative L aggregation_key
                                           None).
Proof.
  intros ops cur relative L aggregation_key key. unfold report_holdings.
  destruct (get_assets_holdings ops L cur) as [holdings_list pm].
  destruct relative; cbn [table_rows table_field_spec];
    (split; [apply sort_reverse_Permutation|];
     split; [apply sort_reverse_sorted|];
     split; [intros k; apply sort_reverse_stable | reflexivity]).
Qed.

(** ** The cash report *)

Lemma filter_filter {A : Type} (f g : A -> bool) (l : list A) :
  filter g (filter f l) = filter (fun x => f x && g x) l.
Proof.
  induction l as [|x l IH]; cbn; [reflexivity|].
  destruct (f x); cbn; [|exact IH]. destruct (g x); now rewrite IH.
Qed.

Lemma cash_conversion_spec (ops : Ops) (args : CashArgs) (L : Ledger)
      (hs : list Holding) :
  match cash_args_currency args with
  | Some c => if str_truthy c
              then convert_to_currency ops (price_map L) c hs
              else hs
  | None => hs
  end = cash_conversion ops args L hs.
Proof.
  unfold cash_conversion. destruct (cash_args_currency args) as [c|]; cbn;
    [|reflexivity].
  now destruct (str_truthy c).
Qed.

(** Without [--ignored], the rows of the cash report are, in the order of
    the ledger, exactly the holdings whose currency is their cost currency
    or that have no cost currency, restricted under [--operating-only] to
    the holdings in an operating currency, and then converted when
    [--currency] is given; the columns are those of [FIELD_SPEC]. *)
Theorem cash_report_rows :
  forall (ops : Ops) (iteration : list Holding -> list Holding)
         (args : CashArgs) (L : Ledger),
    cash_args_ignored args = false ->
    table_rows (CashReport_generate_table ops iteration args L)
    = cash_conversion ops args L
        (filter (is_reported_cash args L) (final_holdings L))
    /\ Forall (fun h =>
                 (currency h = cost_currency h \/ cost_currency h = None)
                 /\ (cash_args_operating_only args = true ->
                     exists c, currency h = Some c
                               /\ In c (operating_currency L)))
              (filter (is_reported_cash args L) (final_holdings L))
    /\ table_field_spec (CashReport_generate_table ops iteration args L)
       = FIELD_SPEC.
Proof.
  intros ops iteration args L Hi.
  unfold CashReport_generate_table, get_assets_holdings.
  rewrite Hi, cash_conversion_spec. cbn [table_rows table_field_spec].
  split; [|split; [|reflexivity]].
  - f_equal. unfold is_reported_cash.
    destruct (cash_args_operating_only args); cbn [negb orb].
    + apply filter_filter.
    + apply filter_ext. intros h. now rewrite andb_true_r.
  - apply Forall_forall. intros h Hin. apply filter_In in Hin as [_ Hk].
    unfold is_reported_cash in Hk. apply andb_true_iff in Hk as [Hc Ho].
    split.
    + unfold is_cash_holding in Hc. apply orb_true_iff in Hc as [Hc|Hc].
      * left. now apply opt_str_eqb_eq.
      * right. now apply is_None_iff.
    + intros Hop. rewrite Hop in Ho. cbn in Ho.
      unfold in_operating_currencies in Ho.
      destruct (currency h) as [c|]; [|discriminate].
      exists c. split; [reflexivity|].
      apply existsb_exists in Ho as (c' & Hin' & E).
      apply String.eqb_eq in E. now subst.
Qed.

Lemma cash_report_rows_witness :
  cash_args_ignored (mkCashArgs None false true) = false
  /\ table_rows (CashReport_generate_table spec_ops (fun l => l)
                   (mkCashArgs None false true) ledger_for_cash)
     = [cash "Assets:Bank" "USD" 250].
Proof.
  split; [reflexivity|].
  rewrite (proj1 (cash_report_rows spec_ops (fun l => l)
                    (mkCashArgs None false true) ledger_for_cash eq_refl)).
  reflexivity.
Defined.

Lemma opt_dec_eqb_refl (a : option Decimal) : opt_dec_eqb a a = true.
Proof. destruct a; cbn; [now apply Qeq_bool_iff | reflexivity]. Qed.

Lemma opt_str_eqb_refl (a : option string) : opt_str_eqb a a = true.
Proof. now apply opt_str_eqb_eq. Qed.

Lemma holding_eqb_refl (h : Holding) : holding_eqb h h = true.
Proof.
  unfold holding_eqb. now rewrite !opt_str_eqb_refl, !opt_dec_eqb_refl.
Qed.

(** Equal holdings have the same currencies, so the report keeps both or
    neither. *)
Lemma holding_eqb_reported (args : CashArgs) (L : Ledger) (a b : Holding) :
  holding_eqb a b = true -> is_reported_cash args L a = is_reported_cash args L b.
Proof.
  unfold holding_eqb. rewrite !andb_true_iff.
  intros [[[[[[[[_ _] Hc] Hcc] _] _] _] _] _].
  apply opt_str_eqb_eq in Hc, Hcc.
  unfold is_reported_cash, is_cash_holding, in_operating_currencies.
  now rewrite Hc, Hcc.
Qed.

Lemma set_add_incl {A : Type} (eqb : A -> A -> bool) (x y : A) (s : list A) :
  In y (set_add eqb x s) -> In y s \/ y = x.
Proof.
  unfold set_add. destruct (existsb (eqb x) s); [now left|].
  rewrite in_app_iff. cbn. intuition congruence.
Qed.

Lemma set_add_keeps {A : Type} (eqb : A -> A -> bool) (x y : A) (s : list A) :
  In y s -> In y (set_add eqb x s).
Proof.
  unfold set_add. destruct (existsb (eqb x) s); [tauto|].
  intros H. apply in_app_iff. now left.
Qed.

Lemma set_add_NoDup_refl {A : Type} (eqb : A -> A -> bool)
      (Hrefl : forall a, eqb a a = true) (x : A) (s : list A) :
  NoDup s -> NoDup (set_add eqb x s).
Proof.
  intros Hnd. unfold set_add. destruct (existsb (eqb x) s) eqn:E; [exact Hnd|].
  apply NoDup_app; [exact Hnd | repeat constructor; intros [] |].
  intros a Ha Hx. cbn in Hx. destruct Hx as [<-|[]].
  assert (existsb (eqb x) s = true); [|congruence].
  apply existsb_exists. exists x. split; [exact Ha | apply Hrefl].
Qed.

Lemma set_add_has {A : Type} (eqb : A -> A -> bool)
      (Hrefl : forall a, eqb a a = true) (x : A) (s : list A) :
  exists r, In r (set_add eqb x s) /\ eqb x r = true.
Proof.
  unfold set_add. destruct (existsb (eqb x) s) eqn:E.
  - apply existsb_exists in E as (z & Hz & Ez). now exists z.
  - exists x. split; [|apply Hrefl]. apply in_app_iff. right. now left.
Qed.

Lemma fold_set_add_keeps (l : list Holding) :
  forall s y,
    In y s -> In y (fold_left (fun s x => set_add holding_eqb x s) l s).
Proof.
  induction l as [|x l IH]; intros s y Hy; cbn [fold_left]; [exact Hy|].
  apply IH. now apply set_add_keeps.
Qed.

Lemma set_from_spec (l : list Holding) :
  forall seen,
    (forall y, In y (fold_left (fun s x => set_add holding_eqb x s) l seen) ->
               In y seen \/ In y l)
    /\ (forall y, In y l ->
                  exists r, In r (fold_left (fun s x => set_add holding_eqb x s)
                                            l seen)
                            /\ holding_eqb y r = true)
    /\ (NoDup seen ->
        NoDup (fold_left (fun s x => set_add holding_eqb x s) l seen)).
Proof.
  induction l as [|x l IH]; intros seen; cbn [fold_left].
  - split; [tauto|]. split; [intros y []|tauto].
  - destruct (IH (set_add holding_eqb x seen)) as (H1 & H2 & H3).
    split; [|split].
    + intros y Hy. apply H1 in Hy as [Hy|Hy]; [|right; now right].
      apply set_add_incl in Hy as [Hy| ->]; [now left | right; now left].
    + intros y [<-|Hy]; [|now apply H2].
      destruct (set_add_has holding_eqb holding_eqb_refl x seen)
        as (r & Hr & Er).
      exists r. split; [now apply fold_set_add_keeps | exact Er].
    + intros Hnd. apply H3. apply set_add_NoDup_refl;
        [apply holding_eqb_refl | exact Hnd].
Qed.

(** With [--ignored], whatever the order in which the set of ignored
    holdings is traversed, the rows of the cash report (before the
    conversion that [--currency] asks for) are holdings of the ledger that
    the report would not keep, without repetition, and every holding that
    the report would not keep is equal to one of them. *)
Theorem cash_report_ignored_rows :
  forall (ops : Ops) (iteration : list Holding -> list Holding)
         (args : CashArgs) (L : Ledger),
    (forall l, Permutation (iteration l) l) ->
    cash_args_ignored args = true ->
    exists rows,
      table_rows (CashReport_generate_table ops iteration args L)
      = cash_conversion ops args L rows
      /\ (forall h, In h rows ->
                    In h (final_holdings L)
                    /\ is_reported_cash args L h = false)
      /\ (forall h, In h (final_holdings L) ->
                    is_reported_cash args L h = false ->
                    exists r, In r rows /\ holding_eqb h r = true)
      /\ NoDup rows.
Proof.
  intros ops iteration args L Hperm Hi.
  unfold CashReport_generate_table, get_assets_holdings.
  rewrite Hi, cash_conversion_spec. cbn [table_rows].
  set (kept := if cash_args_operating_only args
               then filter (in_operating_currencies (operating_currency L))
                           (filter is_cash_holding (final_holdings L))
               else filter is_cash_holding (final_holdings L)).
  assert (Hkept : kept = filter (is_reported_cash args L) (final_holdings L)).
  { unfold kept, is_reported_cash.
    destruct (cash_args_operating_only args); cbn [negb orb].
    - apply filter_filter.
    - apply filter_ext. intros h. now rewrite andb_true_r. }
  rewrite Hkept. clear kept Hkept.
  eexists. split; [reflexivity|].
  destruct (set_from_spec (final_holdings L) []) as (Ho1 & Ho2 & Ho3).
  destruct (set_from_spec (filter (is_reported_cash args L) (final_holdings L))
                          []) as (Hk1 & Hk2 & _).
  fold (set_of_list (final_holdings L)) in Ho1, Ho2, Ho3.
  fold (set_of_list (filter (is_reported_cash args L) (final_holdings L)))
    in Hk1, Hk2.
  split; [|split].
  - intros h Hin. apply (Permutation_in _ (Hperm _)) in Hin.
    apply filter_In in Hin as [Hin Hnot].
    apply Ho1 in Hin as [[]|Hin]. split; [exact Hin|].
    destruct (is_reported_cash args L h) eqn:Hk; [|reflexivity].
    destruct (Hk2 h) as (r & Hr & Er).
    { apply filter_In. now split. }
    apply negb_true_iff in Hnot.
    assert (existsb (holding_eqb h)
              (set_of_list (filter (is_reported_cash args L)
                                   (final_holdings L))) = true);
      [|congruence].
    apply existsb_exists. now exists r.
  - intros h Hin Hk.
    destruct (Ho2 h Hin) as (r & Hr & Er).
    exists r. split; [|exact Er].
    apply (Permutation_in _ (Permutation_sym (Hperm _))).
    apply filter_In. split; [exact Hr|].
    apply negb_true_iff.
    destruct (existsb _ _) eqn:Ex; [|reflexivity].
    apply existsb_exists in Ex as (k & Hkin & Ek).
    apply Hk1 in Hkin as [[]|Hkin]. apply filter_In in Hkin as [_ Hkk].
    rewrite (holding_eqb_reported args L _ _ Er) in Hk.
    rewrite (holding_eqb_reported args L _ _ Ek) in Hk. congruence.
  - eapply Permutation_NoDup; [apply Permutation_sym, Hperm|].
    apply NoDup_filter. apply Ho3. constructor.
Qed.

Lemma cash_report_ignored_rows_witness :
  (forall l : list Holding, Permutation ((fun l => l) l) l)
  /\ cash_args_ignored (mkCashArgs None true false) = true
  /\ table_rows (CashReport_generate_table spec_ops (fun l => l)
                   (mkCashArgs None true false) ledger_for_cash)
     = [stock "Assets:Broker" "AAA" "USD" 10 100 110]
  /\ exists rows,
      table_rows (CashReport_generate_table spec_ops (fun l => l)
                    (mkCashArgs None true false) ledger_for_cash)
      = cash_conversion spec_ops (mkCashArgs None true false)
                        ledger_for_cash rows
      /\ NoDup rows.
Proof.
  assert (Hp : forall l : list Holding, Permutation ((fun l => l) l) l)
    by (intros l; apply Permutation_refl).
  split; [exact Hp|]. split; [reflexivity|]. split; [reflexivity|].
  destruct (cash_report_ignored_rows spec_ops (fun l => l)
              (mkCashArgs None true false) ledger_for_cash Hp eq_refl)
    as (rows & Hrows & _ & _ & Hnd).
  exists rows. split; [exact Hrows | exact Hnd].
Defined.

(** ** The holdings as entries, and the beancount format *)

Section DirectivesFacts.

Variables Position Cost Directive : Type.
Variable ops : Ops.
Variable V : EntriesView Position Cost Directive.

Lemma holdings_entries_loop_spec (date : string) (hs : list Holding) :
  forall i : nat,
    Forall2
      (fun ih e =>
         e = TransactionEntry
               ("report_holdings_print", Z.of_nat (fst ih)) date
               (FLAG_SUMMARIZE V)
               [ mkPosting (account (snd ih))
                           (inl (holding_to_position V (snd ih)));
                 mkPosting (Some (equity_account V))
                           (inr (negated_cost V
                                   (holding_to_position V (snd ih)))) ])
      (enumerate_from i hs)
      (holdings_entries_loop V date (Z.of_nat i) hs).
Proof.
  induction hs as [|h hs IH]; intros i; [constructor|].
  rewrite enumerate_from_cons. cbn [holdings_entries_loop].
  constructor; [reflexivity|].
  replace (Z.of_nat i + 1)%Z with (Z.of_nat (S i)) by lia. apply IH.
Qed.

(** [get_holdings_entries] raises [IndexError] exactly when there is no
    entry.  Otherwise it returns, in this order: an [Open] directive for the
    equity account; the [Open] directives of the accounts that have a
    holding, and no other; one transaction per holding, in the order of the
    holdings and numbered from zero, with a posting of the position to the
    account of the holding and a posting of its negated cost to the equity
    account; and the latest price entries.  Every directive that it builds
    is dated at the latest date. *)
Theorem get_holdings_entries_structure :
  match get_holdings_entries ops V with
  | RaisesIndexError => latest_date V = None
  | Raises _ => False
  | Returns es =>
      exists date opens txns,
        latest_date V = Some date
        /\ es = (OpenEntry ("report_holdings_print", (-1)%Z) date
                           (equity_account V)
                 :: opens ++ txns
                 ++ map ExistingEntry (last_price_entries V))%list
        /\ (forall e,
               In e opens <->
               exists meta d a h,
                 e = OpenEntry meta d a
                 /\ In (meta, d, a) (open_entries V)
                 /\ In h (final_holdings (view_ledger V))
                 /\ account h = Some a)
        /\ Forall2
             (fun ih e =>
                e = TransactionEntry
                      ("report_holdings_print", Z.of_nat (fst ih)) date
                      (FLAG_SUMMARIZE V)
                      [ mkPosting (account (snd ih))
                                  (inl (holding_to_position V (snd ih)));
                        mkPosting (Some (equity_account V))
                                  (inr (negated_cost V
                                          (holding_to_position V (snd ih)))) ])
             (enumerate_from 0 (final_holdings (view_ledger V)))
             txns
  end.
Proof.
  unfold get_holdings_entries, get_assets_holdings.
  destruct (latest_date V) as [date|]; [|reflexivity].
  eexists date, _, _. split; [reflexivity|].
  split; [reflexivity|]. split; [|apply (holdings_entries_loop_spec date _ 0)].
  intros e. rewrite in_map_iff. split.
  - intros ([[meta d] a] & <- & Hin). apply filter_In in Hin as [Hin Hex].
    apply existsb_exists in Hex as (oa & Hoa & E).
    apply opt_str_eqb_eq in E. subst oa.
    apply in_map_iff in Hoa as (h & Hacc & Hh).
    now exists meta, d, a, h.
  - intros (meta & d & a & h & -> & Hin & Hh & Hacc).
    exists (meta, d, a). split; [reflexivity|].
    apply filter_In. split; [exact Hin|].
    apply existsb_exists. exists (Some a). split.
    + apply in_map_iff. now exists h.
    + apply opt_str_eqb_refl.
Qed.

(** The beancount format is refused, with a message that names the option,
    when the report has a currency, or else is relative, or else is
    grouped; only a report with none of the three options hands the
    holdings entries to the printer. *)
Theorem render_beancount_options :
  forall self : HoldingsReport,
    match HoldingsReport_render_beancount ops self V with
    | Raises (SystemExit msg) =>
        (opt_str_truthy (args_currency (self_args self)) = true
         /\ msg = "'beancount' format does not support --currency option")
        \/ (opt_str_truthy (args_currency (self_args self)) = false
            /\ args_relative (self_args self) = true
            /\ msg = "'beancount' format does not support --relative option")
        \/ (opt_str_truthy (args_currency (self_args self)) = false
            /\ args_relative (self_args self) = false
            /\ args_groupby (self_args self) <> None
            /\ msg = "'beancount' format does not support --groupby option")
    | Raises _ => False
    | Returns es =>
        opt_str_truthy (args_currency (self_args self)) = false
        /\ args_relative (self_args self) = false
        /\ args_groupby (self_args self) = None
        /\ get_holdings_entries ops V = Returns es
    | RaisesIndexError =>
        opt_str_truthy (args_currency (self_args self)) = false
        /\ args_relative (self_args self) = false
        /\ args_groupby (self_args self) = None
        /\ latest_date V = None
    end.
Proof.
  intros self. unfold HoldingsReport_render_beancount.
  cbn [check_no_aggregation]. unfold getattr_truthy. cbn [String.eqb].
  change (String.eqb "currency" "currency") with true.
  change (String.eqb "relative" "currency") with false.
  change (String.eqb "relative" "relative") with true.
  change (String.eqb "groupby" "currency") with false.
  change (String.eqb "groupby" "relative") with false.
  change (String.eqb "groupby" "groupby") with true.
  cbv iota.
  destruct (opt_str_truthy (args_currency (self_args self))).
  { left. split; reflexivity. }
  destruct (args_relative (self_args self)).
  { right; left. repeat split; reflexivity. }
  destruct (args_groupby (self_args self)) as [g|] eqn:Hg; cbn [is_None negb].
  { right; right. repeat split; try reflexivity. discriminate. }
  unfold get_holdings_entries, get_assets_holdings.
  destruct (latest_date V) as [date|]; repeat split; reflexivity.
Qed.

End DirectivesFacts.

Example get_holdings_entries_ex :
  get_holdings_entries spec_ops example_view
  = Returns
      [ OpenEntry ("report_holdings_print", (-1)%Z) "2014-03-07"
                  "Equity:Opening-Balances";
        OpenEntry ("ledger.beancount", 1%Z) "2014-01-01" "Assets:Bank";
        OpenEntry ("ledger.beancount", 2%Z) "2014-01-01" "Assets:Broker";
        TransactionEntry ("report_holdings_print", 0%Z) "2014-03-07" "S"
          [ mkPosting (Some "Assets:Bank") (inl (cash "Assets:Bank" "USD" 250));
            mkPosting (Some "Equity:Opening-Balances")
                      (inr (cash "Assets:Bank" "USD" 250)) ];
        TransactionEntry ("report_holdings_print", 1%Z) "2014-03-07" "S"
          [ mkPosting (Some "Assets:Broker")
                      (inl (stock "Assets:Broker" "AAA" "USD" 10 100 110));
            mkPosting (Some "Equity:Opening-Balances")
                      (inr (stock "Assets:Broker" "AAA" "USD" 10 100 110)) ];
        ExistingEntry "2014-03-06 price AAA 110 USD" ].
Proof. reflexivity. Qed.

(** ** [render_ofx_date] *)

Lemma string_length_append (a b : string) :
  String.length (a ++ b) = (String.length a + String.length b)%nat.
Proof. induction a as [|c a IH]; cbn; [reflexivity | now rewrite IH]. Qed.

Lemma append_inj_length (a a' b b' : string) :
  String.length a = String.length a' ->
  a ++ b = a' ++ b' -> a = a' /\ b = b'.
Proof.
  revert a'. induction a as [|c a IH]; intros [|c' a'] Hlen H;
    try discriminate Hlen.
  - now split.
  - cbn in Hlen, H. injection H as -> H. injection Hlen as Hlen.
    destruct (IH _ Hlen H) as [-> ->]. now split.
Qed.

(** A number below [10 ^ width] is padded to exactly [width] digits, and
    the digits give the number back. *)
Lemma zero_pad_decode (width n : nat) :
  (width = 2 /\ n < 100 \/ width = 3 /\ n < 1000)%nat ->
  String.length (zero_pad width n) = width
  /\ digits_value (zero_pad width n) 0 = n.
Proof.
  assert (H : forall w bound,
             forallb (fun n => (String.length (zero_pad w n) =? w)%nat
                               && (digits_value (zero_pad w n) 0 =? n)%nat)
                     (seq 0 bound) = true ->
             forall n, (n < bound)%nat ->
                       String.length (zero_pad w n) = w
                       /\ digits_value (zero_pad w n) 0 = n).
  { intros w bound Hall m Hm. rewrite forallb_forall in Hall.
    specialize (Hall m). rewrite in_seq in Hall.
    assert (Hin : (0 <= m < 0 + bound)%nat) by lia.
    apply Hall in Hin. apply andb_true_iff in Hin as [H1 H2].
    apply Nat.eqb_eq in H1, H2. now split. }
  intros [[-> Hn]|[-> Hn]].
  - apply (H 2%nat 100%nat); [vm_compute; reflexivity | exact Hn].
  - apply (H 3%nat 1000%nat); [vm_compute; reflexivity | exact Hn].
Qed.

(** A year of four digits is printed with its four digits, which give the
    year back. *)
Lemma year_decode (n : nat) :
  (1000 <= n < 100 * 100)%nat ->
  String.length (str_nat n) = 4%nat /\ digits_value (str_nat n) 0 = n.
Proof.
  intros Hn.
  assert (Hall : forallb (fun n => (String.length (str_nat n) =? 4)%nat
                                   && (digits_value (str_nat n) 0 =? n)%nat)
                         (seq 1000 (90 * 100)) = true)
    by (vm_compute; reflexivity).
  rewrite forallb_forall in Hall. specialize (Hall n).
  rewrite in_seq in Hall.
  assert (Hin : (1000 <= n < 1000 + 90 * 100)%nat) by lia.
  apply Hall in Hin. apply andb_true_iff in Hin as [H1 H2].
  apply Nat.eqb_eq in H1, H2. now split.
Qed.

(** For valid date-times from the year 1000 on, where every C library
    prints the year with four digits, the rendering has always eighteen
    characters, fourteen digits, a point and three digits of milliseconds,
    and two date-times are rendered alike exactly when they agree up to the
    millisecond. *)
Theorem render_ofx_date_fixed_width :
  forall d d' : datetime,
    valid_datetime d -> valid_datetime d' ->
    (1000 <= year d)%nat -> (1000 <= year d')%nat ->
    String.length (render_ofx_date d) = 18%nat
    /\ String.get 14 (render_ofx_date d) = Some "."%char
    /\ (render_ofx_date d = render_ofx_date d' <->
        year d = year d' /\ month d = month d' /\ day d = day d'
        /\ hour d = hour d' /\ minute d = minute d' /\ second d = second d'
        /\ (microsecond d / 1000 = microsecond d' / 1000)%nat).
Proof.
  assert (Hparts : forall d, valid_datetime d -> (1000 <= year d)%nat ->
            ((String.length (str_nat (year d)) = 4
              /\ digits_value (str_nat (year d)) 0 = year d)
            /\ (String.length (zero_pad 2 (month d)) = 2
                /\ digits_value (zero_pad 2 (month d)) 0 = month d)
            /\ (String.length (zero_pad 2 (day d)) = 2
                /\ digits_value (zero_pad 2 (day d)) 0 = day d)
            /\ (String.length (zero_pad 2 (hour d)) = 2
                /\ digits_value (zero_pad 2 (hour d)) 0 = hour d)
            /\ (String.length (zero_pad 2 (minute d)) = 2
                /\ digits_value (zero_pad 2 (minute d)) 0 = minute d)
            /\ (String.length (zero_pad 2 (second d)) = 2
                /\ digits_value (zero_pad 2 (second d)) 0 = second d)
            /\ (String.length (zero_pad 3 (microsecond d / 1000)) = 3
                /\ digits_value (zero_pad 3 (microsecond d / 1000)) 0
                   = microsecond d / 1000))%nat).
  { intros d (Hy & Hm & Hd & Hh & Hmi & Hs & Hus) Hy4.
    split; [apply year_decode; lia|].
    repeat split; apply zero_pad_decode; try (left; split; [reflexivity|lia]).
    all: right; split; [reflexivity|].
    all: apply Nat.Div0.div_lt_upper_bound; lia. }
  intros d d' Hv Hv' Hy4 Hy4'.
  destruct (Hparts d Hv Hy4)
    as ([Ly Vy] & [Lm Vm] & [Ld Vd] & [Lh Vh] & [Lmi Vmi] & [Ls Vs]
        & [Lms Vms]).
  destruct (Hparts d' Hv' Hy4')
    as ([Ly' Vy'] & [Lm' Vm'] & [Ld' Vd'] & [Lh' Vh'] & [Lmi' Vmi']
        & [Ls' Vs'] & [Lms' Vms']).
  unfold render_ofx_date, strftime_YmdHMS. rewrite !append_assoc.
  split; [|split].
  - rewrite !string_length_append, Ly, Lm, Ld, Lh, Lmi, Ls, Lms. reflexivity.
  - destruct (str_nat (year d)) as [|? [|? [|? [|? [|]]]]];
      try discriminate Ly.
    destruct (zero_pad 2 (month d)) as [|? [|? [|]]]; try discriminate Lm.
    destruct (zero_pad 2 (day d)) as [|? [|? [|]]]; try discriminate Ld.
    destruct (zero_pad 2 (hour d)) as [|? [|? [|]]]; try discriminate Lh.
    destruct (zero_pad 2 (minute d)) as [|? [|? [|]]]; try discriminate Lmi.
    destruct (zero_pad 2 (second d)) as [|? [|? [|]]]; try discriminate Ls.
    reflexivity.
  - split.
    + intros H.
      apply append_inj_length in H as [Ey H]; [|congruence].
      apply append_inj_length in H as [Em H]; [|congruence].
      apply append_inj_length in H as [Ed H]; [|congruence].
      apply append_inj_length in H as [Eh H]; [|congruence].
      apply append_inj_length in H as [Emi H]; [|congruence].
      apply append_inj_length in H as [Es H]; [|congruence].
      apply append_inj_length in H as [_ Ems]; [|reflexivity].
      rewrite <- Vy, <- Vm, <- Vd, <- Vh, <- Vmi, <- Vs, <- Vms.
      rewrite <- Vy', <- Vm', <- Vd', <- Vh', <- Vmi', <- Vs', <- Vms'.
      now rewrite Ey, Em, Ed, Eh, Emi, Es, Ems.
    + intros (-> & -> & -> & -> & -> & -> & ->). reflexivity.
Qed.

Lemma render_ofx_date_fixed_width_witness :
  valid_datetime (morning example_clock)
  /\ valid_datetime (trade_date example_clock)
  /\ (1000 <= year (morning example_clock))%nat
  /\ (1000 <= year (trade_date example_clock))%nat
  /\ String.length (render_ofx_date (morning example_clock)) = 18%nat.
Proof.
  assert (H1 : valid_datetime (morning example_clock)).
  { unfold valid_datetime, example_clock.
    cbn [morning year month day hour minute second microsecond]. lia. }
  assert (H2 : valid_datetime (trade_date example_clock)).
  { unfold valid_datetime, example_clock.
    cbn [trade_date year month day hour minute second microsecond]. lia. }
  assert (H3 : (1000 <= year (morning example_clock))%nat).
  { unfold example_clock. cbn [morning year]. lia. }
  assert (H4 : (1000 <= year (trade_date example_clock))%nat).
  { unfold example_clock. cbn [trade_date year]. lia. }
  split; [exact H1|]. split; [exact H2|].
  split; [exact H3|]. split; [exact H4|].
  exact (proj1 (render_ofx_date_fixed_width _ _ H1 H2 H3 H4)).
Defined.

(** ** The holdings report as a whole *)

(** A holdings report that could be constructed and is relative always has
    a currency: its rows are the holdings converted to that currency, then
    grouped if a grouping was asked for, then reduced to fractions, then
    sorted if the grouping has a sort key; its columns are those of the
    relative field spec, among which there is no account, number of units
    or book value.  A report that is not relative has the columns of
    [FIELD_SPEC]. *)
Theorem holdings_report_relative :
  forall (ops : Ops) (args : HoldingsArgs) (L : Ledger) (t : Table Holding),
    run_holdings_report ops args L = Ok t ->
    (args_relative args = true ->
     exists c,
       args_currency args = Some c /\ c <> ""
       /\ table_field_spec t = RELATIVE_FIELD_SPEC
       /\ Forall (fun fd : field_desc =>
                    ~ In (fst (fst fd)) ["account"; "number"; "book_value"])
                 (table_field_spec t)
       /\ exists grouped,
           grouped
           = match args_groupby args with
             | Some g =>
                 match kw_aggregation_key (aggregations ops g) with
                 | Some key =>
                     aggregate_holdings_by
                       ops
                       (convert_to_currency ops (price_map L) c
                                            (final_holdings L))
                       key
                 | None =>
                     convert_to_currency ops (price_map L) c
                                         (final_holdings L)
                 end
             | None =>
                 convert_to_currency ops (price_map L) c (final_holdings L)
             end
           /\ table_rows t
              = match args_groupby args with
                | Some g =>
                    match kw_sort_key (aggregations ops g) with
                    | Some key =>
                        sort_reverse key (reduce_relative ops grouped)
                    | None => reduce_relative ops grouped
                    end
                | None => reduce_relative ops grouped
                end)
    /\ (args_relative args = false -> table_field_spec t = FIELD_SPEC).
Proof.
  intros ops args L t. unfold run_holdings_report, HoldingsReport_init.
  cbn [self_args].
  destruct (args_relative args) eqn:Hr; cbn [andb].
  - destruct (args_currency args) as [c|] eqn:Hc; cbn [opt_str_truthy negb];
      [|discriminate].
    destruct (str_truthy c) eqn:Ht; cbn [negb bind]; [|discriminate].
    intros [= <-]. split; [|discriminate]. intros _.
    exists c. split; [reflexivity|].
    split; [now apply str_truthy_iff|].
    unfold HoldingsReport_generate_table, report_holdings,
      get_assets_holdings.
    cbn [self_args]. rewrite Hr, Hc, Ht.
    destruct (args_groupby args) as [g|];
      [destruct (kw_aggregation_key (aggregations ops g));
       destruct (kw_sort_key (aggregations ops g))|];
      cbn [kw_aggregation_key kw_sort_key table_field_spec table_rows];
      (split; [reflexivity|];
       split; [repeat constructor; cbn;
               intros H; repeat (destruct H as [H|H]; [discriminate H|]);
               exact H|];
       eexists; split; reflexivity).
  - cbn [bind]. intros [= <-]. split; [discriminate|]. intros _.
    unfold HoldingsReport_generate_table, report_holdings,
      get_assets_holdings.
    cbn [self_args]. rewrite Hr.
    destruct (args_currency args) as [c|]; [destruct (str_truthy c)|];
      (destruct (args_groupby args) as [g|];
       [destruct (kw_aggregation_key (aggregations ops g));
        destruct (kw_sort_key (aggregations ops g))|]); reflexivity.
Qed.

Lemma holdings_report_relative_witness :
  run_holdings_report spec_ops (mkHoldingsArgs (Some "USD") true None)
                      ledger_cash_then_stock
  = Ok (HoldingsReport_generate_table
          spec_ops (mkHoldingsReport (mkHoldingsArgs (Some "USD") true None))
          ledger_cash_then_stock)
  /\ table_field_spec
       (HoldingsReport_generate_table
          spec_ops (mkHoldingsReport (mkHoldingsArgs (Some "USD") true None))
          ledger_cash_then_stock)
     = RELATIVE_FIELD_SPEC.
Proof.
  assert (H : run_holdings_report spec_ops
                (mkHoldingsArgs (Some "USD") true None)
                ledger_cash_then_stock
              = Ok (HoldingsReport_generate_table
                      spec_ops
                      (mkHoldingsReport (mkHoldingsArgs (Some "USD") true None))
                      ledger_cash_then_stock)) by reflexivity.
  split; [exact H|].
  destruct (proj1 (holdings_report_relative _ _ _ _ H) eq_refl)
    as (c & _ & _ & Hspec & _).
  exact Hspec.
Defined.
